(** * MCP server: tool registry, invocation dispatcher and protocol adapter

    A shallow embedding of the dispatcher core of the repository:
    - [ToolManager] (Java, handlers/ToolManager.java),
    - [ToolsRegistry] (JavaScript, tools/ToolsRegistry.js),
    - [MCPProtocolHandler] (Java, protocol/MCPProtocolHandler.java),
    - [FileSystemTool] (Java, tools/FileSystemTool.java),
    - [ResourceManager] (Java, handlers/ResourceManager.java),
    - [StdioTransport] (Java, transport/StdioTransport.java),
    - [LLMManager] (JavaScript, llm/LLMManager.js),
    - the tool-call handlers of the two JavaScript servers,
    followed by the properties of the specification, each stated over these
    definitions, and by further properties of the code. *)

From Stdlib Require Import ZArith String Ascii List Bool Lia DecimalString.
From stdpp Require Import gmap strings list fin_maps.

Set Warnings "-register-all".
Open Scope string_scope.

(** ** Java strings *)

Module JString.

(** [String.startsWith]. *)
Definition startsWith (s p : string) : bool := String.prefix p s.

(** [String.contains]. *)
Fixpoint contains (s sub : string) : bool :=
  String.prefix sub s ||
  match s with
  | EmptyString => false
  | String _ s' => contains s' sub
  end.

(** [String.replace(char, char)]. *)
Fixpoint replace (old new : ascii) (s : string) : string :=
  match s with
  | EmptyString => EmptyString
  | String c s' =>
      String (if Ascii.eqb c old then new else c) (replace old new s')
  end.

(** [String.substring(n)] for [n] within the string. *)
Fixpoint substring (n : nat) (s : string) : string :=
  match n, s with
  | O, _ => s
  | S n', String _ s' => substring n' s'
  | S _, EmptyString => EmptyString
  end.

(** Characters that [String.trim] strips: code points up to U+0020. *)
Definition isTrimmable (c : ascii) : bool := (nat_of_ascii c <=? 32)%nat.

Fixpoint all_trimmable (s : string) : bool :=
  match s with
  | EmptyString => true
  | String c s' => isTrimmable c && all_trimmable s'
  end.

(** [s.trim().isEmpty()]: nothing is left once the blanks at both ends
    are stripped, that is, when every character is a blank. *)
Definition trim_isEmpty (s : string) : bool := all_trimmable s.

(** Splitting at a separator character, empty pieces included. *)
Fixpoint split_aux (sep : ascii) (s acc : string) : list string :=
  match s with
  | EmptyString => [String.rev acc]
  | String c s' =>
      if Ascii.eqb c sep then String.rev acc :: split_aux sep s' EmptyString
      else split_aux sep s' (String c acc)
  end.

Definition split (sep : ascii) (s : string) : list string :=
  split_aux sep s EmptyString.

(** [String.join(sep, pieces)]. *)
Fixpoint join (sep : string) (l : list string) : string :=
  match l with
  | [] => EmptyString
  | [x] => x
  | x :: rest => x +:+ sep +:+ join sep rest
  end.

(** String concatenation with a possibly-null reference: Java prints
    the four letters [null]. *)
Definition orNull (o : option string) : string :=
  match o with Some s => s | None => "null" end.

(** [Long.toString] / [Integer.toString]. *)
Definition ofZ (z : Z) : string := NilZero.string_of_int (Z.to_int z).

(** [String.trim], in two passes: the blanks at the start are dropped,
    then the blanks at the end. *)
Fixpoint trimStart (s : string) : string :=
  match s with
  | EmptyString => EmptyString
  | String c s' => if isTrimmable c then trimStart s' else s
  end.

Fixpoint trimEnd (s : string) : string :=
  match s with
  | EmptyString => EmptyString
  | String c s' =>
      match trimEnd s' with
      | EmptyString => if isTrimmable c then EmptyString else String c EmptyString
      | t => String c t
      end
  end.

Definition trim (s : string) : string := trimEnd (trimStart s).

(** [String.endsWith]. *)
Fixpoint endsWith (s suffix : string) : bool :=
  String.eqb s suffix ||
  match s with
  | EmptyString => false
  | String _ s' => endsWith s' suffix
  end.

(** The line feed. *)
Definition LF : string := String (ascii_of_nat 10) EmptyString.

(** [s.indexOf(c) < 0]: the character does not occur in the string. *)
Definition lacks (c : ascii) (s : string) : Prop :=
  ~ In c (list_ascii_of_string s).

End JString.

(** ** Jackson's JSON tree *)

Inductive JsonNode : Type :=
| NullNode
| BooleanNode (b : bool)
| IntNode (z : Z)
| DoubleNode (repr : string)   (* a non-integral number, with the text that the language at hand prints for it *)
| TextNode (s : string)
| ArrayNode (items : list JsonNode)
| ObjectNode (fields : list (string * JsonNode)).

Module Json.

(** Field lookup in a [LinkedHashMap]-backed object. *)
Fixpoint assoc (fields : list (string * JsonNode)) (k : string) : option JsonNode :=
  match fields with
  | [] => None
  | (k', v) :: rest => if String.eqb k' k then Some v else assoc rest k
  end.

(** [ObjectNode.set] / [put]: an existing key keeps its position, a new
    key goes last. *)
Fixpoint assoc_set (fields : list (string * JsonNode)) (k : string) (v : JsonNode)
  : list (string * JsonNode) :=
  match fields with
  | [] => [(k, v)]
  | (k', v') :: rest =>
      if String.eqb k' k then (k', v) :: rest else (k', v') :: assoc_set rest k v
  end.

(** [JsonNode.get(String)]: Java [null] unless the node is an object
    that has the field. *)
Definition get (n : JsonNode) (k : string) : option JsonNode :=
  match n with
  | ObjectNode fields => assoc fields k
  | _ => None
  end.

(** [JsonNode.has(String)]. *)
Definition has (n : JsonNode) (k : string) : bool :=
  match get n k with Some _ => true | None => false end.

Definition isObject (n : JsonNode) : bool :=
  match n with ObjectNode _ => true | _ => false end.

(** [JsonNode.asText()]: value nodes print their value, containers give
    the empty string. *)
Definition asText (n : JsonNode) : string :=
  match n with
  | NullNode => "null"
  | BooleanNode true => "true"
  | BooleanNode false => "false"
  | IntNode z => JString.ofZ z
  | DoubleNode r => r
  | TextNode s => s
  | ArrayNode _ => ""
  | ObjectNode _ => ""
  end.

(** [n.path(k).asText()]: a missing node prints as the empty string. *)
Definition pathText (n : JsonNode) (k : string) : string :=
  match get n k with Some v => asText v | None => "" end.

(** [JsonNode.asBoolean()]. *)
Definition asBoolean (n : JsonNode) : bool :=
  match n with
  | BooleanNode b => b
  | IntNode z => negb (z =? 0)%Z
  | TextNode s => String.eqb s "true"
  | _ => false
  end.

(** [ObjectNode.set(k, v)] with a possibly-null [v]: Jackson stores a
    [NullNode] for a Java [null]. *)
Definition orNull (o : option JsonNode) : JsonNode :=
  match o with Some v => v | None => NullNode end.

(** An object built by successive [put]/[set] calls. *)
Definition object (kvs : list (string * JsonNode)) : JsonNode :=
  ObjectNode (fold_left (fun acc kv => assoc_set acc kv.1 kv.2) kvs []).

End Json.

(** ** Java exceptions *)

Inductive ExceptionClass : Type :=
| IllegalArgumentException
| IllegalStateException
| SecurityException
| RuntimeException
| NullPointerException
| InvalidPathException
| JsonProcessingException
| OtherException (name : string).

Inductive Throwable : Type :=
| Throw (cls : ExceptionClass) (message : option string) (cause : option Throwable).

Definition getClass (e : Throwable) : ExceptionClass :=
  match e with Throw c _ _ => c end.
Definition getMessage (e : Throwable) : option string :=
  match e with Throw _ m _ => m end.
Definition getCause (e : Throwable) : option Throwable :=
  match e with Throw _ _ c => c end.

(** A Java method that may throw: the exception on the left. *)
Definition Try (A : Type) : Type := Throwable + A.

(** ** [java.util.concurrent.atomic.AtomicLong] *)

Module AtomicLong.
Definition MAX_VALUE : Z := 2 ^ 63 - 1.
Definition MIN_VALUE : Z := - 2 ^ 63.
(** Two's-complement wrap-around of a 64-bit [long]. *)
Definition wrap (z : Z) : Z := ((z + 2 ^ 63) mod 2 ^ 64 - 2 ^ 63)%Z.
Definition incrementAndGet (n : Z) : Z := wrap (n + 1).
End AtomicLong.

(** ** The hash of a string and its bin in a [ConcurrentHashMap] *)

Module JavaHash.
(** Two's-complement wrap-around of a 32-bit [int]. *)
Definition wrap32 (z : Z) : Z := ((z + 2 ^ 31) mod 2 ^ 32 - 2 ^ 31)%Z.

(** [String.hashCode()], for a string of ASCII characters:
    [h = 31 * h + c] over the characters, in [int] arithmetic. *)
Fixpoint hashCode_from (h : Z) (s : string) : Z :=
  match s with
  | EmptyString => h
  | String c s' => hashCode_from (wrap32 (31 * h + Z.of_nat (nat_of_ascii c))) s'
  end.

Definition hashCode (s : string) : Z := hashCode_from 0 s.

(** [ConcurrentHashMap.spread(h)]: [(h ^ (h >>> 16)) & 0x7fffffff], the
    shift being the unsigned one. *)
Definition spread (h : Z) : Z :=
  let u := (h mod 2 ^ 32)%Z in
  Z.land (Z.lxor u (Z.shiftr u 16)) (2 ^ 31 - 1).

(** The index of the bin of a key in a table of [n] bins, [n] a power of
    two; a new map has 16 bins, and its iterators walk the bins from 0
    upwards. *)
Definition bin (n : Z) (key : string) : Z :=
  Z.land (n - 1) (spread (hashCode key)).
End JavaHash.

(** ** The walk of a [ConcurrentHashMap] *)

Module ConcurrentHashMap.

(** The bin of a key in the table of a map made by [new
    ConcurrentHashMap<>()]: 16 bins, until the map holds 12 keys, or more
    than 8 in one bin, and the table grows. *)
Definition binOf (key : string) : Z := JavaHash.bin 16 key.

(** [put] appends a new key to the list of its bin and leaves a key that
    is there in its place; [remove] unlinks the key.  So a bin holds its
    keys in the order in which they came in.  That order is kept as the
    list of the keys of the map, the latest first; the turn of a key is
    its place in it, counted from the oldest, and 0 for a key that is not
    there. *)
Fixpoint turn (arrivals : list string) (key : string) : nat :=
  match arrivals with
  | [] => 0
  | k :: rest => if String.eqb k key then S (length rest) else turn rest key
  end.

(** The arrivals once the key is unlinked. *)
Fixpoint forget (key : string) (arrivals : list string) : list string :=
  match arrivals with
  | [] => []
  | k :: rest => if String.eqb k key then rest else k :: forget key rest
  end.

(** The iterators of the map walk the table from bin 0 upwards, and each
    bin from its first key on: a key comes before another one when its bin
    is lower or, in the same bin, when it came in first. *)
Definition before (arrivals : list string) (k1 k2 : string) : bool :=
  (binOf k1 <? binOf k2)%Z
  || ((binOf k1 =? binOf k2)%Z && (turn arrivals k1 <=? turn arrivals k2)%nat).

Section WithValue.
Context {V : Type}.

Fixpoint place (arrivals : list string) (entry : string * V)
  (walked : list (string * V)) : list (string * V) :=
  match walked with
  | [] => [entry]
  | e :: rest =>
      if before arrivals entry.1 e.1 then entry :: walked
      else e :: place arrivals entry rest
  end.

(** The entries of the map in the order of the walk. *)
Definition walk (arrivals : list string) (entries : list (string * V))
  : list (string * V) :=
  fold_right (place arrivals) [] entries.

End WithValue.
End ConcurrentHashMap.

(** ** ToolManager (Java) *)

Module ToolManager.
Section WithWorld.

(** The state of the external collaborators (document store, text
    generation provider, file system) that a handler may read or change. *)
Context {World : Type}.

(** [ToolManager.MCPTool]: the interface of a tool.  [getName] may be a
    Java [null]; [isEnabled] is the answer the tool object gives at
    present; [execute] runs against the collaborators and either returns
    a JSON text or throws an [Exception] (the [Error]s of the virtual
    machine are left out). *)
Record MCPTool : Type := {
  getName : option string;
  getDescription : string;
  getCategory : string;
  getInputSchema : JsonNode;
  execute : option JsonNode -> World -> Try string * World;
  requiresAuth : bool;
  getVersion : string;
  isEnabled : bool
}.

(** The fields of a [ToolManager].  [tools] is a [ConcurrentHashMap]:
    keyed lookup, and an iteration that walks the hash table, in an order
    that is not the order of insertion.  Its content is kept here as a
    finite map, and the order in which its keys came in, the latest
    first, as [arrivals], for the walk of the table. *)
Record ToolManager : Type := {
  tools : gmap string MCPTool;
  arrivals : list string;
  executionCount : Z;
  errorCount : Z
}.

Definition newToolManager : ToolManager :=
  {| tools := ∅; arrivals := []; executionCount := 0; errorCount := 0 |}.

(** The same manager with other tool objects in its map, key for key. *)
Definition with_tools (f : gmap string MCPTool -> gmap string MCPTool)
  (tm : ToolManager) : ToolManager :=
  {| tools := f (tools tm);
     arrivals := arrivals tm;
     executionCount := executionCount tm;
     errorCount := errorCount tm |}.

Definition incr_executionCount (tm : ToolManager) : ToolManager :=
  {| tools := tools tm;
     arrivals := arrivals tm;
     executionCount := AtomicLong.incrementAndGet (executionCount tm);
     errorCount := errorCount tm |}.

Definition incr_errorCount (tm : ToolManager) : ToolManager :=
  {| tools := tools tm;
     arrivals := arrivals tm;
     executionCount := executionCount tm;
     errorCount := AtomicLong.incrementAndGet (errorCount tm) |}.

(** [tools.put(name, tool)]: the tool of a name that is there is replaced
    where it is; a new name comes in last. *)
Definition put (name : string) (t : MCPTool) (tm : ToolManager) : ToolManager :=
  {| tools := <[name := t]> (tools tm);
     arrivals := match tools tm !! name with
                 | Some _ => arrivals tm
                 | None => name :: arrivals tm
                 end;
     executionCount := executionCount tm;
     errorCount := errorCount tm |}.

(** [tools.remove(name)]: nothing happens for a name that is not there. *)
Definition remove (name : string) (tm : ToolManager) : ToolManager :=
  match tools tm !! name with
  | None => tm
  | Some _ =>
      {| tools := delete name (tools tm);
         arrivals := ConcurrentHashMap.forget name (arrivals tm);
         executionCount := executionCount tm;
         errorCount := errorCount tm |}
  end.

(** [tools.values()], in the iteration order of the map: the walk of the
    table. *)
Definition values (tm : ToolManager) : list MCPTool :=
  (ConcurrentHashMap.walk (arrivals tm) (map_to_list (tools tm))).*2.

(** [registerTool(tool)], with [None] for a null reference. *)
Definition registerTool (tool : option MCPTool) (tm : ToolManager)
  : Try unit * ToolManager :=
  match tool with
  | None =>
      (inl (Throw IllegalArgumentException
              (Some "La herramienta no puede ser null") None), tm)
  | Some t =>
      match getName t with
      | None =>
          (inl (Throw IllegalArgumentException
                  (Some "El nombre de la herramienta no puede estar vacío") None), tm)
      | Some name =>
          if JString.trim_isEmpty name then
            (inl (Throw IllegalArgumentException
                    (Some "El nombre de la herramienta no puede estar vacío") None), tm)
          else if negb (isEnabled t) then (inr tt, tm)
          else (inr tt, put name t tm)
      end
  end.

(** [unregisterTool(name)]. *)
Definition unregisterTool (name : string) (tm : ToolManager) : ToolManager :=
  remove name tm.

(** The lookup every reader of the registry starts with: [tools.get(name)]. *)
Definition lookup (name : string) (tm : ToolManager) : option MCPTool :=
  tools tm !! name.

Definition nameNode (t : MCPTool) : JsonNode :=
  Json.orNull (TextNode <$> getName t).

(** The JSON node that [getToolsListAsJson] builds for one tool. *)
Definition toolNode (t : MCPTool) : JsonNode :=
  Json.object
    [ ("name", nameNode t);
      ("description", TextNode (getDescription t));
      ("inputSchema", getInputSchema t);
      ("_metadata",
        Json.object
          [ ("category", TextNode (getCategory t));
            ("version", TextNode (getVersion t));
            ("requiresAuth", BooleanNode (requiresAuth t)) ]) ].

(** [getToolsListAsJson]: one node per value of the map; there is no
    test of [isEnabled] in this loop. *)
Definition getToolsListAsJson (tm : ToolManager) : list JsonNode :=
  toolNode <$> values tm.

(** [executeTool(toolName, arguments, mapper)]. *)
Definition executeTool (toolName : string) (arguments : option JsonNode)
  (tm : ToolManager) (w : World) : Try string * ToolManager * World :=
  let tm1 := incr_executionCount tm in
  match tools tm1 !! toolName with
  | None =>
      (inl (Throw IllegalArgumentException
              (Some ("Herramienta no encontrada: " +:+ toolName)) None),
       incr_errorCount tm1, w)
  | Some tool =>
      if negb (isEnabled tool) then
        (inl (Throw IllegalStateException
                (Some ("Herramienta deshabilitada: " +:+ toolName)) None),
         incr_errorCount tm1, w)
      else
        match execute tool arguments w with
        | (inr result, w') => (inr result, tm1, w')
        | (inl e, w') =>
            (inl (Throw RuntimeException
                    (Some ("Error ejecutando herramienta " +:+ toolName +:+ ": "
                           +:+ JString.orNull (getMessage e)))
                    (Some e)),
             incr_errorCount tm1, w')
        end
  end.

(** [hasToolEnabled(name)]. *)
Definition hasToolEnabled (name : string) (tm : ToolManager) : bool :=
  match tools tm !! name with
  | Some tool => isEnabled tool
  | None => false
  end.

(** [getToolInfo(toolName, mapper)]: [None] for Java [null]. *)
Definition getToolInfo (toolName : string) (tm : ToolManager) : option JsonNode :=
  match tools tm !! toolName with
  | None => None
  | Some tool =>
      Some (Json.object
              [ ("name", nameNode tool);
                ("description", TextNode (getDescription tool));
                ("category", TextNode (getCategory tool));
                ("version", TextNode (getVersion tool));
                ("enabled", BooleanNode (isEnabled tool));
                ("requiresAuth", BooleanNode (requiresAuth tool));
                ("inputSchema", getInputSchema tool) ])
  end.

(** [getToolCount()]: the tools that answer [isEnabled() = true]. *)
Definition getToolCount (tm : ToolManager) : nat :=
  length (List.filter isEnabled (values tm)).

(** [getTotalToolCount()]: every tool, the disabled ones included. *)
Definition getTotalToolCount (tm : ToolManager) : nat := size (tools tm).

(** [cleanup()]: [tools.clear()]. *)
Definition cleanup (tm : ToolManager) : ToolManager :=
  {| tools := ∅;
     arrivals := [];
     executionCount := executionCount tm;
     errorCount := errorCount tm |}.

(** A tool object is shared between the map and its owner: when the
    object starts to answer [isEnabled() = b], the entry of the map is that
    same object.  [toggleToolStatus] notes that a tool may support such a
    change of state; [registerTool] reads the flag once, at registration. *)
Definition setEnabled (b : bool) (t : MCPTool) : MCPTool :=
  {| getName := getName t; getDescription := getDescription t;
     getCategory := getCategory t; getInputSchema := getInputSchema t;
     execute := execute t; requiresAuth := requiresAuth t;
     getVersion := getVersion t; isEnabled := b |}.

(** The same tool but for the schema it declares. *)
Definition withInputSchema (schema : JsonNode) (t : MCPTool) : MCPTool :=
  {| getName := getName t; getDescription := getDescription t;
     getCategory := getCategory t; getInputSchema := schema;
     execute := execute t; requiresAuth := requiresAuth t;
     getVersion := getVersion t; isEnabled := isEnabled t |}.

Definition toolStateChanged (name : string) (b : bool) (tm : ToolManager)
  : ToolManager :=
  with_tools (fun m => alter (setEnabled b) name m) tm.

(** The calls that a client of the registry can make, and a run of them. *)
Inductive Op : Type :=
| OpRegister (tool : option MCPTool)
| OpUnregister (name : string)
| OpExecute (toolName : string) (arguments : option JsonNode).

Definition step (st : ToolManager * World) (op : Op) : ToolManager * World :=
  match op with
  | OpRegister tool => ((registerTool tool st.1).2, st.2)
  | OpUnregister name => (unregisterTool name st.1, st.2)
  | OpExecute toolName arguments =>
      let '(_, tm', w') := executeTool toolName arguments st.1 st.2 in (tm', w')
  end.

Definition run (ops : list Op) (st : ToolManager * World) : ToolManager * World :=
  fold_left step ops st.

(** A call leaves the descriptor [d] registered under [name] in place:
    it does not unregister [name], and what it registers under [name], if
    anything, is [d] again. *)
Definition keeps (name : string) (d : MCPTool) (op : Op) : Prop :=
  match op with
  | OpRegister (Some t) =>
      getName t = Some name -> isEnabled t = true -> t = d
  | OpRegister None => True
  | OpUnregister n => n <> name
  | OpExecute _ _ => True
  end.

(** [getToolsByCategory(category)]: the names of the enabled tools of the
    category, as a set. *)
Definition getToolsByCategory (category : string) (tm : ToolManager) : gset string :=
  dom (filter (fun kv => getCategory kv.2 = category /\ isEnabled kv.2 = true)
         (tools tm)).

(** [getAvailableCategories()]: the categories of the enabled tools, as a
    set. *)
Definition getAvailableCategories (tm : ToolManager) : gset string :=
  list_to_set (getCategory <$> List.filter isEnabled (values tm)).

(** The number of [executeTool] calls in a run. *)
Definition executions (ops : list Op) : nat :=
  length (List.filter (fun op => match op with OpExecute _ _ => true | _ => false end) ops).

End WithWorld.

Arguments MCPTool : clear implicits.
Arguments ToolManager : clear implicits.
Arguments Op : clear implicits.
End ToolManager.

(** ** ToolsRegistry (JavaScript) *)

(** A JavaScript [Map] with string keys: entries are kept in the order in
    which their keys were first inserted. *)
Module JSMap.
Section WithValue.
Context {V : Type}.

(** [Map.prototype.set]: an existing key keeps its place. *)
Fixpoint set (m : list (string * V)) (k : string) (v : V) : list (string * V) :=
  match m with
  | [] => [(k, v)]
  | (k', v') :: rest =>
      if String.eqb k' k then (k', v) :: rest else (k', v') :: set rest k v
  end.

Fixpoint get (m : list (string * V)) (k : string) : option V :=
  match m with
  | [] => None
  | (k', v) :: rest => if String.eqb k' k then Some v else get rest k
  end.

Definition has (m : list (string * V)) (k : string) : bool :=
  match get m k with Some _ => true | None => false end.

Definition values (m : list (string * V)) : list V := m.*2.

Definition keys (m : list (string * V)) : list string := m.*1.

Definition size (m : list (string * V)) : nat := length m.

End WithValue.



End JSMap.

(** ** The numbers of JavaScript *)

Module JSNumber.

(** The Number value of a natural number: the number itself up to [2^53],
    and above it the nearest number with 53 significant bits, the even
    one of two that are equally near.  From [2^1024] on the value is
    [Infinity]. *)
Definition nearest (a : Z) : Z :=
  if (a <? 2 ^ 53)%Z then a
  else
    let shift := (Z.log2 a - 52)%Z in
    let q := Z.shiftr a shift in
    let rest := (a - Z.shiftl q shift)%Z in
    let half := (2 ^ (shift - 1))%Z in
    let q := if (half <? rest)%Z || ((rest =? half)%Z && Z.odd q)
             then (q + 1)%Z else q in
    Z.shiftl q shift.

(** Whether the decimal [v] reads back as the Number [d], for [d] from
    [2^53] on: [v] is within half the gap to the neighbours of [d], the
    ends of that range counting when the significand of [d] is even.
    Below a power of two the gap is half the gap above it. *)
Definition readsBackAs (d v : Z) : bool :=
  let e := (Z.log2 d - 52)%Z in
  let m := Z.shiftr d e in
  let above := (2 * 2 ^ e)%Z in
  let below := if (m =? 2 ^ 52)%Z then (2 ^ e)%Z else (2 * 2 ^ e)%Z in
  if Z.even m then (4 * d - below <=? 4 * v)%Z && (4 * v <=? 4 * d + above)%Z
  else (4 * d - below <? 4 * v)%Z && (4 * v <? 4 * d + above)%Z.

(** The number of decimal digits of a natural number. *)
Definition countDigits (a : Z) : Z := Z.of_nat (String.length (JString.ofZ a)).

(** The shortest digits of [Number::toString] for a Number [d] of [n]
    digits: the least [k], and for it the [s] with [s * 10^(n-k)] nearest
    to [d] among those that read back as [d], the even one of two that are
    equally near.  The result is [s] and the exponent [n - k]; when [s]
    is rounded up to [10^k] it is 1 with the exponent [n].  [fuel] digits
    are left to try. *)
Fixpoint shortest (fuel : nat) (k : Z) (d n : Z) : Z * Z :=
  match fuel with
  | O => (d, 0%Z)
  | S fuel' =>
      if (n <? k)%Z then (d, 0%Z)
      else
        let scale := (10 ^ (n - k))%Z in
        let low := (d / scale)%Z in
        let high := (low + 1)%Z in
        let lowFits := readsBackAs d (low * scale) in
        let highFits := readsBackAs d (high * scale) in
        let lowGap := (d - low * scale)%Z in
        let highGap := (high * scale - d)%Z in
        let roundedUp := if (high =? 10 ^ k)%Z then (1%Z, n) else (high, (n - k)%Z) in
        if lowFits && highFits then
          if (lowGap <? highGap)%Z then (low, (n - k)%Z)
          else if (highGap <? lowGap)%Z then roundedUp
          else if Z.even low then (low, (n - k)%Z) else roundedUp
        else if lowFits then (low, (n - k)%Z)
        else if highFits then roundedUp
        else shortest fuel' (k + 1)%Z d n
  end.

Fixpoint zeros (n : nat) : string :=
  match n with
  | O => EmptyString
  | S n' => String "0" (zeros n')
  end.

(** [Number::toString] for a Number that is a natural number: the digits
    followed by zeros up to 21 digits, the exponent form beyond. *)
Definition printNatural (a : Z) : string :=
  let d := nearest a in
  if (d <? 2 ^ 53)%Z then JString.ofZ d
  else if (2 ^ 1024 <=? d)%Z then "Infinity"
  else
    let (s, exponent) := shortest 17 1 d (countDigits d) in
    let text := JString.ofZ s in
    let n := (Z.of_nat (String.length text) + exponent)%Z in
    if (n <=? 21)%Z then text +:+ zeros (Z.to_nat exponent)
    else
      match text with
      | String c EmptyString =>
          String c EmptyString +:+ "e+" +:+ JString.ofZ (n - 1)
      | String c rest =>
          String c EmptyString +:+ "." +:+ rest +:+ "e+" +:+ JString.ofZ (n - 1)
      | EmptyString => EmptyString
      end.

(** The text of the Number value of an integer. *)
Definition print (z : Z) : string :=
  if (z <? 0)%Z then "-" +:+ printNatural (- z) else printNatural z.

End JSNumber.

Module ToolsRegistry.

(** A thrown JavaScript error: its [name] ([Error], [TypeError], ...) and
    its [message]. *)
Inductive JSError : Type :=
| JsError (errorName : string) (message : string).

Definition errorMessage (e : JSError) : string :=
  match e with JsError _ m => m end.

(** What a template literal prints for a JSON value ([undefined] is
    [None]): the [ToString] of the language.  An integer is the Number
    nearest to it; a number that is not an integer comes with its text. *)
Fixpoint toStr (v : JsonNode) : string :=
  match v with
  | NullNode => "null"
  | BooleanNode true => "true"
  | BooleanNode false => "false"
  | IntNode z => JSNumber.print z
  | DoubleNode r => r
  | TextNode s => s
  | ArrayNode items =>
      JString.join ","
        (List.map (fun x => match x with NullNode => "" | _ => toStr x end) items)
  | ObjectNode _ => "[object Object]"
  end.

Definition template (v : option JsonNode) : string :=
  match v with Some x => toStr x | None => "undefined" end.

(** Reading property [k] of the value [args] ([args.k]): a [TypeError] on
    [undefined] and [null], the field of an object, [undefined] otherwise. *)
Definition getProp (args : option JsonNode) (k : string) : JSError + option JsonNode :=
  match args with
  | None =>
      inl (JsError "TypeError"
             ("Cannot read properties of undefined (reading '" +:+ k +:+ "')"))
  | Some NullNode =>
      inl (JsError "TypeError"
             ("Cannot read properties of null (reading '" +:+ k +:+ "')"))
  | Some (ObjectNode fields) => inr (Json.assoc fields k)
  | Some _ => inr None
  end.

Section WithWorld.
Context {World : Type}.

(** A tool descriptor as [registerTools] builds it.  The handler is an
    [async] function: it runs against the collaborators and resolves to a
    value or rejects with an error. *)
Record Tool : Type := {
  name : string;
  description : string;
  inputSchema : JsonNode;
  handler : option JsonNode -> World -> (JSError + JsonNode) * World
}.

(** [this.tools]. *)
Definition t : Type := list (string * Tool).

(** The [echo] tool of [registerBasicTools]. *)
Definition echo : Tool :=
  {| name := "echo";
     description := "Repite el mensaje proporcionado";
     inputSchema :=
       ObjectNode
         [ ("type", TextNode "object");
           ("properties",
             ObjectNode
               [ ("message",
                   ObjectNode [ ("type", TextNode "string");
                                ("description", TextNode "Mensaje a repetir") ]) ]);
           ("required", ArrayNode [TextNode "message"]) ];
     handler := fun args w =>
       match getProp args "message" with
       | inl e => (inl e, w)
       | inr m => (inr (TextNode ("Echo: " +:+ template m)), w)
       end |}.


(** [executeTool(name, args)]: the rejection of the handler is thrown
    again as it is. *)
Definition executeTool (toolName : string) (args : option JsonNode)
  (reg : t) (w : World) : (JSError + JsonNode) * World :=
  if negb (JSMap.has reg toolName) then
    (inl (JsError "Error" ("Herramienta '" +:+ toolName +:+ "' no encontrada")), w)
  else
    match JSMap.get reg toolName with
    | Some tool =>
        match handler tool args w with
        | (inr result, w') => (inr result, w')
        | (inl error, w') => (inl error, w')
        end
    | None => (inl (JsError "TypeError"
                      "Cannot read properties of undefined (reading 'handler')"), w)
    end.

(** [getToolInfo(name)]. *)
Definition getToolInfo (toolName : string) (reg : t) : option Tool :=
  JSMap.get reg toolName.

(** [getToolsCount()]. *)
Definition getToolsCount (reg : t) : nat := JSMap.size reg.

(** The same descriptor but for the schema it declares. *)
Definition withInputSchema (schema : JsonNode) (tool : Tool) : Tool :=
  {| name := name tool; description := description tool;
     inputSchema := schema; handler := handler tool |}.


(** A run of [this.tools.set(key, descriptor)] calls, as the four
    [register...Tools] methods make them. *)
Definition sets (kvs : list (string * Tool)) (reg : t) : t :=
  fold_left (fun m kv => JSMap.set m kv.1 kv.2) kvs reg.

End WithWorld.

Arguments Tool : clear implicits.
Arguments t : clear implicits.
End ToolsRegistry.

(** ** MCPProtocolHandler (Java) *)

Module MCPProtocolHandler.

Definition MCP_VERSION : string := "2024-11-05".

(** [createErrorResponse(id, code, message, data)]: [id] may be a Java
    [null], which [ObjectNode.set] stores as a JSON null; [data] is put
    only when it is not [null]. *)
Definition createErrorResponse (id : option JsonNode) (code : Z)
  (message : string) (data : option string) : JsonNode :=
  Json.object
    [ ("jsonrpc", TextNode "2.0");
      ("id", Json.orNull id);
      ("error",
        Json.object
          ([ ("code", IntNode code); ("message", TextNode message) ]
           ++ match data with
              | Some d => [ ("data", TextNode d) ]
              | None => []
              end)%list) ].

(** A response that carries a result. *)
Definition resultResponse (id : option JsonNode) (result : JsonNode) : JsonNode :=
  Json.object
    [ ("jsonrpc", TextNode "2.0"); ("id", Json.orNull id); ("result", result) ].

(** The cases of the [switch] of [handleMessage], by what their handlers
    do.  Three handlers return [null]: *)
Definition answersNothing (method : string) : bool :=
  String.eqb method "initialized"
  || String.eqb method "resources/updated"
  || String.eqb method "notifications/initialized".

(** four handlers start with the test of [isInitialized]: *)
Definition needsInitialized (method : string) : bool :=
  String.eqb method "tools/list"
  || String.eqb method "tools/call"
  || String.eqb method "resources/list"
  || String.eqb method "resources/read".

(** and the methods that have a case at all are these and two more. *)
Definition knownMethod (method : string) : bool :=
  String.eqb method "initialize"
  || String.eqb method "ping"
  || answersNothing method
  || needsInitialized method.

Section WithCollaborators.

Context {World : Type}.

(** Jackson's parser, [ObjectMapper.readTree]: a tree, or a
    [JsonProcessingException]. *)
Variable readTree : string -> Try JsonNode.

(** The message the JVM gives to the [NullPointerException] of a call on a
    [null] reference. *)
Variable npeMessage : option string.

(** The resource manager, used through two of its methods. *)
Context {ResourceManager : Type}.
Variable getResourcesListAsJson : ResourceManager -> list JsonNode.
Variable readResource :
  string -> ResourceManager -> World -> Try string * ResourceManager * World.

(** The fields of the handler, with the two managers it holds. *)
Record MCPProtocolHandler : Type := {
  serverName : string;
  serverVersion : string;
  supportsTools : bool;
  supportsResources : bool;
  supportsPrompts : bool;
  supportsLogging : bool;
  isInitialized : bool;
  toolManager : ToolManager.ToolManager World;
  resourceManager : ResourceManager
}.

Definition set_isInitialized (b : bool) (h : MCPProtocolHandler) : MCPProtocolHandler :=
  {| serverName := serverName h; serverVersion := serverVersion h;
     supportsTools := supportsTools h; supportsResources := supportsResources h;
     supportsPrompts := supportsPrompts h; supportsLogging := supportsLogging h;
     isInitialized := b;
     toolManager := toolManager h; resourceManager := resourceManager h |}.

Definition set_toolManager (tm : ToolManager.ToolManager World)
  (h : MCPProtocolHandler) : MCPProtocolHandler :=
  {| serverName := serverName h; serverVersion := serverVersion h;
     supportsTools := supportsTools h; supportsResources := supportsResources h;
     supportsPrompts := supportsPrompts h; supportsLogging := supportsLogging h;
     isInitialized := isInitialized h;
     toolManager := tm; resourceManager := resourceManager h |}.

Definition set_resourceManager (rm : ResourceManager)
  (h : MCPProtocolHandler) : MCPProtocolHandler :=
  {| serverName := serverName h; serverVersion := serverVersion h;
     supportsTools := supportsTools h; supportsResources := supportsResources h;
     supportsPrompts := supportsPrompts h; supportsLogging := supportsLogging h;
     isInitialized := isInitialized h;
     toolManager := toolManager h; resourceManager := rm |}.

(** What one call of a handler method yields: the text to send back
    ([None] for Java [null]: nothing is sent), the handler and the
    collaborators afterwards. *)
Definition Outcome : Type := option JsonNode * MCPProtocolHandler * World.

(** [handleInitialize(id, params)]. *)
Definition handleInitialize (id params : option JsonNode)
  (h : MCPProtocolHandler) (w : World) : Outcome :=
  let capabilities :=
    ((if supportsTools h
     then [ ("tools", Json.object [ ("listChanged", BooleanNode true) ]) ] else [])
    ++ (if supportsResources h
        then [ ("resources",
                 Json.object [ ("subscribe", BooleanNode false);
                               ("listChanged", BooleanNode true) ]) ] else [])
    ++ (if supportsPrompts h
        then [ ("prompts", Json.object [ ("listChanged", BooleanNode false) ]) ] else [])
    ++ (if supportsLogging h then [ ("logging", Json.object []) ] else []))%list in
  let result :=
    Json.object
      [ ("protocolVersion", TextNode MCP_VERSION);
        ("serverInfo",
          Json.object [ ("name", TextNode (serverName h));
                        ("version", TextNode (serverVersion h)) ]);
        ("capabilities", Json.object capabilities) ] in
  (Some (resultResponse id result), h, w).

(** [handleInitialized(id)]. *)
Definition handleInitialized (id : option JsonNode)
  (h : MCPProtocolHandler) (w : World) : Outcome :=
  (None, set_isInitialized true h, w).

(** [handleToolsList(id)]. *)
Definition handleToolsList (id : option JsonNode)
  (h : MCPProtocolHandler) (w : World) : Outcome :=
  if negb (isInitialized h) then
    (Some (createErrorResponse id (-32002) "Server not initialized"
             (Some "Servidor no inicializado")), h, w)
  else
    let result :=
      Json.object
        [ ("tools", ArrayNode (ToolManager.getToolsListAsJson (toolManager h))) ] in
    (Some (resultResponse id result), h, w).

(** [handleToolsCall(id, params)]. *)
Definition handleToolsCall (id params : option JsonNode)
  (h : MCPProtocolHandler) (w : World) : Outcome :=
  if negb (isInitialized h) then
    (Some (createErrorResponse id (-32002) "Server not initialized"
             (Some "Servidor no inicializado")), h, w)
  else
    match params with
    | None =>
        (Some (createErrorResponse id (-32603) "Internal error" npeMessage), h, w)
    | Some p =>
        let toolName := Json.pathText p "name" in
        let arguments := Json.get p "arguments" in
        match ToolManager.executeTool toolName arguments (toolManager h) w with
        | (inl e, tm', w') =>
            (Some (createErrorResponse id (-32603) "Internal error" (getMessage e)),
             set_toolManager tm' h, w')
        | (inr result, tm', w') =>
            match readTree result with
            | inl e =>
                (Some (createErrorResponse id (-32603) "Internal error" (getMessage e)),
                 set_toolManager tm' h, w')
            | inr tree =>
                (Some (resultResponse id tree), set_toolManager tm' h, w')
            end
        end
    end.

(** [handleResourcesList(id)]. *)
Definition handleResourcesList (id : option JsonNode)
  (h : MCPProtocolHandler) (w : World) : Outcome :=
  if negb (isInitialized h) then
    (Some (createErrorResponse id (-32002) "Server not initialized"
             (Some "Servidor no inicializado")), h, w)
  else
    let result :=
      Json.object
        [ ("resources", ArrayNode (getResourcesListAsJson (resourceManager h))) ] in
    (Some (resultResponse id result), h, w).

(** [handleResourcesRead(id, params)]. *)
Definition handleResourcesRead (id params : option JsonNode)
  (h : MCPProtocolHandler) (w : World) : Outcome :=
  if negb (isInitialized h) then
    (Some (createErrorResponse id (-32002) "Server not initialized"
             (Some "Servidor no inicializado")), h, w)
  else
    match params with
    | None =>
        (Some (createErrorResponse id (-32603) "Internal error" npeMessage), h, w)
    | Some p =>
        let uri := Json.pathText p "uri" in
        match readResource uri (resourceManager h) w with
        | (inl e, rm', w') =>
            (Some (createErrorResponse id (-32603) "Internal error" (getMessage e)),
             set_resourceManager rm' h, w')
        | (inr result, rm', w') =>
            match readTree result with
            | inl e =>
                (Some (createErrorResponse id (-32603) "Internal error" (getMessage e)),
                 set_resourceManager rm' h, w')
            | inr tree =>
                (Some (resultResponse id tree), set_resourceManager rm' h, w')
            end
        end
    end.

(** [handleResourcesUpdated(id, params)]. *)
Definition handleResourcesUpdated (id params : option JsonNode)
  (h : MCPProtocolHandler) (w : World) : Outcome :=
  (None, h, w).

(** [handlePing(id)]; [now] is [System.currentTimeMillis()]. *)
Definition handlePing (now : Z) (id : option JsonNode)
  (h : MCPProtocolHandler) (w : World) : Outcome :=
  let result :=
    Json.object
      [ ("status", TextNode "ok");
        ("server", TextNode (serverName h));
        ("version", TextNode (serverVersion h));
        ("timestamp", IntNode now) ] in
  (Some (resultResponse id result), h, w).

(** [handleNotificationInitialized(id, params)]. *)
Definition handleNotificationInitialized (id params : option JsonNode)
  (h : MCPProtocolHandler) (w : World) : Outcome :=
  (None, h, w).

(** The test that opens [handleMessage]: the [jsonrpc] member is there and
    prints as [2.0]. *)
Definition isJsonRpc2 (messageNode : JsonNode) : bool :=
  Json.has messageNode "jsonrpc"
  && String.eqb "2.0" (Json.pathText messageNode "jsonrpc").

(** The body of [handleMessage] once the message has been read:
    [parsed] is the outcome of [objectMapper.readTree(message)]. *)
Definition handleParsed (now : Z) (parsed : Try JsonNode)
  (h : MCPProtocolHandler) (w : World) : Outcome :=
  match parsed with
  | inl e =>
      (Some (createErrorResponse None (-32603) "Internal error" (getMessage e)), h, w)
  | inr messageNode =>
      if negb (isJsonRpc2 messageNode) then
        (Some (createErrorResponse None (-32600) "Invalid Request"
                 (Some "Mensaje JSON-RPC inválido")), h, w)
      else
        let method := Json.pathText messageNode "method" in
        let id := Json.get messageNode "id" in
        let params := Json.get messageNode "params" in
        if String.eqb method "initialize" then handleInitialize id params h w
        else if String.eqb method "initialized" then handleInitialized id h w
        else if String.eqb method "tools/list" then handleToolsList id h w
        else if String.eqb method "tools/call" then handleToolsCall id params h w
        else if String.eqb method "resources/list" then handleResourcesList id h w
        else if String.eqb method "resources/read" then handleResourcesRead id params h w
        else if String.eqb method "resources/updated" then handleResourcesUpdated id params h w
        else if String.eqb method "ping" then handlePing now id h w
        else if String.eqb method "notifications/initialized"
             then handleNotificationInitialized id params h w
        else
          (Some (createErrorResponse id (-32601) "Method not found"
                   (Some ("Método no implementado: " +:+ method))), h, w)
  end.

(** [handleMessage(message)]: the task it supplies, run to its end.  The
    transport writes the text it yields, and writes nothing for [null]. *)
Definition handleMessage (now : Z) (message : string)
  (h : MCPProtocolHandler) (w : World) : Outcome :=
  handleParsed now (readTree message) h w.

(** [setServerInfo(name, version, tools, resources, prompts, logging)]. *)
Definition setServerInfo (name version : string)
  (tools resources prompts logging : bool)
  (h : MCPProtocolHandler) : MCPProtocolHandler :=
  {| serverName := name; serverVersion := version;
     supportsTools := tools; supportsResources := resources;
     supportsPrompts := prompts; supportsLogging := logging;
     isInitialized := isInitialized h;
     toolManager := toolManager h; resourceManager := resourceManager h |}.

(** A message that is read, is JSON-RPC 2.0 and has the method
    [initialized]. *)
Definition isInitializedMessage (parsed : Try JsonNode) : bool :=
  match parsed with
  | inl _ => false
  | inr messageNode =>
      isJsonRpc2 messageNode
      && String.eqb (Json.pathText messageNode "method") "initialized"
  end.

(** Messages handled one after the other, each with the time at which it
    is handled: the responses in order ([None] where nothing is sent),
    and the handler and the collaborators at the end. *)
Definition handleAll (messages : list (Z * Try JsonNode))
  (h : MCPProtocolHandler) (w : World)
  : list (option JsonNode) * MCPProtocolHandler * World :=
  fold_left
    (fun acc m =>
       let '(responses, h1, w1) := acc in
       let '(response, h2, w2) := handleParsed m.1 m.2 h1 w1 in
       ((responses ++ [response])%list, h2, w2))
    messages ([], h, w).

End WithCollaborators.

Arguments MCPProtocolHandler : clear implicits.
Arguments Outcome : clear implicits.
End MCPProtocolHandler.

(** ** [java.nio.file.Path] on a Unix file system *)

Module Path.

(** A path: whether it starts at the root, and its name elements.  The
    empty path is the relative path without names. *)
Record Path : Type := mkPath { isAbsolute : bool; names : list string }.

Definition nonEmpty (n : string) : bool := negb (String.eqb n "").

(** The parsing of [Paths.get]: runs of slashes separate the names. *)
Definition parse (s : string) : Path :=
  {| isAbsolute := JString.startsWith s "/";
     names := List.filter nonEmpty (JString.split "/" s) |}.

Definition NUL : string := String (ascii_of_nat 0) EmptyString.

(** [Paths.get(s)]: a NUL character is refused with an
    [InvalidPathException]. *)
Definition get (s : string) : Try Path :=
  if JString.contains s NUL then
    inl (Throw InvalidPathException (Some ("Nul character not allowed: " +:+ s)) None)
  else inr (parse s).

(** [normalize()]: [.] is dropped, [..] cancels the name before it, is
    dropped at the root and is kept at the head of a relative path.
    [done] holds the names already settled, last one first. *)
Fixpoint normalize_names (abs : bool) (done : list string) (todo : list string)
  : list string :=
  match todo with
  | [] => rev done
  | n :: rest =>
      if String.eqb n "." then normalize_names abs done rest
      else if String.eqb n ".." then
        match done with
        | top :: done' =>
            if String.eqb top ".." then normalize_names abs (n :: done) rest
            else normalize_names abs done' rest
        | [] =>
            if abs then normalize_names abs [] rest
            else normalize_names abs [n] rest
        end
      else normalize_names abs (n :: done) rest
  end.

Definition normalize (p : Path) : Path :=
  {| isAbsolute := isAbsolute p;
     names := normalize_names (isAbsolute p) [] (names p) |}.

(** [toString()]. *)
Definition toString (p : Path) : string :=
  (if isAbsolute p then "/" else "") +:+ JString.join "/" (names p).

(** [this.resolve(other)]. *)
Definition resolve (this other : Path) : Path :=
  if isAbsolute other then other
  else match names other with
       | [] => this
       | _ =>
           if negb (isAbsolute this) && match names this with [] => true | _ => false end
           then other
           else {| isAbsolute := isAbsolute this;
                   names := (names this ++ names other)%list |}
       end.

Fixpoint names_prefix (p l : list string) : bool :=
  match p, l with
  | [], _ => true
  | x :: p', y :: l' => String.eqb x y && names_prefix p' l'
  | _ :: _, [] => false
  end.

(** [this.startsWith(other)]: same kind of root, and the names of
    [other] open the names of [this]. *)
Definition startsWith (this other : Path) : bool :=
  Bool.eqb (isAbsolute this) (isAbsolute other)
  && names_prefix (names other) (names this).

(** The empty path. *)
(** [getParent()]: the path without its last name; the root for an
    absolute path of one name; [null] for the root, for the empty path and
    for a relative path of one name. *)
Definition getParent (p : Path) : option Path :=
  match names p with
  | [] => None
  | [_] => if isAbsolute p then Some {| isAbsolute := true; names := [] |} else None
  | _ => Some {| isAbsolute := isAbsolute p; names := removelast (names p) |}
  end.

Definition emptyPath : Path := {| isAbsolute := false; names := [] |}.

Definition isEmpty (p : Path) : bool :=
  negb (isAbsolute p) && match names p with [] => true | _ => false end.

(** The names as [getNameCount] and [getName] see them: the empty path has
    one name, the empty one. *)
Definition nameElements (p : Path) : list string :=
  if isEmpty p then [""] else names p.

(** [subpath]: the relative path of a run of name elements. *)
Definition ofElements (l : list string) : Path :=
  {| isAbsolute := false; names := List.filter nonEmpty l |}.

Fixpoint names_eqb (a b : list string) : bool :=
  match a, b with
  | [], [] => true
  | x :: a', y :: b' => String.eqb x y && names_eqb a' b'
  | _, _ => false
  end.

(** [equals]. *)
Definition equals (p q : Path) : bool :=
  Bool.eqb (isAbsolute p) (isAbsolute q) && names_eqb (names p) (names q).

Definition hasDotOrDotDot (l : list string) : bool :=
  existsb (fun n => String.eqb n "." || String.eqb n "..") l.

(** The number of leading elements that two lists share. *)
Fixpoint matching (a b : list string) : nat :=
  match a, b with
  | x :: a', y :: b' => if String.eqb x y then S (matching a' b') else O
  | _, _ => O
  end.

(** [this.relativize(other)]. *)
Definition relativize (this other : Path) : Try Path :=
  if equals other this then inr emptyPath
  else if negb (Bool.eqb (isAbsolute this) (isAbsolute other)) then
    inl (Throw IllegalArgumentException
           (Some "'other' is different type of Path") None)
  else if isEmpty this then inr other
  else
    let dots :=
      hasDotOrDotDot (nameElements this) || hasDotOrDotDot (nameElements other) in
    let base := if dots then normalize this else this in
    let child := if dots then normalize other else other in
    let i := matching (nameElements base) (nameElements child) in
    let childRemaining := ofElements (drop i (nameElements child)) in
    if (i =? length (nameElements base))%nat then inr childRemaining
    else
      let baseRemaining := drop i (nameElements base) in
      if hasDotOrDotDot baseRemaining then
        inl (Throw IllegalArgumentException
               (Some ("Unable to compute relative  path from " +:+ toString this
                      +:+ " to " +:+ toString other)) None)
      else if isEmpty (ofElements baseRemaining) then inr childRemaining
      else
        inr {| isAbsolute := false;
               names := (List.map (fun _ => "..") (List.filter nonEmpty baseRemaining)
                         ++ names childRemaining)%list |}.

End Path.

(** ** FileSystemTool (Java) *)

Module FileSystemTool.

Import Path.

(** The private methods that touch the file system, each with the path it
    is called on.  [execute] ends in exactly one of these calls. *)
Inductive FsCall : Type :=
| readFile (filePath : Path) (arguments : JsonNode)
| writeFile (filePath : Path) (content : string) (arguments : JsonNode)
| listDirectory (dirPath : Path) (recursive : bool)
| getFileInfo (path : Path)
| checkExists (path : Path)
| deleteFile (path : Path)
| createDirectory (path : Path).

(** The path that a call gets as its argument. *)
Definition target (c : FsCall) : Path :=
  match c with
  | readFile p _ | writeFile p _ _ | listDirectory p _
  | getFileInfo p | checkExists p | deleteFile p | createDirectory p => p
  end.

(** The paths that the private method of a call hands to
    [java.nio.file.Files]: its argument (and, in a listing or a recursive
    delete, entries below it) and, in [writeFile], the parent of the
    argument, which is tested for existence and created when missing. *)
Definition touched (c : FsCall) : list Path :=
  match c with
  | writeFile p _ _ =>
      match getParent p with
      | Some parent => [parent; p]
      | None => [p]
      end
  | _ => [target c]
  end.

Section WithBase.

(** The working directory of the process, [System.getProperty("user.dir")]. *)
Variable userDir : string.

(** [basePath], as the constructor sets it. *)
Definition basePath : Path := resolve (parse userDir) (parse "workspace").

(** [validateArguments(arguments)]. *)
Definition validateArguments (arguments : option JsonNode) : Try unit :=
  match arguments with
  | None =>
      inl (Throw IllegalArgumentException
             (Some "Los argumentos deben ser un objeto JSON") None)
  | Some args =>
      if negb (Json.isObject args) then
        inl (Throw IllegalArgumentException
               (Some "Los argumentos deben ser un objeto JSON") None)
      else if negb (Json.has args "action") then
        inl (Throw IllegalArgumentException (Some "Falta el argumento 'action'") None)
      else if negb (Json.has args "path") then
        inl (Throw IllegalArgumentException (Some "Falta el argumento 'path'") None)
      else
        let action := Json.pathText args "action" in
        if String.eqb "write" action && negb (Json.has args "content") then
          inl (Throw IllegalArgumentException
                 (Some "La acción 'write' requiere el argumento 'content'") None)
        else
          let path := Json.pathText args "path" in
          if JString.contains path ".." || JString.startsWith path "/"
             || JString.startsWith path "\" then
            inl (Throw SecurityException (Some ("Ruta no permitida: " +:+ path)) None)
          else inr tt
  end.

(** The test on the characters of the path that ends [validateArguments]. *)
Definition forbidden (path : string) : bool :=
  JString.contains path ".." || JString.startsWith path "/"
  || JString.startsWith path "\".

(** A name that is neither [.] nor [..]. *)
Definition plainName (n : string) : Prop := n <> "." /\ n <> "..".

(** [resolveSafePath(relativePath)]. *)
Definition resolveSafePath (relativePath : string) : Try Path :=
  if JString.trim_isEmpty relativePath then
    inl (Throw IllegalArgumentException (Some "La ruta no puede estar vacía") None)
  else
    let relativePath := JString.replace "\" "/" relativePath in
    let relativePath :=
      if JString.startsWith relativePath "./" then JString.substring 2 relativePath
      else relativePath in
    match Path.get relativePath with
    | inl e => inl e
    | inr parsed =>
        let requested := normalize parsed in
        if JString.contains (toString requested) ".." || isAbsolute requested then
          inl (Throw SecurityException (Some ("Ruta no permitida: " +:+ relativePath)) None)
        else
          let resolved := normalize (resolve basePath requested) in
          if negb (startsWith resolved basePath) then
            inl (Throw SecurityException
                   (Some ("Acceso fuera del directorio permitido: " +:+ relativePath)) None)
          else inr resolved
    end.

(** [execute(arguments, mapper)] up to the call of the private method that
    does the work: the exception thrown before any of them is reached, or
    the call that is made. *)
Definition dispatch (arguments : option JsonNode) : Try FsCall :=
  match validateArguments arguments with
  | inl e => inl e
  | inr _ =>
      match arguments with
      | None => inl (Throw NullPointerException None None)
      | Some args =>
          let action := Json.pathText args "action" in
          let relativePath := Json.pathText args "path" in
          match resolveSafePath relativePath with
          | inl e => inl e
          | inr targetPath =>
              if String.eqb action "read" then inr (readFile targetPath args)
              else if String.eqb action "write" then
                let content :=
                  if Json.has args "content" then Json.pathText args "content" else "" in
                inr (writeFile targetPath content args)
              else if String.eqb action "list" then
                let recursive :=
                  Json.has args "recursive"
                  && match Json.get args "recursive" with
                     | Some r => Json.asBoolean r
                     | None => false
                     end in
                inr (listDirectory targetPath recursive)
              else if String.eqb action "info" then inr (getFileInfo targetPath)
              else if String.eqb action "exists" then inr (checkExists targetPath)
              else if String.eqb action "delete" then inr (deleteFile targetPath)
              else if String.eqb action "mkdir" then inr (createDirectory targetPath)
              else
                inl (Throw IllegalArgumentException
                       (Some ("Acción no soportada: " +:+ action)) None)
          end
      end
  end.

(** The path that [resolveSafePath] hands to [Paths.get]: backslashes
    turned into slashes, and a leading [./] dropped. *)
Definition cleaned (relativePath : string) : string :=
  let relativePath := JString.replace "\" "/" relativePath in
  if JString.startsWith relativePath "./" then JString.substring 2 relativePath
  else relativePath.

(** [getRelativePath(path)]. *)
Definition getRelativePath (path : Path) : Try string :=
  match relativize basePath path with
  | inl e => inl e
  | inr relative => inr (JString.replace "\" "/" (toString relative))
  end.

(** The action that leads to a call. *)
Definition actionOf (c : FsCall) : string :=
  match c with
  | readFile _ _ => "read"
  | writeFile _ _ _ => "write"
  | listDirectory _ _ => "list"
  | getFileInfo _ => "info"
  | checkExists _ => "exists"
  | deleteFile _ => "delete"
  | createDirectory _ => "mkdir"
  end.

Context {World : Type}.

(** The seven private methods, run against the file system. *)
Variable perform : FsCall -> World -> Try string * World.

(** [execute(arguments, mapper)]. *)
Definition execute (arguments : option JsonNode) (w : World) : Try string * World :=
  match dispatch arguments with
  | inl e => (inl e, w)
  | inr call => perform call w
  end.

(** The tool as the application registers it. *)
Definition tool : ToolManager.MCPTool World :=
  {| ToolManager.getName := Some "filesystem";
     ToolManager.getDescription :=
       "Operaciones seguras de sistema de archivos: leer, escribir, listar archivos y obtener información de forma controlada.";
     ToolManager.getCategory := "filesystem";
     ToolManager.getInputSchema :=
       Json.object
         [ ("type", TextNode "object");
           ("properties",
             Json.object
               [ ("action",
                   Json.object
                     [ ("type", TextNode "string");
                       ("description",
                         TextNode "Operación a realizar en el sistema de archivos");
                       ("enum",
                         ArrayNode (TextNode <$>
                           ["read"; "write"; "list"; "info"; "exists"; "delete"; "mkdir"])) ]);
                 ("path",
                   Json.object
                     [ ("type", TextNode "string");
                       ("description",
                         TextNode "Ruta relativa del archivo o directorio (relativa al workspace)");
                       ("pattern", TextNode "^[a-zA-Z0-9._/\\-]+$") ]);
                 ("content",
                   Json.object
                     [ ("type", TextNode "string");
                       ("description",
                         TextNode "Contenido a escribir (solo para acción 'write')");
                       ("maxLength", IntNode (5 * 1024 * 1024)) ]);
                 ("encoding",
                   Json.object
                     [ ("type", TextNode "string");
                       ("description",
                         TextNode "Codificación del archivo (por defecto: UTF-8)");
                       ("default", TextNode "UTF-8");
                       ("enum", ArrayNode (TextNode <$> ["UTF-8"; "ASCII"; "ISO-8859-1"])) ]);
                 ("recursive",
                   Json.object
                     [ ("type", TextNode "boolean");
                       ("description",
                         TextNode "Si el listado debe ser recursivo (solo para 'list')");
                       ("default", BooleanNode false) ]) ]);
           ("required", ArrayNode [TextNode "action"; TextNode "path"]) ];
     ToolManager.execute := execute;
     ToolManager.requiresAuth := false;
     ToolManager.getVersion := "1.0.0";
     ToolManager.isEnabled := true |}.

End WithBase.

End FileSystemTool.

(** ** ResourceManager (Java) *)

Module ResourceManager.

Import Path.

Section WithWorld.

Context {World : Type}.

(** [ObjectMapper.writeValueAsString]: the JSON text of a tree. *)
Variable writeValueAsString : JsonNode -> string.

(** [Base64.getEncoder().encodeToString(content.getBytes())]. *)
Variable base64 : string -> string.

(** The message the JVM gives to the [NullPointerException] of a call on a
    [null] reference. *)
Variable npeMessage : option string.

(** [URI.create(uri).getPath()]: an exception for a text that is no URI,
    [null] for a URI without a path, the decoded path otherwise. *)
Variable uriPath : string -> Try (option string).

(** The file system, as the [Files] methods used here read it. *)
Variable fileExists : Path -> World -> bool.
Variable fileSize : Path -> World -> Try Z.
Variable readString : Path -> World -> Try string.
Variable probeContentType : Path -> World -> Try (option string).

(** The working directory of the process. *)
Variable userDir : string.

(** [ResourceManager.MCPResource]: the interface of a resource. *)
Record MCPResource : Type := {
  getUri : option string;
  getName : string;
  getDescription : string;
  getMimeType : string;
  getCategory : string;
  readContent : World -> Try string * World;
  isAvailable : bool;
  getEstimatedSize : Z;
  getVersion : string;
  requiresAuth : bool
}.

Record ResourceManager : Type := {
  resources : gmap string MCPResource;
  accessCount : Z;
  errorCount : Z
}.

Definition newResourceManager : ResourceManager :=
  {| resources := ∅; accessCount := 0; errorCount := 0 |}.

(** [basePath], as the constructor sets it. *)
Definition basePath : Path := resolve (parse userDir) (parse "resources").

(** [maxResourceSize]: 10MB. *)
Definition maxResourceSize : Z := 10 * 1024 * 1024.

Definition with_resources (f : gmap string MCPResource -> gmap string MCPResource)
  (rm : ResourceManager) : ResourceManager :=
  {| resources := f (resources rm);
     accessCount := accessCount rm;
     errorCount := errorCount rm |}.

Definition incr_accessCount (rm : ResourceManager) : ResourceManager :=
  {| resources := resources rm;
     accessCount := AtomicLong.incrementAndGet (accessCount rm);
     errorCount := errorCount rm |}.

Definition incr_errorCount (rm : ResourceManager) : ResourceManager :=
  {| resources := resources rm;
     accessCount := accessCount rm;
     errorCount := AtomicLong.incrementAndGet (errorCount rm) |}.

(** [resources.values()], as some enumeration of the values of the map:
    the walk of the table is not worked out for the resources, and what
    is stated below of their listing does not depend on its order. *)
Definition values (rm : ResourceManager) : list MCPResource :=
  (map_to_list (resources rm)).*2.

(** [registerResource(resource)], with [None] for a null reference. *)
Definition registerResource (resource : option MCPResource) (rm : ResourceManager)
  : Try unit * ResourceManager :=
  match resource with
  | None =>
      (inl (Throw IllegalArgumentException
              (Some "El recurso no puede ser null") None), rm)
  | Some r =>
      match getUri r with
      | None =>
          (inl (Throw IllegalArgumentException
                  (Some "El URI del recurso no puede estar vacío") None), rm)
      | Some uri =>
          if JString.trim_isEmpty uri then
            (inl (Throw IllegalArgumentException
                    (Some "El URI del recurso no puede estar vacío") None), rm)
          else if negb (isAvailable r) then (inr tt, rm)
          else (inr tt, with_resources (fun m => <[uri := r]> m) rm)
      end
  end.

(** [unregisterResource(uri)]. *)
Definition unregisterResource (uri : string) (rm : ResourceManager) : ResourceManager :=
  with_resources (fun m => delete uri m) rm.

(** The JSON node that [getResourcesListAsJson] builds for one resource. *)
Definition resourceNode (r : MCPResource) : JsonNode :=
  Json.object
    [ ("uri", Json.orNull (TextNode <$> getUri r));
      ("name", TextNode (getName r));
      ("description", TextNode (getDescription r));
      ("mimeType", TextNode (getMimeType r));
      ("_metadata",
        Json.object
          ([ ("category", TextNode (getCategory r));
             ("version", TextNode (getVersion r));
             ("requiresAuth", BooleanNode (requiresAuth r)) ]
           ++ (if (0 <=? getEstimatedSize r)%Z
               then [ ("estimatedSize", IntNode (getEstimatedSize r)) ]
               else []))%list) ].

(** [getResourcesListAsJson]: the loop skips a resource that answers
    [isAvailable() = false]. *)
Definition getResourcesListAsJson (rm : ResourceManager) : list JsonNode :=
  resourceNode <$> List.filter isAvailable (values rm).

(** [createErrorResponse(mapper, errorMessage)]. *)
Definition createErrorResponse (errorMessage : string) : string :=
  writeValueAsString
    (Json.object
       [ ("contents",
           ArrayNode
             [ Json.object
                 [ ("uri", TextNode "error://internal");
                   ("mimeType", TextNode "text/plain");
                   ("text", TextNode ("❌ Error: " +:+ errorMessage)) ] ]) ]).

(** The content object of a resource that was read. *)
Definition contentResponse (uri : JsonNode) (mimeType : string)
  (member : string) (content : string) : string :=
  writeValueAsString
    (Json.object
       [ ("contents",
           ArrayNode
             [ Json.object
                 [ ("uri", uri);
                   ("mimeType", TextNode mimeType);
                   (member, TextNode content) ] ]) ]).

(** Whether the content of a resource of this type goes out as text. *)
Definition isTextual (mimeType : string) : bool :=
  JString.startsWith mimeType "text/"
  || JString.contains mimeType "json"
  || JString.contains mimeType "xml".

(** [readRegisteredResource(resource, mapper)]. *)
Definition readRegisteredResource (resource : MCPResource) (w : World)
  : string * World :=
  if negb (isAvailable resource) then
    (createErrorResponse
       ("Recurso no disponible: " +:+ JString.orNull (getUri resource)), w)
  else if requiresAuth resource then
    (createErrorResponse
       ("Recurso requiere autenticación: " +:+ JString.orNull (getUri resource)), w)
  else
    match readContent resource w with
    | (inl e, w') =>
        (createErrorResponse
           ("Error accediendo al recurso: " +:+ JString.orNull (getMessage e)), w')
    | (inr content, w') =>
        if isTextual (getMimeType resource) then
          (contentResponse (Json.orNull (TextNode <$> getUri resource))
             (getMimeType resource) "text" content, w')
        else
          (contentResponse (Json.orNull (TextNode <$> getUri resource))
             (getMimeType resource) "blob" (base64 content), w')
    end.

(** [Path.getFileName()]: the last name; [null] for a root, and the empty
    path for the empty path. *)
Definition getFileName (p : Path) : option Path :=
  match List.last (Some <$> names p) None with
  | Some n => Some {| isAbsolute := false; names := [n] |}
  | None => if isAbsolute p then None else Some {| isAbsolute := false; names := [] |}
  end.

(** What [readFileResource] finds out before it touches the file system:
    the failure it reports, or the path it goes on with. *)
Definition fileTarget (uri : string) : string + (Path * Path) :=
  match uriPath uri with
  | inl e => inl ("Error leyendo archivo: " +:+ JString.orNull (getMessage e))
  | inr None => inl ("Error leyendo archivo: " +:+ JString.orNull npeMessage)
  | inr (Some path) =>
      match Path.get path with
      | inl e => inl ("Error leyendo archivo: " +:+ JString.orNull (getMessage e))
      | inr filePath =>
          match getFileName filePath with
          | None => inl ("Error leyendo archivo: " +:+ JString.orNull npeMessage)
          | Some fileName =>
              let resolvedPath := normalize (resolve basePath fileName) in
              if negb (startsWith resolvedPath basePath) then
                inl "Acceso al archivo no permitido"
              else inr (fileName, resolvedPath)
          end
      end
  end.

(** [readFileResource(uri, mapper)]. *)
Definition readFileResource (uri : string) (w : World) : string :=
  match fileTarget uri with
  | inl message => createErrorResponse message
  | inr (fileName, resolvedPath) =>
      if negb (fileExists resolvedPath w) then
        createErrorResponse ("Archivo no encontrado: " +:+ toString fileName)
      else
        match fileSize resolvedPath w with
        | inl e =>
            createErrorResponse
              ("Error leyendo archivo: " +:+ JString.orNull (getMessage e))
        | inr size =>
            if (maxResourceSize <? size)%Z then
              createErrorResponse
                ("Archivo demasiado grande: " +:+ JString.ofZ size
                 +:+ " bytes (máximo: " +:+ JString.ofZ maxResourceSize +:+ " bytes)")
            else
              match readString resolvedPath w with
              | inl e =>
                  createErrorResponse
                    ("Error leyendo archivo: " +:+ JString.orNull (getMessage e))
              | inr content =>
                  match probeContentType resolvedPath w with
                  | inl e =>
                      createErrorResponse
                        ("Error leyendo archivo: " +:+ JString.orNull (getMessage e))
                  | inr mime =>
                      contentResponse (TextNode uri)
                        (match mime with Some m => m | None => "text/plain" end)
                        "text" content
                  end
              end
        end
  end.

(** [readResource(uri, mapper)].  Both readers catch what they throw, so
    the [catch] of this method has nothing left to catch. *)
Definition readResource (uri : string) (rm : ResourceManager) (w : World)
  : Try string * ResourceManager * World :=
  let rm1 := incr_accessCount rm in
  match resources rm1 !! uri with
  | Some resource =>
      let '(result, w') := readRegisteredResource resource w in
      (inr result, rm1, w')
  | None =>
      if JString.startsWith uri "file://" then
        (inr (readFileResource uri w), rm1, w)
      else
        (inr (createErrorResponse ("Recurso no encontrado: " +:+ uri)),
         incr_errorCount rm1, w)
  end.

(** [hasResource(uri)]. *)
Definition hasResource (uri : string) (rm : ResourceManager) : bool :=
  match resources rm !! uri with
  | Some resource => isAvailable resource
  | None => false
  end.

(** [getResourceCount()]. *)
Definition getResourceCount (rm : ResourceManager) : nat :=
  length (List.filter isAvailable (values rm)).

(** [cleanup()]. *)
Definition cleanup (rm : ResourceManager) : ResourceManager :=
  with_resources (fun _ => ∅) rm.

End WithWorld.

Arguments MCPResource : clear implicits.
Arguments ResourceManager : clear implicits.
End ResourceManager.

(** ** StdioTransport (Java) *)

Module StdioTransport.

(** The double quote. *)
Definition quote : ascii := ascii_of_nat 34.

(** The three local variables of the loop of [isCompleteJsonMessage];
    [braceCount] is an [int]. *)
Record Scan : Type :=
  mkScan { braceCount : Z; inString : bool; escaped : bool }.

(** One turn of the loop over the characters. *)
Definition scanChar (st : Scan) (c : ascii) : Scan :=
  if escaped st then mkScan (braceCount st) (inString st) false
  else if Ascii.eqb c "\" then mkScan (braceCount st) (inString st) true
  else if Ascii.eqb c quote && negb (escaped st) then
    mkScan (braceCount st) (negb (inString st)) (escaped st)
  else if negb (inString st) then
    if Ascii.eqb c "{" then
      mkScan (JavaHash.wrap32 (braceCount st + 1)) (inString st) (escaped st)
    else if Ascii.eqb c "}" then
      mkScan (JavaHash.wrap32 (braceCount st - 1)) (inString st) (escaped st)
    else st
  else st.

Fixpoint scan (st : Scan) (s : string) : Scan :=
  match s with
  | EmptyString => st
  | String c s' => scan (scanChar st c) s'
  end.

(** [isCompleteJsonMessage(message)].  Nothing in its body throws, so the
    [catch] is never entered. *)
Definition isCompleteJsonMessage (message : string) : bool :=
  let message := JString.trim message in
  if negb (JString.startsWith message "{") || negb (JString.endsWith message "}")
  then false
  else (braceCount (scan (mkScan 0 false false) message) =? 0)%Z.

(** [messageBuilder.length() > 0]. *)
Definition started (builder : string) : bool :=
  match builder with EmptyString => false | _ => true end.

(** The loop of [readMessage], over the lines that [reader.readLine()]
    is still to give ([null] once they are used up): the builder at the
    end of the loop, and the lines left in the reader. *)
Fixpoint readLines (builder : string) (lines : list string) : string * list string :=
  match lines with
  | [] => (builder, [])
  | line :: rest =>
      if JString.trim_isEmpty line then
        if started builder then (builder, rest) else readLines builder rest
      else
        let builder :=
          (if started builder then builder +:+ JString.LF else builder) +:+ line in
        if isCompleteJsonMessage builder then (builder, rest)
        else readLines builder rest
  end.

(** [readMessage()], for a reader that does not fail. *)
Definition readMessage (lines : list string) : option string * list string :=
  let (builder, rest) := readLines EmptyString lines in
  (if started builder then Some builder else None, rest).

(** The messages that [runMessageLoop] hands to the message handler, in
    order, for a transport that keeps running until the end of the input:
    [fuel] bounds the number of turns of the loop. *)
Fixpoint received (fuel : nat) (lines : list string) : list string :=
  match fuel with
  | O => []
  | S fuel' =>
      match readMessage lines with
      | (None, _) => []
      | (Some message, rest) =>
          if JString.trim_isEmpty message then received fuel' rest
          else message :: received fuel' rest
      end
  end.

End StdioTransport.

(** ** LLMManager (JavaScript) *)

Module LLMManager.

Import ToolsRegistry.

(** The truth value of a JavaScript value ([undefined] is [None]). *)
Definition truthy (v : option JsonNode) : bool :=
  match v with
  | None | Some NullNode => false
  | Some (BooleanNode b) => b
  | Some (IntNode z) => negb (z =? 0)%Z
  | Some (DoubleNode _) => true
  | Some (TextNode s) => negb (String.eqb s "")
  | Some (ArrayNode _) | Some (ObjectNode _) => true
  end.

(** [process.env]: a variable is [undefined] or a string. *)
Definition Env : Type := string -> option string.

(** The truth value of [process.env.X]. *)
Definition isSet (v : option string) : bool :=
  match v with Some (String _ _) => true | _ => false end.

(** [process.env.X || d]. *)
Definition orElse (v : option string) (d : string) : string :=
  match v with Some (String c s) => String c s | _ => d end.

Section WithNumbers.
Context {Num : Type}.

(** [parseInt(v) || 4096], a number. *)
Variable maxTokensOf : option string -> Num.

(** An entry of [this.providers], but for the client object. *)
Record ProviderConfig : Type := { model : string; maxTokens : Num }.

Record LLMManager : Type := {
  providers : list (string * ProviderConfig);
  initialized : bool
}.

(** The constructor. *)
Definition newLLMManager : LLMManager := {| providers := []; initialized := false |}.

(** [initialize()], for client constructors that do not fail: the error
    thrown, if any, and the manager afterwards. *)
Definition initialize (env : Env) (m : LLMManager) : option JSError * LLMManager :=
  let ps := providers m in
  let ps :=
    if isSet (env "OPENAI_API_KEY") then
      JSMap.set ps "openai"
        {| model := orElse (env "OPENAI_MODEL") "gpt-4o-mini";
           maxTokens := maxTokensOf (env "OPENAI_MAX_TOKENS") |}
    else ps in
  let ps :=
    if isSet (env "GOOGLE_API_KEY") then
      JSMap.set ps "gemini"
        {| model := orElse (env "GEMINI_MODEL") "gemini-1.5-flash";
           maxTokens := maxTokensOf (env "GEMINI_MAX_TOKENS") |}
    else ps in
  let ps :=
    if isSet (env "HUGGINGFACE_API_KEY") then
      JSMap.set ps "huggingface"
        {| model := orElse (env "HUGGINGFACE_MODEL") "meta-llama/Llama-2-70b-chat-hf";
           maxTokens := maxTokensOf (env "HUGGINGFACE_MAX_TOKENS") |}
    else ps in
  if (JSMap.size ps =? 0)%nat then
    (Some (JsError "Error"
             "No se configuraron proveedores de LLM. Revisa las variables de entorno."),
     {| providers := ps; initialized := initialized m |})
  else (None, {| providers := ps; initialized := true |}).

(** The providers that the [switch] of [generateText] knows. *)
Definition supported (provider : string) : Prop :=
  provider = "openai" \/ provider = "gemini" \/ provider = "huggingface".

(** Some key is set in the environment. *)
Definition anyKey (env : Env) : bool :=
  isSet (env "OPENAI_API_KEY") || isSet (env "GOOGLE_API_KEY")
  || isSet (env "HUGGINGFACE_API_KEY").

(** A run of [initialize()] calls, each under the environment of its
    time, whether they throw or not. *)
Definition initializes (envs : list Env) (m : LLMManager) : LLMManager :=
  fold_left (fun m env => snd (initialize env m)) envs m.

(** The variable that holds the key of a provider. *)
Definition apiKeyOf (provider : string) : string :=
  if String.eqb provider "gemini" then "GOOGLE_API_KEY"
  else if String.eqb provider "openai" then "OPENAI_API_KEY"
  else "HUGGINGFACE_API_KEY".

(** [getAvailableProviders()]. *)
Definition getAvailableProviders (m : LLMManager) : list string :=
  JSMap.keys (providers m).

(** [isProviderAvailable(provider)]. *)
Definition isProviderAvailable (provider : string) (m : LLMManager) : bool :=
  JSMap.has (providers m) provider.

(** [getProviderInfo(provider)]. *)
Definition getProviderInfo (provider : string) (m : LLMManager)
  : option (string * Num) :=
  if negb (JSMap.has (providers m) provider) then None
  else match JSMap.get (providers m) provider with
       | Some config => Some (model config, maxTokens config)
       | None => None
       end.

Context {World : Type}.

(** The three [generateWith...] methods, requests to the service of the
    provider named first: the prompt, the entry of the provider, the
    maximum of tokens (taken from the options, or else from the entry) and
    the options. *)
Variable generateWith :
  string -> option JsonNode -> ProviderConfig -> JsonNode + Num -> JsonNode ->
  World -> (JSError + JsonNode) * World.

(** [this.providers.has(provider)] for a value that need not be a
    string. *)
Definition hasProvider (m : LLMManager) (provider : JsonNode) : bool :=
  match provider with
  | TextNode p => JSMap.has (providers m) p
  | _ => false
  end.

(** [generateText(prompt, provider, options)]. *)
Definition generateText (prompt provider options : option JsonNode)
  (m : LLMManager) (w : World) : (JSError + JsonNode) * World :=
  let provider := match provider with Some p => p | None => TextNode "openai" end in
  let options := match options with Some o => o | None => ObjectNode [] end in
  if negb (initialized m) then
    (inl (JsError "Error" "LLMManager no ha sido inicializado"), w)
  else if negb (hasProvider m provider) then
    (inl (JsError "Error" ("Proveedor " +:+ toStr provider +:+ " no disponible")), w)
  else
    match provider with
    | TextNode p =>
        match JSMap.get (providers m) p with
        | None =>
            (inl (JsError "TypeError"
                    "Cannot read properties of undefined (reading 'maxTokens')"), w)
        | Some providerConfig =>
            match getProp (Some options) "maxTokens" with
            | inl e => (inl e, w)
            | inr requested =>
                let maxTokens :=
                  match requested with
                  | Some v => if truthy requested then inl v
                              else inr (maxTokens providerConfig)
                  | None => inr (maxTokens providerConfig)
                  end in
                if String.eqb p "openai" then
                  generateWith "openai" prompt providerConfig maxTokens options w
                else if String.eqb p "gemini" then
                  generateWith "gemini" prompt providerConfig maxTokens options w
                else if String.eqb p "huggingface" then
                  generateWith "huggingface" prompt providerConfig maxTokens options w
                else
                  (inl (JsError "Error" ("Proveedor " +:+ p +:+ " no soportado")), w)
            end
        end
    | _ =>
        (inl (JsError "TypeError"
                "Cannot read properties of undefined (reading 'maxTokens')"), w)
    end.

End WithNumbers.

Arguments ProviderConfig : clear implicits.
Arguments LLMManager : clear implicits.
End LLMManager.

(** ** The request handlers of the two JavaScript servers *)

Module McpServers.

Import ToolsRegistry.

(** [ErrorCode] of the MCP SDK. *)
Definition InternalError : Z := -32603.
Definition MethodNotFound : Z := -32601.

(** What a request handler throws: an [McpError], made from a code and a
    message, or another error. *)
Inductive Thrown : Type :=
| McpError (code : Z) (message : string)
| OtherError (e : JSError).

(** A result with one text item. *)
Definition textContent (text : string) : JsonNode :=
  ObjectNode
    [ ("content",
        ArrayNode [ObjectNode [("type", TextNode "text"); ("text", TextNode text)]]) ].

Section WithWorld.
Context {World : Type}.

(** [JSON.stringify(result, null, 2)]. *)
Variable stringify : JsonNode -> string.

(** The [CallToolRequestSchema] handler of [UniversalMCPServer]. *)
Definition universalCallTool (name : string) (args : option JsonNode)
  (reg : ToolsRegistry.t World) (w : World) : (Thrown + JsonNode) * World :=
  match executeTool name args reg w with
  | (inr result, w') =>
      (inr (textContent
              match result with
              | TextNode s => s
              | _ => stringify result
              end), w')
  | (inl error, w') =>
      (inl (McpError InternalError
              ("Error ejecutando " +:+ name +:+ ": " +:+ errorMessage error)), w')
  end.

End WithWorld.

(** The [CallToolRequestSchema] handler of the plain [MCPServer]; [now]
    is [new Date().toISOString()]. *)
Definition simpleCallTool (now : string) (name : string) (args : option JsonNode)
  : Thrown + JsonNode :=
  if String.eqb name "echo" then
    match getProp args "message" with
    | inl e => inl (OtherError e)
    | inr message => inr (textContent ("Echo: " +:+ template message))
    end
  else if String.eqb name "get_time" then
    inr (textContent ("Hora actual: " +:+ now))
  else inl (McpError MethodNotFound ("Herramienta desconocida: " +:+ name)).

End McpServers.

(** ** Sample tools and messages *)

Module Samples.

(** The collaborators, seen as the log of the calls made on them. *)
Definition World : Type := list string.

(** A tool whose handler calls a collaborator and succeeds. *)
Definition storing (name : string) (enabled : bool) : ToolManager.MCPTool World :=
  {| ToolManager.getName := Some name;
     ToolManager.getDescription := "Inserta un documento";
     ToolManager.getCategory := "database";
     ToolManager.getInputSchema :=
       ObjectNode [ ("type", TextNode "object");
                    ("required", ArrayNode [TextNode "document"]) ];
     ToolManager.execute := fun _ w => (inr "true", ("insertOne by " +:+ name) :: w);
     ToolManager.requiresAuth := false;
     ToolManager.getVersion := "1.0.0";
     ToolManager.isEnabled := enabled |}.

(** A tool whose handler fails in the middle of its work. *)
Definition unreachable : Throwable :=
  Throw (OtherException "com.mongodb.MongoTimeoutException")
    (Some "Document Store unreachable") None.

Definition failing (name : string) : ToolManager.MCPTool World :=
  {| ToolManager.getName := Some name;
     ToolManager.getDescription := "Consulta la base de datos";
     ToolManager.getCategory := "database";
     ToolManager.getInputSchema := ObjectNode [ ("type", TextNode "object") ];
     ToolManager.execute := fun _ w => (inl unreachable, ("find by " +:+ name) :: w);
     ToolManager.requiresAuth := false;
     ToolManager.getVersion := "1.0.0";
     ToolManager.isEnabled := true |}.

Definition jsFailing (name : string) : ToolsRegistry.Tool World :=
  {| ToolsRegistry.name := name;
     ToolsRegistry.description := "Consulta la base de datos";
     ToolsRegistry.inputSchema := ObjectNode [ ("type", TextNode "object") ];
     ToolsRegistry.handler := fun _ w =>
       (inl (ToolsRegistry.JsError "Error" "Document Store unreachable"),
        ("find by " +:+ name) :: w) |}.

(** A reader for the JSON literals, enough for the texts of the samples. *)
Definition readLiteral (s : string) : Try JsonNode :=
  if String.eqb s "null" then inr NullNode
  else if String.eqb s "true" then inr (BooleanNode true)
  else if String.eqb s "false" then inr (BooleanNode false)
  else inl (Throw JsonProcessingException (Some ("Unrecognized token: " +:+ s)) None).

(** A handler of the protocol over a tool manager, with no resources. *)
Definition handlerOver (tm : ToolManager.ToolManager World) (initialized : bool)
  : MCPProtocolHandler.MCPProtocolHandler World unit :=
  {| MCPProtocolHandler.serverName := "universal-mcp-server-java";
     MCPProtocolHandler.serverVersion := "1.0.0";
     MCPProtocolHandler.supportsTools := true;
     MCPProtocolHandler.supportsResources := true;
     MCPProtocolHandler.supportsPrompts := false;
     MCPProtocolHandler.supportsLogging := false;
     MCPProtocolHandler.isInitialized := initialized;
     MCPProtocolHandler.toolManager := tm;
     MCPProtocolHandler.resourceManager := tt |}.

Definition noResources (rm : unit) : list JsonNode := [].

Definition noResource (uri : string) (rm : unit) (w : World)
  : Try string * unit * World :=
  (inr "null", rm, w).

(** A request: [method] with an optional [id]. *)
Definition request (id : option JsonNode) (method : string) : JsonNode :=
  ObjectNode
    ([ ("jsonrpc", TextNode "2.0") ]
     ++ match id with Some i => [ ("id", i) ] | None => [] end
     ++ [ ("method", TextNode method) ])%list.

(** A [tools/call] request for the tool [name], with the [id] 5. *)
Definition callRequest (name : string) : JsonNode :=
  ObjectNode
    [ ("jsonrpc", TextNode "2.0"); ("id", IntNode 5);
      ("method", TextNode "tools/call");
      ("params", ObjectNode [ ("name", TextNode name) ]) ].

(** A tool whose handler writes to the store and returns a text that is
    not JSON. *)
Definition talkative : ToolManager.MCPTool World :=
  {| ToolManager.getName := Some "greet";
     ToolManager.getDescription := "Saluda";
     ToolManager.getCategory := "basic";
     ToolManager.getInputSchema := ObjectNode [ ("type", TextNode "object") ];
     ToolManager.execute := fun _ w => (inr "hola", "insertOne by greet" :: w);
     ToolManager.requiresAuth := false;
     ToolManager.getVersion := "1.0.0";
     ToolManager.isEnabled := true |}.

(** A resource over the collaborators of the samples. *)
Definition document (uri : string) (available auth : bool)
  : ResourceManager.MCPResource World :=
  {| ResourceManager.getUri := Some uri;
     ResourceManager.getName := "Estado";
     ResourceManager.getDescription := "Estado del servidor";
     ResourceManager.getMimeType := "application/json";
     ResourceManager.getCategory := "system";
     ResourceManager.readContent := fun w => (inr "true", ("read " +:+ uri) :: w);
     ResourceManager.isAvailable := available;
     ResourceManager.getEstimatedSize := (-1);
     ResourceManager.getVersion := "1.0.0";
     ResourceManager.requiresAuth := auth |}.

(** The path of a [file://] URI that has no host, no query and no
    escapes: what follows the two slashes. *)
Definition pathOfFileUri (uri : string) : Try (option string) :=
  inr (Some (JString.substring 7 uri)).

End Samples.

(** * Properties *)

(** ** Helper lemmas *)

Lemma JSMap_has_get {V : Type} (m : list (string * V)) (k : string) (v : V) :
  JSMap.get m k = Some v -> JSMap.has m k = true.
Proof. unfold JSMap.has. intros ->. reflexivity. Qed.

Lemma JSMap_has_false_get {V : Type} (m : list (string * V)) (k : string) :
  JSMap.has m k = false -> JSMap.get m k = None.
Proof. unfold JSMap.has. destruct (JSMap.get m k); [discriminate | reflexivity]. Qed.

Lemma JSMap_get_set_eq {V : Type} (m : list (string * V)) (k : string) (v : V) :
  JSMap.get (JSMap.set m k v) k = Some v.
Proof.
  induction m as [| [k' v'] rest IH]; cbn [JSMap.set JSMap.get].
  - rewrite String.eqb_refl. reflexivity.
  - destruct (String.eqb k' k) eqn:E; cbn [JSMap.get]; rewrite E;
      [reflexivity | exact IH].
Qed.

Lemma JSMap_get_set_ne {V : Type} (m : list (string * V)) (k k' : string) (v : V) :
  k' <> k -> JSMap.get (JSMap.set m k' v) k = JSMap.get m k.
Proof.
  intros Hne. induction m as [| [k0 v0] rest IH]; cbn [JSMap.set JSMap.get].
  - apply String.eqb_neq in Hne. rewrite Hne. reflexivity.
  - destruct (String.eqb k0 k') eqn:E; cbn [JSMap.get].
    + apply String.eqb_eq in E. subst k0.
      apply String.eqb_neq in Hne. rewrite Hne. reflexivity.
    + destruct (String.eqb k0 k); [reflexivity | exact IH].
Qed.

Lemma AtomicLong_increment_in_range (n : Z) :
  (AtomicLong.MIN_VALUE <= n < AtomicLong.MAX_VALUE)%Z ->
  AtomicLong.incrementAndGet n = (n + 1)%Z.
Proof.
  unfold AtomicLong.incrementAndGet, AtomicLong.wrap,
    AtomicLong.MIN_VALUE, AtomicLong.MAX_VALUE.
  intros Hn.
  rewrite Z.mod_small by lia. lia.
Qed.

(** What [executeTool] computes for a tool that is found (and enabled):
    shared by the theorems on invocation. *)
Lemma executeTool_found
  {World : Type}
  (tm : ToolManager.ToolManager World) (toolName : string)
  (args : option JsonNode) (w : World) (tool : ToolManager.MCPTool World) :
  ToolManager.lookup toolName tm = Some tool ->
  ToolManager.isEnabled tool = true ->
  ToolManager.executeTool toolName args tm w
    = (let tm1 := ToolManager.incr_executionCount tm in
       match ToolManager.execute tool args w with
       | (inr result, w') => (inr result, tm1, w')
       | (inl e, w') =>
           (inl (Throw RuntimeException
                   (Some ("Error ejecutando herramienta " +:+ toolName +:+ ": "
                          +:+ JString.orNull (getMessage e)))
                   (Some e)),
            ToolManager.incr_errorCount tm1, w')
       end).
Proof.
  intros Hjava Henabled.
  unfold ToolManager.executeTool, ToolManager.lookup in *.
  cbn [ToolManager.tools ToolManager.incr_executionCount].
  rewrite Hjava, Henabled. cbn [negb].
  destruct (ToolManager.execute tool args w) as [[e | result] w']; reflexivity.
Qed.

Lemma js_executeTool_found
  {World : Type}
  (reg : ToolsRegistry.t World) (toolName : string)
  (args : option JsonNode) (w : World) (jsTool : ToolsRegistry.Tool World) :
  JSMap.get reg toolName = Some jsTool ->
  ToolsRegistry.executeTool toolName args reg w
    = ToolsRegistry.handler jsTool args w.
Proof.
  intros Hjs. unfold ToolsRegistry.executeTool.
  rewrite (JSMap_has_get _ _ _ Hjs), Hjs. cbn [negb].
  destruct (ToolsRegistry.handler jsTool args w) as [[e | result] w']; reflexivity.
Qed.

(** ** Invocation *)

(** The [echo] tool on a message. *)
Example echo_hi :
  ToolsRegistry.executeTool "echo"
    (Some (ObjectNode [ ("message", TextNode "hi") ]))
    (ToolsRegistry.sets [("echo", ToolsRegistry.echo)] []) ([] : Samples.World)
  = (inr (TextNode "Echo: hi"), []).
Proof. reflexivity. Qed.

(** C1, counterexample.  The [echo] tool requires the field [message];
    called with an object that lacks it, [executeTool] does not fail: the
    handler runs and its text is returned. *)
Lemma C1_counterexample_echo_without_message :
  Json.get (ToolsRegistry.inputSchema (@ToolsRegistry.echo Samples.World)) "required"
    = Some (ArrayNode [TextNode "message"])
  /\ Json.has (ObjectNode []) "message" = false
  /\ ToolsRegistry.executeTool "echo" (Some (ObjectNode []))
       (ToolsRegistry.sets [("echo", ToolsRegistry.echo)] [])
       ([] : Samples.World)
     = (inr (TextNode "Echo: undefined"), []).
Proof. repeat split. Qed.

(** C1, as amended.  Neither dispatcher checks the raw arguments against
    the input schema of the tool.  For a registered tool (and, in the Java
    manager, an enabled one) [executeTool] hands the raw arguments,
    unchanged, to the handler, and its outcome is the outcome of the
    handler: returned as it is on success; on failure wrapped in a
    [RuntimeException] (Java) or thrown again (JavaScript).  The schema
    that the tool declares has no part in it: with any other schema in its
    place the result, the error and the effect on the collaborators are
    the same.  What happens when a required field is missing is therefore
    up to the handler. *)
Theorem C1_executeTool_hands_raw_arguments_to_handler
  {World : Type}
  (tm : ToolManager.ToolManager World) (reg : ToolsRegistry.t World)
  (toolName : string) (args : option JsonNode) (w : World)
  (tool : ToolManager.MCPTool World) (jsTool : ToolsRegistry.Tool World)
  (Hjava : ToolManager.lookup toolName tm = Some tool)
  (Henabled : ToolManager.isEnabled tool = true)
  (Hjs : JSMap.get reg toolName = Some jsTool) :
  ToolManager.executeTool toolName args tm w
    = (let tm1 := ToolManager.incr_executionCount tm in
       match ToolManager.execute tool args w with
       | (inr result, w') => (inr result, tm1, w')
       | (inl e, w') =>
           (inl (Throw RuntimeException
                   (Some ("Error ejecutando herramienta " +:+ toolName +:+ ": "
                          +:+ JString.orNull (getMessage e)))
                   (Some e)),
            ToolManager.incr_errorCount tm1, w')
       end)
  /\ ToolsRegistry.executeTool toolName args reg w
     = ToolsRegistry.handler jsTool args w
  /\ (forall schema : JsonNode,
        let declared :=
          ToolManager.with_tools
            (fun m => <[toolName := ToolManager.withInputSchema schema tool]> m) tm in
        (ToolManager.executeTool toolName args declared w).1.1
        = (ToolManager.executeTool toolName args tm w).1.1
        /\ (ToolManager.executeTool toolName args declared w).2
           = (ToolManager.executeTool toolName args tm w).2)
  /\ (forall schema : JsonNode,
        ToolsRegistry.executeTool toolName args
          (JSMap.set reg toolName (ToolsRegistry.withInputSchema schema jsTool)) w
        = ToolsRegistry.executeTool toolName args reg w).
Proof.
  split; [| split; [| split]].
  - apply executeTool_found; assumption.
  - apply js_executeTool_found; assumption.
  - intros schema declared.
    rewrite (executeTool_found tm toolName args w tool Hjava Henabled).
    rewrite (executeTool_found declared toolName args w
               (ToolManager.withInputSchema schema tool));
      [| unfold declared, ToolManager.lookup, ToolManager.with_tools;
         cbn [ToolManager.tools]; apply lookup_insert_eq
       | exact Henabled].
    cbn [ToolManager.withInputSchema ToolManager.execute].
    destruct (ToolManager.execute tool args w) as [[e | result] w'];
      split; reflexivity.
  - intros schema.
    rewrite (js_executeTool_found reg toolName args w jsTool Hjs).
    rewrite (js_executeTool_found _ toolName args w
               (ToolsRegistry.withInputSchema schema jsTool));
      [reflexivity | apply JSMap_get_set_eq].
Qed.

(** C1 at work: [echo], registered in both dispatchers, called with an
    object without [message]. *)
Lemma C1_executeTool_hands_raw_arguments_to_handler_witness :
  ToolManager.lookup "echo"
    (ToolManager.registerTool (Some (Samples.storing "echo" true))
       ToolManager.newToolManager).2
    = Some (Samples.storing "echo" true)
  /\ ToolManager.isEnabled (Samples.storing "echo" true) = true
  /\ JSMap.get (ToolsRegistry.sets [("echo", ToolsRegistry.echo)] []) "echo"
     = Some (@ToolsRegistry.echo Samples.World)
  /\ ToolManager.executeTool "echo" (Some (ObjectNode []))
       (ToolManager.registerTool (Some (Samples.storing "echo" true))
          ToolManager.newToolManager).2 []
     = (inr "true",
        ToolManager.incr_executionCount
          (ToolManager.registerTool (Some (Samples.storing "echo" true))
             ToolManager.newToolManager).2,
        ["insertOne by echo"])
  /\ ToolsRegistry.executeTool "echo" (Some (ObjectNode []))
       (ToolsRegistry.sets [("echo", ToolsRegistry.echo)] []) ([] : Samples.World)
     = (inr (TextNode "Echo: undefined"), []).
Proof.
  assert (H1 : ToolManager.lookup "echo"
                 (ToolManager.registerTool (Some (Samples.storing "echo" true))
                    ToolManager.newToolManager).2
               = Some (Samples.storing "echo" true)) by (vm_compute; reflexivity).
  assert (H2 : ToolManager.isEnabled (Samples.storing "echo" true) = true)
    by reflexivity.
  assert (H3 : JSMap.get (ToolsRegistry.sets [("echo", ToolsRegistry.echo)] []) "echo"
               = Some (@ToolsRegistry.echo Samples.World)) by reflexivity.
  split; [exact H1 |]. split; [exact H2 |]. split; [exact H3 |].
  pose proof (C1_executeTool_hands_raw_arguments_to_handler
                _ _ "echo" (Some (ObjectNode [])) [] _ _ H1 H2 H3)
    as (Hjava & Hjs & _).
  split; [exact Hjava | exact Hjs].
Defined.

(** C2.  A name that is not registered makes [executeTool] fail with the
    not-found error of the dispatcher ([IllegalArgumentException] with
    [Herramienta no encontrada: name] in Java, [Error] with
    [Herramienta 'name' no encontrada] in JavaScript).  No handler runs:
    whatever the handlers of the registered tools do, the collaborators
    are left as they were, and so is the map of tools. *)
Theorem C2_unregistered_name_is_tool_not_found
  {World : Type}
  (tm : ToolManager.ToolManager World) (reg : ToolsRegistry.t World)
  (toolName : string) (args : option JsonNode) (w : World)
  (Hjava : ToolManager.lookup toolName tm = None)
  (Hjs : JSMap.has reg toolName = false) :
  (exists tm',
      ToolManager.executeTool toolName args tm w
        = (inl (Throw IllegalArgumentException
                  (Some ("Herramienta no encontrada: " +:+ toolName)) None),
           tm', w)
      /\ ToolManager.tools tm' = ToolManager.tools tm)
  /\ ToolsRegistry.executeTool toolName args reg w
     = (inl (ToolsRegistry.JsError "Error"
               ("Herramienta '" +:+ toolName +:+ "' no encontrada")),
        w).
Proof.
  split.
  - exists (ToolManager.incr_errorCount (ToolManager.incr_executionCount tm)).
    unfold ToolManager.executeTool, ToolManager.lookup in *.
    cbn [ToolManager.tools ToolManager.incr_executionCount].
    rewrite Hjava. split; reflexivity.
  - unfold ToolsRegistry.executeTool. rewrite Hjs. reflexivity.
Qed.

(** C2 at work: the name [nope], with another tool registered whose
    handler would write to the document store. *)
Lemma C2_unregistered_name_is_tool_not_found_witness :
  ToolManager.lookup "nope"
    (ToolManager.registerTool (Some (Samples.storing "db_insert" true))
       ToolManager.newToolManager).2 = None
  /\ JSMap.has (ToolsRegistry.sets [("echo", @ToolsRegistry.echo Samples.World)] [])
       "nope" = false
  /\ (exists tm',
        ToolManager.executeTool "nope" None
          (ToolManager.registerTool (Some (Samples.storing "db_insert" true))
             ToolManager.newToolManager).2 []
          = (inl (Throw IllegalArgumentException
                    (Some "Herramienta no encontrada: nope") None),
             tm', [])
        /\ ToolManager.tools tm'
           = ToolManager.tools
               (ToolManager.registerTool (Some (Samples.storing "db_insert" true))
                  ToolManager.newToolManager).2)
  /\ ToolsRegistry.executeTool "nope" None
       (ToolsRegistry.sets [("echo", @ToolsRegistry.echo Samples.World)] []) []
     = (inl (ToolsRegistry.JsError "Error" "Herramienta 'nope' no encontrada"), []).
Proof.
  assert (H1 : ToolManager.lookup "nope"
                 (ToolManager.registerTool (Some (Samples.storing "db_insert" true))
                    ToolManager.newToolManager).2 = None) by (vm_compute; reflexivity).
  assert (H2 : JSMap.has
                 (ToolsRegistry.sets [("echo", @ToolsRegistry.echo Samples.World)] [])
                 "nope" = false) by reflexivity.
  split; [exact H1 |]. split; [exact H2 |].
  exact (C2_unregistered_name_is_tool_not_found _ _ "nope" None [] H1 H2).
Defined.

(** C7, counterexample.  The JavaScript registry neither wraps the
    failure of a handler nor counts it: the outcome of the call is the
    outcome of the handler, that is, the very error the handler threw,
    under its own message, and the collaborators as the handler left
    them.  The registry has no field but its tools, its logger and its two
    collaborators: there is no counter that could go up. *)
Lemma C7_counterexample_javascript_rethrows_and_counts_nothing :
  ToolsRegistry.executeTool "db_find" None
    (ToolsRegistry.sets [("db_find", Samples.jsFailing "db_find")] []) []
  = ToolsRegistry.handler (Samples.jsFailing "db_find") None []
  /\ ToolsRegistry.handler (Samples.jsFailing "db_find") None []
     = (inl (ToolsRegistry.JsError "Error" "Document Store unreachable"),
        ["find by db_find"])
  /\ "Document Store unreachable"
     <> "Error ejecutando herramienta db_find: Document Store unreachable".
Proof. repeat split. discriminate. Qed.

(** C7, as amended.  When the handler of a registered, enabled tool
    throws, the Java dispatcher throws a [RuntimeException] in its turn,
    whose message ends with the message of the handler's exception and
    whose cause is that exception; its error counter and its execution
    counter are each incremented once, by [AtomicLong.incrementAndGet]
    (one more, but for the wrap-around at the last 64-bit value), and the
    map of tools is left alone.  The JavaScript dispatcher, which keeps no
    counter, throws the error of the handler again as it is, the
    collaborators as the handler left them.  In neither is the failure
    swallowed. *)
Theorem C7_handler_failure_is_rethrown_and_counted
  {World : Type}
  (tm : ToolManager.ToolManager World) (reg : ToolsRegistry.t World)
  (toolName : string) (args : option JsonNode) (w w' wjs : World)
  (tool : ToolManager.MCPTool World) (e : Throwable)
  (jsTool : ToolsRegistry.Tool World) (jsErr : ToolsRegistry.JSError)
  (Hjava : ToolManager.lookup toolName tm = Some tool)
  (Henabled : ToolManager.isEnabled tool = true)
  (Hthrows : ToolManager.execute tool args w = (inl e, w'))
  (Hjs : JSMap.get reg toolName = Some jsTool)
  (Hrejects : ToolsRegistry.handler jsTool args w = (inl jsErr, wjs)) :
  (exists tm',
      ToolManager.executeTool toolName args tm w
        = (inl (Throw RuntimeException
                  (Some ("Error ejecutando herramienta " +:+ toolName +:+ ": "
                         +:+ JString.orNull (getMessage e)))
                  (Some e)),
           tm', w')
      /\ ToolManager.errorCount tm'
         = AtomicLong.incrementAndGet (ToolManager.errorCount tm)
      /\ ToolManager.executionCount tm'
         = AtomicLong.incrementAndGet (ToolManager.executionCount tm)
      /\ ((AtomicLong.MIN_VALUE <= ToolManager.errorCount tm
           < AtomicLong.MAX_VALUE)%Z ->
          ToolManager.errorCount tm' = (ToolManager.errorCount tm + 1)%Z)
      /\ (ToolManager.errorCount tm = AtomicLong.MAX_VALUE ->
          ToolManager.errorCount tm' = AtomicLong.MIN_VALUE)
      /\ ToolManager.tools tm' = ToolManager.tools tm)
  /\ ToolsRegistry.executeTool toolName args reg w = (inl jsErr, wjs)
  /\ ToolsRegistry.executeTool toolName args reg w
     = ToolsRegistry.handler jsTool args w.
Proof.
  pose proof (executeTool_found tm toolName args w tool Hjava Henabled) as Hj.
  pose proof (js_executeTool_found reg toolName args w jsTool Hjs) as Hs.
  split; [| split].
  - exists (ToolManager.incr_errorCount (ToolManager.incr_executionCount tm)).
    rewrite Hj, Hthrows. cbn [ToolManager.errorCount ToolManager.executionCount
      ToolManager.incr_errorCount ToolManager.incr_executionCount ToolManager.tools].
    split; [reflexivity |]. split; [reflexivity |]. split; [reflexivity |].
    split; [| split; [| reflexivity]].
    + intros Hcount. apply AtomicLong_increment_in_range, Hcount.
    + intros ->. reflexivity.
  - rewrite Hs. exact Hrejects.
  - exact Hs.
Qed.

(** C7 at work: [db_find], whose handler fails with the document store
    out of reach, on a manager that has counted no error yet. *)
Lemma C7_handler_failure_is_rethrown_and_counted_witness :
  (exists tm',
      ToolManager.executeTool "db_find" None
        (ToolManager.registerTool (Some (Samples.failing "db_find"))
           ToolManager.newToolManager).2 []
        = (inl (Throw RuntimeException
                  (Some "Error ejecutando herramienta db_find: Document Store unreachable")
                  (Some Samples.unreachable)),
           tm', ["find by db_find"])
      /\ ToolManager.errorCount tm' = 1%Z
      /\ ToolManager.tools tm'
         = ToolManager.tools
             (ToolManager.registerTool (Some (Samples.failing "db_find"))
                ToolManager.newToolManager).2)
  /\ ToolsRegistry.executeTool "db_find" None
       (ToolsRegistry.sets [("db_find", Samples.jsFailing "db_find")] []) []
     = (inl (ToolsRegistry.JsError "Error" "Document Store unreachable"),
        ["find by db_find"]).
Proof.
  assert (H1 : ToolManager.lookup "db_find"
                 (ToolManager.registerTool (Some (Samples.failing "db_find"))
                    ToolManager.newToolManager).2
               = Some (Samples.failing "db_find")) by (vm_compute; reflexivity).
  assert (H2 : ToolManager.isEnabled (Samples.failing "db_find") = true)
    by reflexivity.
  assert (H3 : ToolManager.execute (Samples.failing "db_find") None []
               = (inl Samples.unreachable, ["find by db_find"])) by reflexivity.
  assert (H5 : JSMap.get
                 (ToolsRegistry.sets [("db_find", Samples.jsFailing "db_find")] [])
                 "db_find" = Some (Samples.jsFailing "db_find")) by reflexivity.
  assert (H6 : ToolsRegistry.handler (Samples.jsFailing "db_find") None []
               = (inl (ToolsRegistry.JsError "Error" "Document Store unreachable"),
                  ["find by db_find"])) by reflexivity.
  destruct (C7_handler_failure_is_rethrown_and_counted
              _ _ "db_find" None [] _ _ _ _ _ _ H1 H2 H3 H5 H6)
    as ((tm' & Hcall & Herr & _ & _ & _ & Htools) & Hjs & _).
  split; [| exact Hjs].
  exists tm'. split; [exact Hcall |]. split; [| exact Htools].
  exact (eq_trans Herr eq_refl).
Defined.

(** ** Registry *)

(** The walk of the table goes through every entry once. *)
Lemma place_Permutation {V : Type} (arrivals : list string)
  (entry : string * V) (walked : list (string * V)) :
  ConcurrentHashMap.place arrivals entry walked ≡ₚ entry :: walked.
Proof.
  induction walked as [| e rest IH]; [reflexivity |].
  cbn [ConcurrentHashMap.place].
  destruct (ConcurrentHashMap.before arrivals entry.1 e.1); [reflexivity |].
  rewrite IH. apply perm_swap.
Qed.

Lemma walk_Permutation {V : Type} (arrivals : list string)
  (entries : list (string * V)) :
  ConcurrentHashMap.walk arrivals entries ≡ₚ entries.
Proof.
  unfold ConcurrentHashMap.walk.
  induction entries as [| e rest IH]; [reflexivity |].
  cbn [fold_right]. rewrite place_Permutation, IH. reflexivity.
Qed.

Lemma values_Permutation {World : Type} (tm : ToolManager.ToolManager World) :
  ToolManager.values tm ≡ₚ (map_to_list (ToolManager.tools tm)).*2.
Proof. unfold ToolManager.values. rewrite walk_Permutation. reflexivity. Qed.

Lemma values_of_lookup {World : Type}
  (tm : ToolManager.ToolManager World) (k : string) (t : ToolManager.MCPTool World) :
  ToolManager.tools tm !! k = Some t -> t ∈ ToolManager.values tm.
Proof.
  intros Hk. rewrite values_Permutation.
  apply list_elem_of_fmap. exists (k, t). split; [reflexivity |].
  apply elem_of_map_to_list. exact Hk.
Qed.

Lemma lookup_of_values {World : Type}
  (tm : ToolManager.ToolManager World) (t : ToolManager.MCPTool World) :
  t ∈ ToolManager.values tm -> exists k, ToolManager.tools tm !! k = Some t.
Proof.
  rewrite values_Permutation. intros Ht.
  apply list_elem_of_fmap in Ht as [[k t'] [-> Hin]].
  exists k. apply elem_of_map_to_list in Hin. exact Hin.
Qed.

Lemma length_values {World : Type} (tm : ToolManager.ToolManager World) :
  length (ToolManager.values tm) = ToolManager.getTotalToolCount tm.
Proof.
  rewrite values_Permutation. unfold ToolManager.getTotalToolCount.
  rewrite length_fmap. apply length_map_to_list.
Qed.

Lemma unregisterTool_counters {World : Type}
  (name : string) (tm : ToolManager.ToolManager World) :
  ToolManager.executionCount (ToolManager.unregisterTool name tm)
  = ToolManager.executionCount tm
  /\ ToolManager.errorCount (ToolManager.unregisterTool name tm)
     = ToolManager.errorCount tm.
Proof.
  unfold ToolManager.unregisterTool, ToolManager.remove.
  destruct (ToolManager.tools tm !! name); split; reflexivity.
Qed.

Lemma unregisterTool_tools {World : Type}
  (name : string) (tm : ToolManager.ToolManager World) :
  ToolManager.tools (ToolManager.unregisterTool name tm)
  = delete name (ToolManager.tools tm).
Proof.
  unfold ToolManager.unregisterTool, ToolManager.remove.
  destruct (ToolManager.tools tm !! name) eqn:E; [reflexivity |].
  symmetry. apply delete_id. exact E.
Qed.

(** What [registerTool] does with a tool it accepts. *)
Lemma registerTool_accepted {World : Type}
  (t : ToolManager.MCPTool World) (name : string) (tm : ToolManager.ToolManager World) :
  ToolManager.getName t = Some name ->
  JString.trim_isEmpty name = false ->
  ToolManager.isEnabled t = true ->
  ToolManager.registerTool (Some t) tm
    = (inr tt, ToolManager.put name t tm).
Proof.
  intros Hn Hb He. unfold ToolManager.registerTool. rewrite Hn, Hb, He. reflexivity.
Qed.

(** [registerTool] changes the map only by an insertion under the name of
    an enabled tool. *)
Lemma registerTool_tools {World : Type}
  (o : option (ToolManager.MCPTool World)) (tm : ToolManager.ToolManager World) :
  ToolManager.tools (ToolManager.registerTool o tm).2 = ToolManager.tools tm
  \/ exists t name,
       o = Some t /\ ToolManager.getName t = Some name
       /\ JString.trim_isEmpty name = false
       /\ ToolManager.isEnabled t = true
       /\ ToolManager.tools (ToolManager.registerTool o tm).2
          = <[name := t]> (ToolManager.tools tm).
Proof.
  unfold ToolManager.registerTool.
  destruct o as [t |]; [| left; reflexivity].
  destruct (ToolManager.getName t) as [name |] eqn:Hn; [| left; reflexivity].
  destruct (JString.trim_isEmpty name) eqn:Hb; [left; reflexivity |].
  destruct (ToolManager.isEnabled t) eqn:He; cbn [negb]; [| left; reflexivity].
  right. exists t, name. repeat split; assumption.
Qed.

(** [executeTool] never touches the map of tools. *)
Lemma executeTool_tools {World : Type}
  (toolName : string) (args : option JsonNode)
  (tm : ToolManager.ToolManager World) (w : World) :
  ToolManager.tools (ToolManager.executeTool toolName args tm w).1.2
  = ToolManager.tools tm.
Proof.
  unfold ToolManager.executeTool.
  cbn [ToolManager.tools ToolManager.incr_executionCount].
  destruct (ToolManager.tools tm !! toolName) as [tool |]; [| reflexivity].
  destruct (ToolManager.isEnabled tool); cbn [negb]; [| reflexivity].
  destruct (ToolManager.execute tool args w) as [[e | r] w']; reflexivity.
Qed.

(** C8, counterexample.  A descriptor with a name that is not empty, but
    which answers [isEnabled() = false], is not inserted: the call returns
    normally and the registry is as before. *)
Lemma C8_counterexample_disabled_tool_not_inserted :
  ToolManager.getName (Samples.storing "db_insert" false) = Some "db_insert"
  /\ ToolManager.registerTool (Some (Samples.storing "db_insert" false))
       ToolManager.newToolManager
     = (inr tt, ToolManager.newToolManager)
  /\ ToolManager.lookup "db_insert"
       (ToolManager.registerTool (Some (Samples.storing "db_insert" false))
          ToolManager.newToolManager).2 = None
  /\ ToolManager.getToolsListAsJson
       (ToolManager.registerTool (Some (Samples.storing "db_insert" false))
          ToolManager.newToolManager).2 = [].
Proof. repeat split. Qed.

(** C8, as amended.  [registerTool] fails with an
    [IllegalArgumentException], the registry unchanged, when the name of
    the descriptor is null, empty or made of blanks only.  Otherwise, if
    the descriptor answers that it is disabled, the call returns normally
    and the registry is unchanged.  Otherwise the descriptor is stored
    under its name, in place of any descriptor stored there before: it is
    what lookups of the name give and it is part of the listing, while the
    other names and the counters are as before. *)
Theorem C8_registerTool_by_cases
  {World : Type} (t : ToolManager.MCPTool World) (tm : ToolManager.ToolManager World) :
  match ToolManager.getName t with
  | None =>
      exists e, ToolManager.registerTool (Some t) tm = (inl e, tm)
                /\ getClass e = IllegalArgumentException
  | Some name =>
      if JString.trim_isEmpty name then
        exists e, ToolManager.registerTool (Some t) tm = (inl e, tm)
                  /\ getClass e = IllegalArgumentException
      else if ToolManager.isEnabled t then
        exists tm',
          ToolManager.registerTool (Some t) tm = (inr tt, tm')
          /\ ToolManager.lookup name tm' = Some t
          /\ ToolManager.toolNode t ∈ ToolManager.getToolsListAsJson tm'
          /\ (forall other, other <> name ->
                ToolManager.lookup other tm' = ToolManager.lookup other tm)
          /\ ToolManager.executionCount tm' = ToolManager.executionCount tm
          /\ ToolManager.errorCount tm' = ToolManager.errorCount tm
      else ToolManager.registerTool (Some t) tm = (inr tt, tm)
  end.
Proof.
  destruct (ToolManager.getName t) as [name |] eqn:Hn.
  - destruct (JString.trim_isEmpty name) eqn:Hb.
    + unfold ToolManager.registerTool. rewrite Hn, Hb.
      eexists. split; reflexivity.
    + destruct (ToolManager.isEnabled t) eqn:He.
      * exists (ToolManager.put name t tm).
        split; [apply registerTool_accepted; assumption |].
        assert (Hl : ToolManager.lookup name
                       (ToolManager.put name t tm)
                     = Some t).
        { unfold ToolManager.lookup, ToolManager.put.
          cbn [ToolManager.tools]. apply lookup_insert_eq. }
        split; [exact Hl |].
        split.
        { unfold ToolManager.getToolsListAsJson.
          apply list_elem_of_fmap. exists t. split; [reflexivity |].
          eapply values_of_lookup. exact Hl. }
        split.
        { intros other Hne. unfold ToolManager.lookup, ToolManager.put.
          cbn [ToolManager.tools]. apply lookup_insert_ne. congruence. }
        split; reflexivity.
      * unfold ToolManager.registerTool. rewrite Hn, Hb, He. reflexivity.
  - unfold ToolManager.registerTool. rewrite Hn.
    eexists. split; reflexivity.
Qed.

(** One call that keeps [d] in place leaves the lookup of its name alone. *)
Lemma step_keeps_lookup {World : Type}
  (name : string) (d : ToolManager.MCPTool World)
  (op : ToolManager.Op World) (st : ToolManager.ToolManager World * World) :
  ToolManager.keeps name d op ->
  ToolManager.lookup name st.1 = Some d ->
  ToolManager.lookup name (ToolManager.step st op).1 = Some d.
Proof.
  intros Hk Hl. unfold ToolManager.lookup in *.
  destruct op as [o | n | toolName args]; cbn [ToolManager.step fst snd].
  - destruct (registerTool_tools o st.1) as [-> | (t & n & -> & Hn & _ & He & ->)];
      [exact Hl |].
    destruct (decide (n = name)) as [-> | Hne].
    + cbn [ToolManager.keeps] in Hk. rewrite (Hk Hn He). apply lookup_insert_eq.
    + rewrite lookup_insert_ne by exact Hne. exact Hl.
  - cbn [ToolManager.keeps] in Hk.
    rewrite unregisterTool_tools. rewrite lookup_delete_ne by exact Hk. exact Hl.
  - pose proof (executeTool_tools toolName args st.1 st.2) as Ht.
    destruct (ToolManager.executeTool toolName args st.1 st.2) as [[r tm'] w'].
    cbn [fst snd] in *. rewrite Ht. exact Hl.
Qed.

Lemma run_keeps_lookup {World : Type}
  (name : string) (d : ToolManager.MCPTool World)
  (ops : list (ToolManager.Op World)) :
  Forall (ToolManager.keeps name d) ops ->
  forall st : ToolManager.ToolManager World * World,
    ToolManager.lookup name st.1 = Some d ->
    ToolManager.lookup name (ToolManager.run ops st).1 = Some d.
Proof.
  induction 1 as [| op ops Hop _ IH]; intros st Hl; [exact Hl |].
  unfold ToolManager.run in *. cbn [fold_left].
  apply IH. apply step_keeps_lookup; assumption.
Qed.

Lemma JSMap_get_sets_other {World : Type}
  (kvs : list (string * ToolsRegistry.Tool World)) (reg : ToolsRegistry.t World)
  (k : string) :
  Forall (fun kv => kv.1 <> k) kvs ->
  JSMap.get (ToolsRegistry.sets kvs reg) k = JSMap.get reg k.
Proof.
  unfold ToolsRegistry.sets. intros Hkvs. revert reg.
  induction Hkvs as [| [k' v'] kvs Hk' _ IH]; intros reg; [reflexivity |].
  cbn [fold_left fst snd]. rewrite IH. apply JSMap_get_set_ne. exact Hk'.
Qed.

(** C9, counterexample.  With [db_insert] registered, registering under
    the same name a descriptor that answers [isEnabled() = false] returns
    normally, and the lookup that follows gives the earlier descriptor,
    not the one just passed to [registerTool]. *)
Lemma C9_counterexample_lookup_after_register_of_disabled :
  (ToolManager.registerTool (Some (Samples.storing "db_insert" false))
     (ToolManager.registerTool (Some (Samples.storing "db_insert" true))
        ToolManager.newToolManager).2).1 = inr tt
  /\ ToolManager.lookup "db_insert"
       (ToolManager.registerTool (Some (Samples.storing "db_insert" false))
          (ToolManager.registerTool (Some (Samples.storing "db_insert" true))
             ToolManager.newToolManager).2).2
     = Some (Samples.storing "db_insert" true)
  /\ Samples.storing "db_insert" true <> Samples.storing "db_insert" false.
Proof.
  split; [reflexivity |]. split; [vm_compute; reflexivity |].
  intros H. apply (f_equal ToolManager.isEnabled) in H. discriminate H.
Qed.

(** C9, as amended.  For a descriptor [d] that [registerTool] stores (its
    name is not blank and it answers that it is enabled): after
    [registerTool d], and after any further run of [registerTool],
    [unregisterTool] and [executeTool] calls none of which unregisters the
    name or stores another descriptor under it, the lookup of the name
    gives [d] itself.  Unregistering the name then makes the lookup give
    nothing, and storing another descriptor under the name makes the
    lookup give that one.  In the JavaScript registry, which has no way to
    unregister, [getToolInfo] gives the descriptor last set under the
    name, whatever is set under other names afterwards. *)
Theorem C9_lookup_gives_registered_descriptor
  {World : Type}
  (d : ToolManager.MCPTool World) (name : string)
  (tm : ToolManager.ToolManager World) (w : World)
  (ops : list (ToolManager.Op World))
  (Hname : ToolManager.getName d = Some name)
  (Hblank : JString.trim_isEmpty name = false)
  (Henabled : ToolManager.isEnabled d = true)
  (Hkeeps : Forall (ToolManager.keeps name d) ops)
  (reg : ToolsRegistry.t World) (jsd : ToolsRegistry.Tool World)
  (kvs : list (string * ToolsRegistry.Tool World))
  (Hjs : Forall (fun kv => kv.1 <> name) kvs) :
  let later := (ToolManager.run ops ((ToolManager.registerTool (Some d) tm).2, w)).1 in
  ToolManager.lookup name later = Some d
  /\ ToolManager.lookup name (ToolManager.unregisterTool name later) = None
  /\ (forall d' : ToolManager.MCPTool World,
        ToolManager.getName d' = Some name ->
        ToolManager.isEnabled d' = true ->
        ToolManager.lookup name (ToolManager.registerTool (Some d') later).2
        = Some d')
  /\ ToolsRegistry.getToolInfo name
       (ToolsRegistry.sets kvs (JSMap.set reg name jsd)) = Some jsd.
Proof.
  cbn zeta. split; [| split; [| split]]; cycle 3.
  { unfold ToolsRegistry.getToolInfo.
    rewrite (JSMap_get_sets_other kvs _ name Hjs). apply JSMap_get_set_eq. }
  - apply run_keeps_lookup; [exact Hkeeps |].
    rewrite (registerTool_accepted d name tm Hname Hblank Henabled).
    cbn [fst snd]. unfold ToolManager.lookup, ToolManager.put.
    cbn [ToolManager.tools]. apply lookup_insert_eq.
  - unfold ToolManager.lookup. rewrite unregisterTool_tools. apply lookup_delete_eq.
  - intros d' Hn' He'.
    rewrite (registerTool_accepted d' name _ Hn' Hblank He').
    cbn [fst snd]. unfold ToolManager.lookup, ToolManager.put.
    cbn [ToolManager.tools]. apply lookup_insert_eq.
Qed.

(** C9 at work: [db_insert] stays in place through an execution, the
    coming and going of [echo], and the registration of a disabled
    descriptor of the same name. *)
Lemma C9_lookup_gives_registered_descriptor_witness :
  ToolManager.lookup "db_insert"
    (ToolManager.run
       [ ToolManager.OpExecute "db_insert" None;
         ToolManager.OpRegister (Some (Samples.storing "echo" true));
         ToolManager.OpUnregister "echo";
         ToolManager.OpRegister (Some (Samples.storing "db_insert" false)) ]
       ((ToolManager.registerTool (Some (Samples.storing "db_insert" true))
           ToolManager.newToolManager).2, [])).1
  = Some (Samples.storing "db_insert" true).
Proof.
  assert (Hk : Forall (ToolManager.keeps "db_insert" (Samples.storing "db_insert" true))
                 [ ToolManager.OpExecute "db_insert" None;
                   ToolManager.OpRegister (Some (Samples.storing "echo" true));
                   ToolManager.OpUnregister "echo";
                   ToolManager.OpRegister (Some (Samples.storing "db_insert" false)) ]).
  { repeat constructor; cbn; intros; discriminate. }
  assert (Hjs : Forall (fun kv : string * ToolsRegistry.Tool Samples.World =>
                          kv.1 <> "db_insert")
                  [ ("echo", ToolsRegistry.echo) ]).
  { repeat constructor. cbn. discriminate. }
  exact (proj1 (C9_lookup_gives_registered_descriptor
                  (Samples.storing "db_insert" true) "db_insert"
                  ToolManager.newToolManager [] _
                  eq_refl eq_refl eq_refl Hk
                  [] (Samples.jsFailing "db_insert") _ Hjs)).
Defined.

(** ** Listing *)







(** The bins of four one-letter names in the table of a new
    [ConcurrentHashMap]. *)
Lemma bins_of_a_b_p_q :
  JavaHash.hashCode "a" = 97%Z /\ JavaHash.hashCode "b" = 98%Z
  /\ ConcurrentHashMap.binOf "a" = 1%Z /\ ConcurrentHashMap.binOf "b" = 2%Z
  /\ ConcurrentHashMap.binOf "p" = 0%Z /\ ConcurrentHashMap.binOf "q" = 1%Z.
Proof. repeat split. Qed.

(** The walk at work.  Names of different bins are listed in the order of
    their bins, whichever came first; names of one bin are listed in the
    order in which they came in, and a name that is removed and put again
    goes to the end of its bin. *)
Example walk_of_two_names :
  let names (tm : ToolManager.ToolManager Samples.World) :=
    (fun node => Json.get node "name") <$> ToolManager.getToolsListAsJson tm in
  let put name tm :=
    (ToolManager.registerTool (Some (Samples.storing name true)) tm).2 in
  names (put "b" (put "p" ToolManager.newToolManager))
  = [Some (TextNode "p"); Some (TextNode "b")]
  /\ names (put "p" (put "b" ToolManager.newToolManager))
     = [Some (TextNode "p"); Some (TextNode "b")]
  /\ names (put "q" (put "a" ToolManager.newToolManager))
     = [Some (TextNode "a"); Some (TextNode "q")]
  /\ names (put "a" (put "q" ToolManager.newToolManager))
     = [Some (TextNode "q"); Some (TextNode "a")]
  /\ names (put "a" (ToolManager.unregisterTool "a"
                       (put "q" (put "a" ToolManager.newToolManager))))
     = [Some (TextNode "q"); Some (TextNode "a")].
Proof. repeat split; vm_compute; reflexivity. Qed.




(** The gate of [registerTool] at work: as long as no tool changes its
    answer to [isEnabled()], every tool of the map is enabled. *)
Lemma run_all_enabled {World : Type}
  (ops : list (ToolManager.Op World)) (st : ToolManager.ToolManager World * World) :
  map_Forall (fun _ t => ToolManager.isEnabled t = true) (ToolManager.tools st.1) ->
  map_Forall (fun _ t => ToolManager.isEnabled t = true)
    (ToolManager.tools (ToolManager.run ops st).1).
Proof.
  unfold ToolManager.run. revert st.
  induction ops as [| op ops IH]; intros st Hst; [exact Hst |].
  cbn [fold_left]. apply IH.
  destruct op as [o | n | toolName args]; cbn [ToolManager.step fst snd].
  - destruct (registerTool_tools o st.1) as [-> | (t & n & _ & _ & _ & He & ->)];
      [exact Hst |].
    apply map_Forall_insert_2; assumption.
  - rewrite unregisterTool_tools. apply map_Forall_delete. exact Hst.
  - pose proof (executeTool_tools toolName args st.1 st.2) as Ht.
    destruct (ToolManager.executeTool toolName args st.1 st.2) as [[r tm'] w'].
    cbn [fst snd] in *. rewrite Ht. exact Hst.
Qed.

(** C6, the defect.  A tool that was enabled when it was registered and
    that answers [isEnabled() = false] afterwards is still in the answer
    of [getToolsListAsJson], whose loop has no test of the flag, while
    [getToolCount], [hasToolEnabled] and [executeTool] all leave it out. *)
Theorem C6_listing_keeps_tool_that_became_disabled :
  ToolManager.getToolsListAsJson
    (ToolManager.toolStateChanged "db_insert" false
       (ToolManager.registerTool (Some (Samples.storing "db_insert" true))
          ToolManager.newToolManager).2)
  = [ ToolManager.toolNode (Samples.storing "db_insert" false) ]
  /\ ToolManager.getToolCount
       (ToolManager.toolStateChanged "db_insert" false
          (ToolManager.registerTool (Some (Samples.storing "db_insert" true))
             ToolManager.newToolManager).2) = 0%nat
  /\ ToolManager.hasToolEnabled "db_insert"
       (ToolManager.toolStateChanged "db_insert" false
          (ToolManager.registerTool (Some (Samples.storing "db_insert" true))
             ToolManager.newToolManager).2) = false
  /\ (ToolManager.executeTool "db_insert" None
        (ToolManager.toolStateChanged "db_insert" false
           (ToolManager.registerTool (Some (Samples.storing "db_insert" true))
              ToolManager.newToolManager).2) ([] : Samples.World)).1.1
     = inl (Throw IllegalStateException
              (Some "Herramienta deshabilitada: db_insert") None).
Proof. repeat split; vm_compute; reflexivity. Qed.

(** ** Protocol *)

Lemma createErrorResponse_id (id : option JsonNode) (code : Z)
  (message : string) (data : option string) :
  Json.get (MCPProtocolHandler.createErrorResponse id code message data) "id"
  = Some (Json.orNull id).
Proof. reflexivity. Qed.

Lemma resultResponse_id (id : option JsonNode) (result : JsonNode) :
  Json.get (MCPProtocolHandler.resultResponse id result) "id"
  = Some (Json.orNull id).
Proof. reflexivity. Qed.

(** Every response that a guarded handler builds carries the [id] it was
    given. *)
Lemma handleToolsCall_answers {World ResourceManager : Type}
  (readTree : string -> Try JsonNode) (npeMessage : option string)
  (id params : option JsonNode)
  (h : MCPProtocolHandler.MCPProtocolHandler World ResourceManager) (w : World) :
  exists r,
    (MCPProtocolHandler.handleToolsCall readTree npeMessage id params h w).1.1 = Some r
    /\ Json.get r "id" = Some (Json.orNull id).
Proof.
  unfold MCPProtocolHandler.handleToolsCall.
  destruct (MCPProtocolHandler.isInitialized h); cbn [negb];
    [| eexists; split; [reflexivity | apply createErrorResponse_id]].
  destruct params as [p |];
    [| eexists; split; [reflexivity | apply createErrorResponse_id]].
  destruct (ToolManager.executeTool _ _ _ _) as [[[e | result] tm'] w'];
    [eexists; split; [reflexivity | apply createErrorResponse_id] |].
  destruct (readTree result) as [e | tree]; eexists; (split; [reflexivity |]);
    [apply createErrorResponse_id | apply resultResponse_id].
Qed.

Lemma handleResourcesRead_answers {World ResourceManager : Type}
  (readTree : string -> Try JsonNode) (npeMessage : option string)
  (readResource :
     string -> ResourceManager -> World -> Try string * ResourceManager * World)
  (id params : option JsonNode)
  (h : MCPProtocolHandler.MCPProtocolHandler World ResourceManager) (w : World) :
  exists r,
    (MCPProtocolHandler.handleResourcesRead readTree npeMessage readResource
       id params h w).1.1 = Some r
    /\ Json.get r "id" = Some (Json.orNull id).
Proof.
  unfold MCPProtocolHandler.handleResourcesRead.
  destruct (MCPProtocolHandler.isInitialized h); cbn [negb];
    [| eexists; split; [reflexivity | apply createErrorResponse_id]].
  destruct params as [p |];
    [| eexists; split; [reflexivity | apply createErrorResponse_id]].
  destruct (readResource _ _ _) as [[[e | result] rm'] w'];
    [eexists; split; [reflexivity | apply createErrorResponse_id] |].
  destruct (readTree result) as [e | tree]; eexists; (split; [reflexivity |]);
    [apply createErrorResponse_id | apply resultResponse_id].
Qed.

(** C3, counterexample.  A [ping] without [id], a notification, is
    answered (with a JSON null for [id]); an [initialized] that carries the
    [id] 7 is not answered at all. *)
Lemma C3_counterexample_notification_answered_request_not :
  Json.has (Samples.request None "ping") "id" = false
  /\ (MCPProtocolHandler.handleParsed Samples.readLiteral None
        Samples.noResources Samples.noResource 1700000000000
        (inr (Samples.request None "ping"))
        (Samples.handlerOver ToolManager.newToolManager true) []).1.1
     = Some (MCPProtocolHandler.resultResponse None
               (Json.object
                  [ ("status", TextNode "ok");
                    ("server", TextNode "universal-mcp-server-java");
                    ("version", TextNode "1.0.0");
                    ("timestamp", IntNode 1700000000000) ]))
  /\ Json.get (Samples.request (Some (IntNode 7)) "initialized") "id"
     = Some (IntNode 7)
  /\ (MCPProtocolHandler.handleParsed Samples.readLiteral None
        Samples.noResources Samples.noResource 1700000000000
        (inr (Samples.request (Some (IntNode 7)) "initialized"))
        (Samples.handlerOver ToolManager.newToolManager false) []).1.1
     = None.
Proof. repeat split. Qed.

(** C3, as amended.  Whether a message is answered depends on its method
    and not on the presence of an [id].  A message that is read and is
    JSON-RPC 2.0 gets no response when its method is [initialized],
    [resources/updated] or [notifications/initialized]; for every other
    method, known or not, it gets exactly one response, whose [id] is the
    [id] of the message, or a JSON null when the message has none.  A
    message that cannot be read, or that is not JSON-RPC 2.0, gets one
    error response whose [id] is a JSON null. *)
Theorem C3_response_and_its_id
  {World ResourceManager : Type}
  (readTree : string -> Try JsonNode) (npeMessage : option string)
  (getResourcesListAsJson : ResourceManager -> list JsonNode)
  (readResource :
     string -> ResourceManager -> World -> Try string * ResourceManager * World)
  (now : Z) (parsed : Try JsonNode)
  (h : MCPProtocolHandler.MCPProtocolHandler World ResourceManager) (w : World) :
  let response :=
    (MCPProtocolHandler.handleParsed readTree npeMessage getResourcesListAsJson
       readResource now parsed h w).1.1 in
  match parsed with
  | inl _ => exists r, response = Some r /\ Json.get r "id" = Some NullNode
  | inr messageNode =>
      if negb (MCPProtocolHandler.isJsonRpc2 messageNode) then
        exists r, response = Some r /\ Json.get r "id" = Some NullNode
      else if MCPProtocolHandler.answersNothing (Json.pathText messageNode "method")
      then response = None
      else
        exists r,
          response = Some r
          /\ Json.get r "id" = Some (Json.orNull (Json.get messageNode "id"))
  end.
Proof.
  cbn zeta. destruct parsed as [e | messageNode].
  - eexists. split; reflexivity.
  - unfold MCPProtocolHandler.handleParsed, MCPProtocolHandler.answersNothing.
    destruct (MCPProtocolHandler.isJsonRpc2 messageNode); cbn [negb];
      [| eexists; split; reflexivity].
    set (method := Json.pathText messageNode "method").
    set (id := Json.get messageNode "id").
    set (params := Json.get messageNode "params").
    destruct (String.eqb method "initialize") eqn:E1.
    { apply String.eqb_eq in E1. rewrite E1. cbn.
      eexists. split; reflexivity. }
    destruct (String.eqb method "initialized") eqn:E2; [reflexivity |].
    destruct (String.eqb method "tools/list") eqn:E3.
    { apply String.eqb_eq in E3. rewrite E3. cbn [String.eqb Ascii.eqb Bool.eqb orb].
      unfold MCPProtocolHandler.handleToolsList.
      destruct (MCPProtocolHandler.isInitialized h); eexists; split; reflexivity. }
    destruct (String.eqb method "tools/call") eqn:E4.
    { apply String.eqb_eq in E4. rewrite E4. cbn [String.eqb Ascii.eqb Bool.eqb orb].
      apply handleToolsCall_answers. }
    destruct (String.eqb method "resources/list") eqn:E5.
    { apply String.eqb_eq in E5. rewrite E5. cbn [String.eqb Ascii.eqb Bool.eqb orb].
      unfold MCPProtocolHandler.handleResourcesList.
      destruct (MCPProtocolHandler.isInitialized h); eexists; split; reflexivity. }
    destruct (String.eqb method "resources/read") eqn:E6.
    { apply String.eqb_eq in E6. rewrite E6. cbn [String.eqb Ascii.eqb Bool.eqb orb].
      apply handleResourcesRead_answers. }
    destruct (String.eqb method "resources/updated") eqn:E7; [reflexivity |].
    destruct (String.eqb method "ping") eqn:E8.
    { apply String.eqb_eq in E8. rewrite E8. cbn [String.eqb Ascii.eqb Bool.eqb orb].
      eexists. split; reflexivity. }
    destruct (String.eqb method "notifications/initialized") eqn:E9; [reflexivity |].
    cbn [orb]. eexists. split; reflexivity.
Qed.

(** C4, counterexample.  Before initialization, a method without a case
    in the [switch] is answered with Method not found (-32601), not with
    Server not initialized; and [initialized] is not answered at all. *)
Lemma C4_counterexample_unknown_method_before_initialized :
  MCPProtocolHandler.isInitialized
    (Samples.handlerOver ToolManager.newToolManager false) = false
  /\ MCPProtocolHandler.handleParsed Samples.readLiteral None
       Samples.noResources Samples.noResource 1700000000000
       (inr (Samples.request (Some (IntNode 1)) "prompts/list"))
       (Samples.handlerOver ToolManager.newToolManager false) []
     = (Some (MCPProtocolHandler.createErrorResponse (Some (IntNode 1)) (-32601)
                "Method not found" (Some "Método no implementado: prompts/list")),
        Samples.handlerOver ToolManager.newToolManager false, [])
  /\ (MCPProtocolHandler.handleParsed Samples.readLiteral None
        Samples.noResources Samples.noResource 1700000000000
        (inr (Samples.request (Some (IntNode 2)) "initialized"))
        (Samples.handlerOver ToolManager.newToolManager false) []).1.1
     = None.
Proof. repeat split. Qed.

(** C4, as amended.  While [isInitialized] is false, a JSON-RPC 2.0
    message is handled by its method as follows.  [tools/list],
    [tools/call], [resources/list] and [resources/read] are answered with
    the error -32002, Server not initialized, and change nothing.
    [initialize] and [ping] are answered with their usual results; neither
    sets the flag.  [initialized] sets the flag and, like
    [resources/updated] and [notifications/initialized], is not answered.
    Any other method is answered with the error -32601, Method not found. *)
Theorem C4_before_initialized
  {World ResourceManager : Type}
  (readTree : string -> Try JsonNode) (npeMessage : option string)
  (getResourcesListAsJson : ResourceManager -> list JsonNode)
  (readResource :
     string -> ResourceManager -> World -> Try string * ResourceManager * World)
  (now : Z) (messageNode : JsonNode)
  (h : MCPProtocolHandler.MCPProtocolHandler World ResourceManager) (w : World)
  (Huninit : MCPProtocolHandler.isInitialized h = false)
  (Hrpc : MCPProtocolHandler.isJsonRpc2 messageNode = true) :
  let method := Json.pathText messageNode "method" in
  let id := Json.get messageNode "id" in
  let out :=
    MCPProtocolHandler.handleParsed readTree npeMessage getResourcesListAsJson
      readResource now (inr messageNode) h w in
  (MCPProtocolHandler.needsInitialized method = true ->
     out = (Some (MCPProtocolHandler.createErrorResponse id (-32002)
                    "Server not initialized" (Some "Servidor no inicializado")),
            h, w))
  /\ (method = "initialize" ->
        exists result,
          out = (Some (MCPProtocolHandler.resultResponse id result), h, w)
          /\ Json.get result "protocolVersion"
             = Some (TextNode MCPProtocolHandler.MCP_VERSION))
  /\ (method = "ping" ->
        out = (Some (MCPProtocolHandler.resultResponse id
                       (Json.object
                          [ ("status", TextNode "ok");
                            ("server", TextNode (MCPProtocolHandler.serverName h));
                            ("version", TextNode (MCPProtocolHandler.serverVersion h));
                            ("timestamp", IntNode now) ])),
               h, w))
  /\ (method = "initialized" ->
        out = (None, MCPProtocolHandler.set_isInitialized true h, w))
  /\ (method = "resources/updated" \/ method = "notifications/initialized" ->
        out = (None, h, w))
  /\ (MCPProtocolHandler.knownMethod method = false ->
        out = (Some (MCPProtocolHandler.createErrorResponse id (-32601)
                       "Method not found"
                       (Some ("Método no implementado: " +:+ method))),
               h, w)).
Proof.
  cbn zeta. unfold MCPProtocolHandler.handleParsed. rewrite Hrpc. cbn [negb].
  set (method := Json.pathText messageNode "method").
  set (id := Json.get messageNode "id").
  set (params := Json.get messageNode "params").
  repeat split.
  - unfold MCPProtocolHandler.needsInitialized. intros Hm.
    repeat (apply orb_prop in Hm as [Hm | Hm]);
      apply String.eqb_eq in Hm; rewrite Hm;
      cbn [String.eqb Ascii.eqb Bool.eqb];
      unfold MCPProtocolHandler.handleToolsList, MCPProtocolHandler.handleToolsCall,
        MCPProtocolHandler.handleResourcesList,
        MCPProtocolHandler.handleResourcesRead;
      rewrite Huninit; reflexivity.
  - intros ->. cbn [String.eqb Ascii.eqb Bool.eqb].
    unfold MCPProtocolHandler.handleInitialize.
    eexists. split; reflexivity.
  - intros ->. reflexivity.
  - intros ->. reflexivity.
  - intros [-> | ->]; reflexivity.
  - unfold MCPProtocolHandler.knownMethod, MCPProtocolHandler.answersNothing,
      MCPProtocolHandler.needsInitialized.
    intros Hk.
    repeat match goal with
           | H : orb _ _ = false |- _ => apply orb_false_elim in H as [? ?]
           end.
    repeat match goal with H : String.eqb _ _ = false |- _ => rewrite H; clear H end.
    reflexivity.
Qed.

(** C4 at work: a [tools/call] with the [id] 3 before [initialized]. *)
Lemma C4_before_initialized_witness :
  MCPProtocolHandler.handleParsed Samples.readLiteral None
    Samples.noResources Samples.noResource 1700000000000
    (inr (Samples.request (Some (IntNode 3)) "tools/call"))
    (Samples.handlerOver
       (ToolManager.registerTool (Some (Samples.storing "db_insert" true))
          ToolManager.newToolManager).2 false) []
  = (Some (MCPProtocolHandler.createErrorResponse (Some (IntNode 3)) (-32002)
             "Server not initialized" (Some "Servidor no inicializado")),
     Samples.handlerOver
       (ToolManager.registerTool (Some (Samples.storing "db_insert" true))
          ToolManager.newToolManager).2 false,
     []).
Proof.
  assert (H1 : MCPProtocolHandler.isInitialized
                 (Samples.handlerOver
                    (ToolManager.registerTool (Some (Samples.storing "db_insert" true))
                       ToolManager.newToolManager).2 false) = false) by reflexivity.
  assert (H2 : MCPProtocolHandler.isJsonRpc2
                 (Samples.request (Some (IntNode 3)) "tools/call") = true)
    by reflexivity.
  exact (proj1 (C4_before_initialized Samples.readLiteral None
                  Samples.noResources Samples.noResource 1700000000000
                  (Samples.request (Some (IntNode 3)) "tools/call")
                  _ [] H1 H2) eq_refl).
Defined.

(** ** File system tool *)

(** Normalizing an absolute path leaves neither [.] nor [..] among its
    names. *)
Lemma normalize_names_absolute_plain (todo done : list string) :
  Forall FileSystemTool.plainName done ->
  Forall FileSystemTool.plainName (Path.normalize_names true done todo).
Proof.
  revert done. induction todo as [| n rest IH]; intros done Hdone.
  - cbn [Path.normalize_names]. apply Forall_rev. exact Hdone.
  - cbn [Path.normalize_names].
    destruct (String.eqb n ".") eqn:Edot; [apply IH; exact Hdone |].
    destruct (String.eqb n "..") eqn:Eup.
    + destruct done as [| top done']; [apply IH; constructor |].
      inversion Hdone as [| ? ? [_ Htop] Hdone']; subst.
      destruct (String.eqb top "..") eqn:Etop.
      * apply String.eqb_eq in Etop. contradiction.
      * apply IH. exact Hdone'.
    + apply IH. constructor; [| exact Hdone].
      split; intros ->; discriminate.
Qed.

Lemma validateArguments_ok (arguments : option JsonNode) :
  FileSystemTool.validateArguments arguments = inr tt ->
  exists args,
    arguments = Some args
    /\ Json.isObject args = true
    /\ Json.has args "action" = true
    /\ Json.has args "path" = true
    /\ FileSystemTool.forbidden (Json.pathText args "path") = false.
Proof.
  unfold FileSystemTool.validateArguments, FileSystemTool.forbidden.
  destruct arguments as [args |]; [| discriminate].
  destruct (Json.isObject args) eqn:Hobj; cbn [negb]; [| discriminate].
  destruct (Json.has args "action") eqn:Haction; cbn [negb]; [| discriminate].
  destruct (Json.has args "path") eqn:Hpath; cbn [negb]; [| discriminate].
  destruct (String.eqb "write" (Json.pathText args "action")
            && negb (Json.has args "content")); [discriminate |].
  destruct (JString.contains (Json.pathText args "path") ".."
            || JString.startsWith (Json.pathText args "path") "/"
            || JString.startsWith (Json.pathText args "path") "\") eqn:E;
    [discriminate |].
  intros _. exists args. repeat split; assumption.
Qed.

Lemma resolveSafePath_ok (userDir relativePath : string) (p : Path.Path) :
  JString.startsWith userDir "/" = true ->
  FileSystemTool.resolveSafePath userDir relativePath = inr p ->
  Path.startsWith p (FileSystemTool.basePath userDir) = true
  /\ Forall FileSystemTool.plainName (Path.names p).
Proof.
  intros Habs. unfold FileSystemTool.resolveSafePath.
  destruct (JString.trim_isEmpty relativePath); [discriminate |].
  destruct (Path.get _) as [e | parsed]; [discriminate |].
  destruct (JString.contains (Path.toString (Path.normalize parsed)) ".."
            || Path.isAbsolute (Path.normalize parsed)) eqn:Ereq; [discriminate |].
  apply orb_false_elim in Ereq as [_ Hrel].
  destruct (Path.startsWith _ (FileSystemTool.basePath userDir)) eqn:Estarts;
    cbn [negb]; [| discriminate].
  intros [= <-]. split; [exact Estarts |].
  cbn [Path.normalize Path.names Path.isAbsolute].
  assert (Hbase : Path.isAbsolute (FileSystemTool.basePath userDir) = true).
  { unfold FileSystemTool.basePath, Path.resolve.
    cbn [Path.parse Path.isAbsolute Path.names]. rewrite Habs. reflexivity. }
  assert (Hroot : Path.isAbsolute
                    (Path.resolve (FileSystemTool.basePath userDir)
                       (Path.normalize parsed)) = true).
  { unfold Path.resolve. rewrite Hrel, Hbase.
    destruct (Path.names (Path.normalize parsed)); [exact Hbase |].
    reflexivity. }
  rewrite Hroot. apply normalize_names_absolute_plain. constructor.
Qed.

Lemma dispatch_ok (userDir : string) (arguments : option JsonNode)
  (call : FileSystemTool.FsCall) :
  FileSystemTool.dispatch userDir arguments = inr call ->
  exists args,
    arguments = Some args
    /\ FileSystemTool.validateArguments arguments = inr tt
    /\ FileSystemTool.resolveSafePath userDir (Json.pathText args "path")
       = inr (FileSystemTool.target call).
Proof.
  unfold FileSystemTool.dispatch.
  destruct (FileSystemTool.validateArguments arguments) as [e | []] eqn:Ev;
    [discriminate |].
  destruct arguments as [args |]; [| discriminate].
  destruct (FileSystemTool.resolveSafePath userDir (Json.pathText args "path"))
    as [e | targetPath] eqn:Er; [discriminate |].
  intros Hcall. exists args. split; [reflexivity |]. split; [reflexivity |].
  rewrite Er. f_equal.
  repeat match type of Hcall with
         | (if ?c then _ else _) = _ => destruct c
         end;
    inversion Hcall; reflexivity.
Qed.

(** C10, counterexample.  A [write] without [content] on a path that
    climbs out with [..] is refused by the check of the arguments that
    comes first, with an [IllegalArgumentException], not with a security
    error. *)
Lemma C10_counterexample_write_without_content :
  FileSystemTool.forbidden "../etc/passwd" = true
  /\ FileSystemTool.dispatch "/home/mcp"
       (Some (ObjectNode [ ("action", TextNode "write");
                           ("path", TextNode "../etc/passwd") ]))
     = inl (Throw IllegalArgumentException
              (Some "La acción 'write' requiere el argumento 'content'") None)
  /\ IllegalArgumentException <> SecurityException.
Proof. split; [reflexivity |]. split; [reflexivity | discriminate]. Qed.

Lemma names_prefix_app (p l : list string) :
  Path.names_prefix p (p ++ l) = true.
Proof.
  induction p as [| x p IH]; [reflexivity |].
  cbn [app Path.names_prefix]. rewrite String.eqb_refl, IH. reflexivity.
Qed.

Lemma fs_basePath (userDir : string) :
  JString.startsWith userDir "/" = true ->
  FileSystemTool.basePath userDir
  = Path.mkPath true (Path.names (Path.parse userDir) ++ ["workspace"]).
Proof.
  intros Habs. unfold FileSystemTool.basePath, Path.resolve.
  cbn [Path.parse Path.isAbsolute Path.names]. rewrite Habs. reflexivity.
Qed.

Lemma forbidden_path_is_there (args : JsonNode) :
  FileSystemTool.forbidden (Json.pathText args "path") = true ->
  Json.isObject args = true /\ Json.has args "path" = true.
Proof.
  unfold Json.pathText, Json.has, Json.isObject.
  destruct (Json.get args "path") as [v |] eqn:Hget; [| discriminate].
  intros _. split; [| reflexivity].
  destruct args; try discriminate Hget. reflexivity.
Qed.

Lemma names_prefix_split (p l : list string) :
  Path.names_prefix p l = true -> exists rest, l = (p ++ rest)%list.
Proof.
  revert l. induction p as [| x p IH]; intros l H; [exists l; reflexivity |].
  destruct l as [| y l]; [discriminate |].
  cbn [Path.names_prefix] in H. apply andb_prop in H as [Hxy H].
  apply String.eqb_eq in Hxy. subst y.
  destruct (IH l H) as [rest ->]. exists rest. reflexivity.
Qed.

Lemma removelast_app_cons (p : list string) (x : string) (rest : list string) :
  removelast (p ++ x :: rest) = (p ++ removelast (x :: rest))%list.
Proof. apply removelast_app. discriminate. Qed.

(** The parent of a path below the base directory is the base directory
    or below it; the parent of the base directory is the working
    directory. *)
Lemma getParent_below_base (base rest : list string) :
  base <> [] ->
  match Path.getParent (Path.mkPath true (base ++ rest)) with
  | Some parent =>
      match rest with
      | [] => Some parent = Path.getParent (Path.mkPath true base)
      | _ => Path.startsWith parent (Path.mkPath true base) = true
      end
  | None => False
  end.
Proof.
  intros Hbase. unfold Path.getParent. cbn [Path.names Path.isAbsolute].
  destruct rest as [| x rest].
  - rewrite app_nil_r. destruct base as [| b [| b' base']]; [congruence | |];
      reflexivity.
  - destruct (base ++ x :: rest)%list as [| y [| y' l]] eqn:E.
    + destruct base; discriminate E.
    + destruct base as [| b base]; [congruence |].
      destruct base; discriminate E.
    + rewrite <- E, removelast_app_cons. unfold Path.startsWith.
      cbn [Path.isAbsolute Path.names Bool.eqb andb]. apply names_prefix_app.
Qed.

(** C10, as amended.  With the working directory an absolute path, for
    every [execute] call of the file system tool:
    - when the path of the arguments contains [..] or starts with a slash
      or a backslash, the call is refused before any private method that
      touches the file system is reached: with the
      [IllegalArgumentException] of the earlier checks when there is no
      [action], or when the action is [write] and there is no [content],
      and with a [SecurityException] otherwise;
    - when a private method is reached, the path of the arguments has
      none of these marks, the path that the method gets starts with the
      base directory and has neither [.] nor [..] among its names, and
      every path that the method hands to the file system starts with the
      base directory, but for one: a [write] whose path is the base
      directory itself also looks at the parent of the base directory,
      the working directory;
    - whenever the call is refused, the file system is left as it was,
      whatever the private methods would do. *)
Theorem C10_filesystem_paths_are_confined
  (userDir : string) (arguments : option JsonNode)
  (Habs : JString.startsWith userDir "/" = true) :
  (forall args,
      arguments = Some args ->
      FileSystemTool.forbidden (Json.pathText args "path") = true ->
      FileSystemTool.dispatch userDir arguments
      = inl (if negb (Json.has args "action") then
               Throw IllegalArgumentException (Some "Falta el argumento 'action'") None
             else if String.eqb "write" (Json.pathText args "action")
                     && negb (Json.has args "content")
             then Throw IllegalArgumentException
                    (Some "La acción 'write' requiere el argumento 'content'") None
             else Throw SecurityException
                    (Some ("Ruta no permitida: " +:+ Json.pathText args "path")) None))
  /\ (forall call,
        FileSystemTool.dispatch userDir arguments = inr call ->
        exists args,
          arguments = Some args
          /\ FileSystemTool.forbidden (Json.pathText args "path") = false
          /\ Path.startsWith (FileSystemTool.target call)
               (FileSystemTool.basePath userDir) = true
          /\ Forall FileSystemTool.plainName
               (Path.names (FileSystemTool.target call))
          /\ forall q,
               In q (FileSystemTool.touched call) ->
               Path.startsWith q (FileSystemTool.basePath userDir) = true
               \/ (FileSystemTool.actionOf call = "write"
                   /\ FileSystemTool.target call = FileSystemTool.basePath userDir
                   /\ Some q = Path.getParent (FileSystemTool.basePath userDir)))
  /\ (forall (World : Type)
        (perform : FileSystemTool.FsCall -> World -> Try string * World)
        (w : World) (e : Throwable),
        FileSystemTool.dispatch userDir arguments = inl e ->
        FileSystemTool.execute userDir perform arguments w = (inl e, w)).
Proof.
  split; [| split].
  - intros args -> Hforbidden.
    destruct (forbidden_path_is_there args Hforbidden) as [Hobj Hpath].
    unfold FileSystemTool.dispatch, FileSystemTool.validateArguments.
    rewrite Hobj, Hpath. cbn [negb].
    destruct (Json.has args "action"); cbn [negb]; [| reflexivity].
    destruct (String.eqb "write" (Json.pathText args "action")
              && negb (Json.has args "content")); [reflexivity |].
    unfold FileSystemTool.forbidden in Hforbidden. rewrite Hforbidden.
    reflexivity.
  - intros call Hcall.
    destruct (dispatch_ok userDir arguments call Hcall) as (args & -> & Hv & Hr).
    destruct (validateArguments_ok _ Hv) as (args' & [= <-] & _ & _ & _ & Hf).
    destruct (resolveSafePath_ok userDir _ _ Habs Hr) as [Hstarts Hplain].
    exists args. split; [reflexivity |]. split; [exact Hf |].
    split; [exact Hstarts |]. split; [exact Hplain |].
    intros q Hq.
    assert (Hself : Path.startsWith (FileSystemTool.target call)
                      (FileSystemTool.basePath userDir) = true) by exact Hstarts.
    destruct call as [p a | p content a | p r | p | p | p | p];
      cbn [FileSystemTool.touched FileSystemTool.target] in *;
      try (destruct Hq as [<- | []]; left; exact Hself).
    revert Hq Hself. rewrite (fs_basePath userDir Habs).
    set (base := (Path.names (Path.parse userDir) ++ ["workspace"])%list).
    intros Hq Hself.
    assert (Hbase : base <> []).
    { unfold base. destruct (Path.names (Path.parse userDir)); discriminate. }
    unfold Path.startsWith in Hself. cbn [Path.isAbsolute Path.names] in Hself.
    apply andb_prop in Hself as [Hroot Hprefix].
    destruct p as [abs names]. cbn [Path.isAbsolute Path.names] in *.
    destruct abs; [| discriminate Hroot].
    destruct (names_prefix_split _ _ Hprefix) as [rest ->].
    pose proof (getParent_below_base base rest Hbase) as Hparent.
    destruct (Path.getParent (Path.mkPath true (base ++ rest))) as [parent |];
      [| destruct Hparent].
    destruct Hq as [<- | [<- | []]].
    + destruct rest as [| x rest].
      * right. rewrite app_nil_r. repeat split. exact Hparent.
      * left. exact Hparent.
    + left. unfold Path.startsWith. cbn [Path.isAbsolute Path.names Bool.eqb andb].
      exact Hprefix.
  - intros World perform w e He. unfold FileSystemTool.execute.
    rewrite He. reflexivity.
Qed.

(** C10 at work: a [delete] under the working directory [/home/mcp]. *)
Lemma C10_filesystem_paths_are_confined_witness :
  JString.startsWith "/home/mcp" "/" = true
  /\ FileSystemTool.dispatch "/home/mcp"
       (Some (ObjectNode [ ("action", TextNode "delete");
                           ("path", TextNode "./notes//old/./a.txt") ]))
     = inr (FileSystemTool.deleteFile
              (Path.mkPath true ["home"; "mcp"; "workspace"; "notes"; "old"; "a.txt"]))
  /\ Path.startsWith
       (Path.mkPath true ["home"; "mcp"; "workspace"; "notes"; "old"; "a.txt"])
       (FileSystemTool.basePath "/home/mcp") = true.
Proof.
  assert (H1 : JString.startsWith "/home/mcp" "/" = true) by reflexivity.
  assert (H2 : FileSystemTool.dispatch "/home/mcp"
                 (Some (ObjectNode [ ("action", TextNode "delete");
                                     ("path", TextNode "./notes//old/./a.txt") ]))
               = inr (FileSystemTool.deleteFile
                        (Path.mkPath true
                           ["home"; "mcp"; "workspace"; "notes"; "old"; "a.txt"])))
    by reflexivity.
  split; [exact H1 |]. split; [exact H2 |].
  destruct (proj1 (proj2 (C10_filesystem_paths_are_confined "/home/mcp" _ H1)) _ H2)
    as (args & _ & _ & Hstarts & _).
  exact Hstarts.
Defined.

(** The one path outside the base directory: a [write] to [.] resolves to
    the base directory, and [writeFile] then tests its parent, the working
    directory. *)
Example write_to_the_base_directory_looks_at_its_parent :
  match FileSystemTool.dispatch "/home/mcp"
          (Some (ObjectNode [ ("action", TextNode "write"); ("path", TextNode ".");
                              ("content", TextNode "hola") ])) with
  | inr call =>
      FileSystemTool.touched call
      = [ Path.mkPath true ["home"; "mcp"];
          Path.mkPath true ["home"; "mcp"; "workspace"] ]
  | inl _ => False
  end.
Proof. reflexivity. Qed.

(** * Further properties of the code *)

(** ** ToolManager *)

(** X1.  A tool that is in the map but answers [isEnabled() = false] is
    refused by [executeTool] with an [IllegalStateException] naming it.
    Its handler does not run: the collaborators and the map are as before.
    The call is counted as an execution and as an error. *)
Theorem X1_disabled_tool_is_refused
  {World : Type}
  (tm : ToolManager.ToolManager World) (toolName : string)
  (args : option JsonNode) (w : World) (tool : ToolManager.MCPTool World)
  (Hfound : ToolManager.lookup toolName tm = Some tool)
  (Hdisabled : ToolManager.isEnabled tool = false) :
  ToolManager.executeTool toolName args tm w
  = (inl (Throw IllegalStateException
            (Some ("Herramienta deshabilitada: " +:+ toolName)) None),
     ToolManager.incr_errorCount (ToolManager.incr_executionCount tm), w)
  /\ ToolManager.tools
       (ToolManager.incr_errorCount (ToolManager.incr_executionCount tm))
     = ToolManager.tools tm.
Proof.
  unfold ToolManager.executeTool, ToolManager.lookup in *.
  cbn [ToolManager.tools ToolManager.incr_executionCount].
  rewrite Hfound, Hdisabled. split; reflexivity.
Qed.

(** X1 at work: [db_insert], registered enabled and disabled since. *)
Lemma X1_disabled_tool_is_refused_witness :
  ToolManager.executeTool "db_insert" None
    (ToolManager.toolStateChanged "db_insert" false
       (ToolManager.registerTool (Some (Samples.storing "db_insert" true))
          ToolManager.newToolManager).2) ([] : Samples.World)
  = (inl (Throw IllegalStateException
            (Some "Herramienta deshabilitada: db_insert") None),
     ToolManager.incr_errorCount
       (ToolManager.incr_executionCount
          (ToolManager.toolStateChanged "db_insert" false
             (ToolManager.registerTool (Some (Samples.storing "db_insert" true))
                ToolManager.newToolManager).2)),
     []).
Proof.
  assert (H1 : ToolManager.lookup "db_insert"
                 (ToolManager.toolStateChanged "db_insert" false
                    (ToolManager.registerTool (Some (Samples.storing "db_insert" true))
                       ToolManager.newToolManager).2)
               = Some (Samples.storing "db_insert" false))
    by (vm_compute; reflexivity).
  assert (H2 : ToolManager.isEnabled (Samples.storing "db_insert" false) = false)
    by reflexivity.
  exact (proj1 (X1_disabled_tool_is_refused _ "db_insert" None [] _ H1 H2)).
Defined.

(** What one [executeTool] does to the two counters. *)
Lemma executeTool_counters {World : Type}
  (toolName : string) (args : option JsonNode)
  (tm : ToolManager.ToolManager World) (w : World) :
  ToolManager.executionCount (ToolManager.executeTool toolName args tm w).1.2
  = AtomicLong.incrementAndGet (ToolManager.executionCount tm)
  /\ (ToolManager.errorCount (ToolManager.executeTool toolName args tm w).1.2
      = ToolManager.errorCount tm
      \/ ToolManager.errorCount (ToolManager.executeTool toolName args tm w).1.2
         = AtomicLong.incrementAndGet (ToolManager.errorCount tm)).
Proof.
  unfold ToolManager.executeTool.
  cbn [ToolManager.tools ToolManager.incr_executionCount].
  destruct (ToolManager.tools tm !! toolName) as [tool |];
    [| split; [reflexivity | right; reflexivity]].
  destruct (ToolManager.isEnabled tool); cbn [negb];
    [| split; [reflexivity | right; reflexivity]].
  destruct (ToolManager.execute tool args w) as [[e | r] w'];
    (split; [reflexivity |]); [right | left]; reflexivity.
Qed.

Lemma registerTool_counters {World : Type}
  (o : option (ToolManager.MCPTool World)) (tm : ToolManager.ToolManager World) :
  ToolManager.executionCount (ToolManager.registerTool o tm).2
  = ToolManager.executionCount tm
  /\ ToolManager.errorCount (ToolManager.registerTool o tm).2
     = ToolManager.errorCount tm.
Proof.
  unfold ToolManager.registerTool.
  destruct o as [t |]; [| split; reflexivity].
  destruct (ToolManager.getName t) as [name |]; [| split; reflexivity].
  destruct (JString.trim_isEmpty name); [split; reflexivity |].
  destruct (ToolManager.isEnabled t); split; reflexivity.
Qed.

(** X2.  The counters over a run of registry calls, as long as the 64-bit
    execution counter does not run out: the execution counter goes up by
    the number of [executeTool] calls of the run, whatever their outcome;
    the error counter never goes down, goes up by at most that number, and
    stays at or below the execution counter if it started there. *)
Theorem X2_counters_over_a_run
  {World : Type}
  (ops : list (ToolManager.Op World))
  (tm : ToolManager.ToolManager World) (w : World)
  (Herr : (0 <= ToolManager.errorCount tm <= ToolManager.executionCount tm)%Z)
  (Hroom : (ToolManager.executionCount tm + Z.of_nat (length ops)
            <= AtomicLong.MAX_VALUE)%Z) :
  let tm' := (ToolManager.run ops (tm, w)).1 in
  ToolManager.executionCount tm'
  = (ToolManager.executionCount tm + Z.of_nat (ToolManager.executions ops))%Z
  /\ (ToolManager.errorCount tm <= ToolManager.errorCount tm'
      <= ToolManager.errorCount tm + Z.of_nat (ToolManager.executions ops))%Z
  /\ (ToolManager.errorCount tm' <= ToolManager.executionCount tm')%Z.
Proof.
  cbn zeta. unfold ToolManager.run, ToolManager.executions.
  revert tm w Herr Hroom.
  induction ops as [| op ops IH]; intros tm w Herr Hroom.
  - cbn. lia.
  - cbn [fold_left length List.filter] in *.
    destruct op as [o | n | toolName args]; cbn [ToolManager.step fst snd].
    + destruct (registerTool_counters o tm) as [He Hr].
      specialize (IH (ToolManager.registerTool o tm).2 w).
      rewrite He, Hr in IH. apply IH; lia.
    + destruct (unregisterTool_counters n tm) as [He Hr].
      specialize (IH (ToolManager.unregisterTool n tm) w).
      rewrite He, Hr in IH. apply IH; lia.
    + destruct (executeTool_counters toolName args tm w) as [He Hr].
      destruct (ToolManager.executeTool toolName args tm w) as [[r tm1] w1].
      cbn [fst snd length] in *.
      assert (Hmax : AtomicLong.MAX_VALUE = (2 ^ 63 - 1)%Z) by reflexivity.
      assert (Hmin : AtomicLong.MIN_VALUE = (- 2 ^ 63)%Z) by reflexivity.
      rewrite AtomicLong_increment_in_range in He by lia.
      assert (Hr' : ToolManager.errorCount tm1 = ToolManager.errorCount tm
                    \/ ToolManager.errorCount tm1
                       = (ToolManager.errorCount tm + 1)%Z).
      { destruct Hr as [Hr | Hr]; [left; exact Hr | right].
        rewrite Hr. apply AtomicLong_increment_in_range. lia. }
      specialize (IH tm1 w1).
      assert (H1 : (0 <= ToolManager.errorCount tm1
                    <= ToolManager.executionCount tm1)%Z) by lia.
      assert (H2 : (ToolManager.executionCount tm1 + Z.of_nat (length ops)
                    <= AtomicLong.MAX_VALUE)%Z) by lia.
      specialize (IH H1 H2). lia.
Qed.

(** X2 at work: two executions, one of them of an unknown name. *)
Lemma X2_counters_over_a_run_witness :
  ToolManager.executionCount
    (ToolManager.run
       [ ToolManager.OpRegister (Some (Samples.storing "db_insert" true));
         ToolManager.OpExecute "db_insert" None;
         ToolManager.OpExecute "nope" None ]
       (ToolManager.newToolManager, ([] : Samples.World))).1
  = 2%Z.
Proof.
  assert (H1 : (0 <= ToolManager.errorCount (@ToolManager.newToolManager Samples.World)
                <= ToolManager.executionCount (@ToolManager.newToolManager Samples.World))%Z)
    by (cbn; lia).
  assert (H2 : (ToolManager.executionCount (@ToolManager.newToolManager Samples.World)
                + Z.of_nat
                    (length
                       [ ToolManager.OpRegister (Some (Samples.storing "db_insert" true));
                         ToolManager.OpExecute "db_insert" None;
                         ToolManager.OpExecute "nope" None ])
                <= AtomicLong.MAX_VALUE)%Z)
    by (vm_compute; discriminate).
  exact (proj1 (X2_counters_over_a_run _ ToolManager.newToolManager [] H1 H2)).
Defined.

Lemma filter_all_true {A : Type} (f : A -> bool) (l : list A) :
  Forall (fun x => f x = true) l -> List.filter f l = l.
Proof.
  induction 1 as [| x l Hx _ IH]; [reflexivity |].
  cbn [List.filter]. rewrite Hx, IH. reflexivity.
Qed.

Lemma values_all_enabled {World : Type} (tm : ToolManager.ToolManager World) :
  map_Forall (fun _ t => ToolManager.isEnabled t = true) (ToolManager.tools tm) ->
  Forall (fun t => ToolManager.isEnabled t = true) (ToolManager.values tm).
Proof.
  intros Hall. apply Forall_forall. intros t Ht.
  destruct (lookup_of_values tm t Ht) as [k Hk].
  exact (Hall k t Hk).
Qed.

(** X3.  The number of enabled tools never exceeds the number of tools.
    After any run of [registerTool], [unregisterTool] and [executeTool]
    calls on a new manager the two are equal, and equal to the length of
    the listing: the registration keeps disabled tools out, and nothing in
    the manager disables a tool. *)
Theorem X3_enabled_count_and_total
  {World : Type}
  (tm : ToolManager.ToolManager World)
  (ops : list (ToolManager.Op World)) (w : World) :
  (ToolManager.getToolCount tm <= ToolManager.getTotalToolCount tm)%nat
  /\ ToolManager.getToolCount (ToolManager.run ops (ToolManager.newToolManager, w)).1
     = ToolManager.getTotalToolCount
         (ToolManager.run ops (ToolManager.newToolManager, w)).1
  /\ length (ToolManager.getToolsListAsJson
               (ToolManager.run ops (ToolManager.newToolManager, w)).1)
     = ToolManager.getToolCount
         (ToolManager.run ops (ToolManager.newToolManager, w)).1.
Proof.
  assert (Htotal : forall t : ToolManager.ToolManager World,
             length (ToolManager.values t) = ToolManager.getTotalToolCount t).
  { intros t. apply length_values. }
  assert (Hrun : List.filter ToolManager.isEnabled
                   (ToolManager.values
                      (ToolManager.run ops (ToolManager.newToolManager, w)).1)
                 = ToolManager.values
                     (ToolManager.run ops (ToolManager.newToolManager, w)).1).
  { apply filter_all_true, values_all_enabled, run_all_enabled.
    cbn [fst ToolManager.newToolManager ToolManager.tools].
    apply map_Forall_empty. }
  split; [| split].
  - unfold ToolManager.getToolCount. rewrite <- Htotal.
    apply List.filter_length_le.
  - unfold ToolManager.getToolCount. rewrite Hrun. apply Htotal.
  - unfold ToolManager.getToolCount, ToolManager.getToolsListAsJson.
    rewrite Hrun. apply length_fmap.
Qed.

(** X4.  [getToolInfo] answers [null] exactly for the names that are not
    in the map.  Otherwise its [enabled] member is what [hasToolEnabled]
    answers for the name, and its [name] and [inputSchema] members are
    those of the tool that the lookup gives. *)
Theorem X4_getToolInfo_agrees_with_lookup
  {World : Type} (tm : ToolManager.ToolManager World) (toolName : string) :
  (ToolManager.getToolInfo toolName tm = None
   <-> ToolManager.lookup toolName tm = None)
  /\ (forall info,
        ToolManager.getToolInfo toolName tm = Some info ->
        Json.get info "enabled"
        = Some (BooleanNode (ToolManager.hasToolEnabled toolName tm))
        /\ exists tool,
             ToolManager.lookup toolName tm = Some tool
             /\ Json.get info "name" = Some (ToolManager.nameNode tool)
             /\ Json.get info "inputSchema"
                = Some (ToolManager.getInputSchema tool)).
Proof.
  unfold ToolManager.getToolInfo, ToolManager.lookup, ToolManager.hasToolEnabled.
  destruct (ToolManager.tools tm !! toolName) as [tool |].
  - split; [split; discriminate |].
    intros info [= <-]. split; [reflexivity |].
    exists tool. repeat split.
  - split; [split; reflexivity |]. intros info. discriminate.
Qed.

(** X5.  [unregisterTool] of a name that is not in the map changes
    nothing; and registering a descriptor under a name that was free and
    then unregistering the name gives back the map as it was. *)
Theorem X5_unregister_absent_and_round_trip
  {World : Type}
  (tm : ToolManager.ToolManager World) (name : string)
  (d : ToolManager.MCPTool World)
  (Hfree : ToolManager.lookup name tm = None)
  (Hname : ToolManager.getName d = Some name) :
  ToolManager.unregisterTool name tm = tm
  /\ ToolManager.unregisterTool name (ToolManager.registerTool (Some d) tm).2 = tm.
Proof.
  unfold ToolManager.lookup in Hfree.
  assert (Hnoop : ToolManager.unregisterTool name tm = tm).
  { unfold ToolManager.unregisterTool, ToolManager.remove.
    rewrite Hfree. reflexivity. }
  split; [exact Hnoop |].
  unfold ToolManager.registerTool. rewrite Hname.
  destruct (JString.trim_isEmpty name); [exact Hnoop |].
  destruct (ToolManager.isEnabled d); cbn [negb snd]; [| exact Hnoop].
  unfold ToolManager.unregisterTool, ToolManager.remove, ToolManager.put.
  cbn [ToolManager.tools ToolManager.arrivals ToolManager.executionCount
       ToolManager.errorCount].
  rewrite lookup_insert_eq, Hfree. cbn [ConcurrentHashMap.forget].
  rewrite String.eqb_refl, (delete_insert_id _ _ _ Hfree).
  destruct tm; reflexivity.
Qed.

(** X5 at work: [db_insert] on a new manager. *)
Lemma X5_unregister_absent_and_round_trip_witness :
  ToolManager.unregisterTool "db_insert"
    (ToolManager.registerTool (Some (Samples.storing "db_insert" true))
       ToolManager.newToolManager).2
  = ToolManager.newToolManager.
Proof.
  exact (proj2 (X5_unregister_absent_and_round_trip
                  ToolManager.newToolManager "db_insert"
                  (Samples.storing "db_insert" true) eq_refl eq_refl)).
Defined.

(** X6.  After [cleanup] the map is empty: every lookup gives nothing,
    the listing and both counts are empty, and any [executeTool] fails as
    not found without reaching a handler.  The two counters keep their
    values. *)
Theorem X6_cleanup_empties_the_registry
  {World : Type}
  (tm : ToolManager.ToolManager World) (toolName : string)
  (args : option JsonNode) (w : World) :
  ToolManager.lookup toolName (ToolManager.cleanup tm) = None
  /\ ToolManager.getToolsListAsJson (ToolManager.cleanup tm) = []
  /\ ToolManager.getToolCount (ToolManager.cleanup tm) = 0%nat
  /\ ToolManager.getTotalToolCount (ToolManager.cleanup tm) = 0%nat
  /\ ToolManager.executionCount (ToolManager.cleanup tm)
     = ToolManager.executionCount tm
  /\ ToolManager.errorCount (ToolManager.cleanup tm) = ToolManager.errorCount tm
  /\ (ToolManager.executeTool toolName args (ToolManager.cleanup tm) w).1.1
     = inl (Throw IllegalArgumentException
              (Some ("Herramienta no encontrada: " +:+ toolName)) None)
  /\ (ToolManager.executeTool toolName args (ToolManager.cleanup tm) w).2 = w.
Proof.
  unfold ToolManager.lookup, ToolManager.getToolsListAsJson, ToolManager.getToolCount,
    ToolManager.getTotalToolCount, ToolManager.values, ToolManager.executeTool,
    ToolManager.cleanup.
  cbn [ToolManager.tools ToolManager.arrivals ToolManager.incr_executionCount
       ToolManager.executionCount ToolManager.errorCount].
  rewrite map_to_list_empty, lookup_empty, map_size_empty.
  repeat split.
Qed.

(** X7.  The category queries.  A name is in [getToolsByCategory c]
    exactly when the map holds under it an enabled tool of category [c];
    and [c] is in [getAvailableCategories] exactly when
    [getToolsByCategory c] is not empty, so that the statistics never show
    a category without tools. *)
Theorem X7_categories
  {World : Type} (tm : ToolManager.ToolManager World) (c : string) :
  (forall name,
      name ∈ ToolManager.getToolsByCategory c tm
      <-> exists tool,
            ToolManager.lookup name tm = Some tool
            /\ ToolManager.getCategory tool = c
            /\ ToolManager.isEnabled tool = true)
  /\ (c ∈ ToolManager.getAvailableCategories tm
      <-> ToolManager.getToolsByCategory c tm <> ∅).
Proof.
  assert (Hby : forall name,
             name ∈ ToolManager.getToolsByCategory c tm
             <-> exists tool,
                   ToolManager.lookup name tm = Some tool
                   /\ ToolManager.getCategory tool = c
                   /\ ToolManager.isEnabled tool = true).
  { intros name. unfold ToolManager.getToolsByCategory, ToolManager.lookup.
    rewrite elem_of_dom. split.
    - intros [tool Htool]. apply map_lookup_filter_Some in Htool as [Hl [Hc He]].
      exists tool. auto.
    - intros (tool & Hl & Hc & He). exists tool.
      apply map_lookup_filter_Some. auto. }
  split; [exact Hby |].
  unfold ToolManager.getAvailableCategories.
  rewrite elem_of_list_to_set, list_elem_of_fmap. split.
  - intros (tool & -> & Hin).
    apply list_elem_of_In, filter_In in Hin as [Hin He].
    apply list_elem_of_In in Hin.
    destruct (lookup_of_values tm tool Hin) as [name Hname].
    intros Hempty.
    assert (Hmem : name ∈ ToolManager.getToolsByCategory
                            (ToolManager.getCategory tool) tm)
      by (apply Hby; exists tool; auto).
    rewrite Hempty in Hmem. set_solver.
  - intros Hne. apply set_choose_L in Hne as [name Hname].
    apply Hby in Hname as (tool & Hl & Hc & He).
    exists tool. split; [symmetry; exact Hc |].
    apply list_elem_of_In, filter_In. split; [| exact He].
    apply list_elem_of_In. eapply values_of_lookup. exact Hl.
Qed.

(** ** MCPProtocolHandler *)

(** X8.  The answer to [initialize] after [setServerInfo]: each of the
    four capabilities is a member of [capabilities] exactly when its flag
    was set, the server information is the name and version that were
    set, and the protocol version is the constant of the handler.  The
    handler and the collaborators are left as they are. *)
Theorem X8_initialize_advertises_the_flags
  {World ResourceManager : Type}
  (h : MCPProtocolHandler.MCPProtocolHandler World ResourceManager) (w : World)
  (id params : option JsonNode) (name version : string)
  (tools resources prompts logging : bool) :
  let h' :=
    MCPProtocolHandler.setServerInfo name version tools resources prompts logging h in
  exists result capabilities,
    MCPProtocolHandler.handleInitialize id params h' w
    = (Some (MCPProtocolHandler.resultResponse id result), h', w)
    /\ Json.get result "capabilities" = Some capabilities
    /\ Json.has capabilities "tools" = tools
    /\ Json.has capabilities "resources" = resources
    /\ Json.has capabilities "prompts" = prompts
    /\ Json.has capabilities "logging" = logging
    /\ Json.get result "serverInfo"
       = Some (Json.object [ ("name", TextNode name); ("version", TextNode version) ])
    /\ Json.get result "protocolVersion"
       = Some (TextNode MCPProtocolHandler.MCP_VERSION).
Proof.
  cbn zeta. unfold MCPProtocolHandler.handleInitialize.
  cbn [MCPProtocolHandler.setServerInfo MCPProtocolHandler.supportsTools
       MCPProtocolHandler.supportsResources MCPProtocolHandler.supportsPrompts
       MCPProtocolHandler.supportsLogging MCPProtocolHandler.serverName
       MCPProtocolHandler.serverVersion].
  destruct tools, resources, prompts, logging;
    eexists; eexists; (split; [reflexivity |]); repeat split.
Qed.

(** One message and the flag. *)
Lemma handleParsed_isInitialized {World ResourceManager : Type}
  (readTree : string -> Try JsonNode) (npeMessage : option string)
  (getResourcesListAsJson : ResourceManager -> list JsonNode)
  (readResource :
     string -> ResourceManager -> World -> Try string * ResourceManager * World)
  (now : Z) (parsed : Try JsonNode)
  (h : MCPProtocolHandler.MCPProtocolHandler World ResourceManager) (w : World) :
  MCPProtocolHandler.isInitialized
    (MCPProtocolHandler.handleParsed readTree npeMessage getResourcesListAsJson
       readResource now parsed h w).1.2
  = MCPProtocolHandler.isInitialized h
    || MCPProtocolHandler.isInitializedMessage parsed.
Proof.
  unfold MCPProtocolHandler.handleParsed, MCPProtocolHandler.isInitializedMessage.
  destruct parsed as [e | messageNode]; [cbn; rewrite orb_false_r; reflexivity |].
  destruct (MCPProtocolHandler.isJsonRpc2 messageNode);
    cbn [negb andb fst snd]; [| rewrite orb_false_r; reflexivity].
  set (method := Json.pathText messageNode "method").
  destruct (String.eqb method "initialize") eqn:E1.
  { apply String.eqb_eq in E1. rewrite E1. cbn. rewrite orb_false_r. reflexivity. }
  destruct (String.eqb method "initialized") eqn:E2.
  { cbn. rewrite orb_true_r. reflexivity. }
  rewrite orb_false_r.
  destruct (String.eqb method "tools/list");
    [unfold MCPProtocolHandler.handleToolsList;
     destruct (MCPProtocolHandler.isInitialized h) eqn:Hi; cbn [negb fst snd];
     exact Hi |].
  destruct (String.eqb method "tools/call").
  { unfold MCPProtocolHandler.handleToolsCall.
    destruct (MCPProtocolHandler.isInitialized h) eqn:Hi; cbn [negb fst snd];
      [| exact Hi].
    destruct (Json.get messageNode "params") as [p |]; [| exact Hi].
    destruct (ToolManager.executeTool _ _ _ _) as [[[e | result] tm'] w'];
      [exact Hi |].
    destruct (readTree result); exact Hi. }
  destruct (String.eqb method "resources/list");
    [unfold MCPProtocolHandler.handleResourcesList;
     destruct (MCPProtocolHandler.isInitialized h) eqn:Hi; cbn [negb fst snd];
     exact Hi |].
  destruct (String.eqb method "resources/read").
  { unfold MCPProtocolHandler.handleResourcesRead.
    destruct (MCPProtocolHandler.isInitialized h) eqn:Hi; cbn [negb fst snd];
      [| exact Hi].
    destruct (Json.get messageNode "params") as [p |]; [| exact Hi].
    destruct (readResource _ _ _) as [[[e | result] rm'] w']; [exact Hi |].
    destruct (readTree result); exact Hi. }
  destruct (String.eqb method "resources/updated"); [reflexivity |].
  destruct (String.eqb method "ping"); [reflexivity |].
  destruct (String.eqb method "notifications/initialized"); reflexivity.
Qed.

(** X9.  The handler is initialized after a sequence of messages exactly
    when it was initialized before or one of the messages is a JSON-RPC
    2.0 message with the method [initialized].  So the flag never goes
    back to false, and neither [initialize] nor [notifications/initialized]
    sets it. *)
Theorem X9_only_initialized_sets_the_flag
  {World ResourceManager : Type}
  (readTree : string -> Try JsonNode) (npeMessage : option string)
  (getResourcesListAsJson : ResourceManager -> list JsonNode)
  (readResource :
     string -> ResourceManager -> World -> Try string * ResourceManager * World)
  (messages : list (Z * Try JsonNode))
  (h : MCPProtocolHandler.MCPProtocolHandler World ResourceManager) (w : World) :
  MCPProtocolHandler.isInitialized
    (MCPProtocolHandler.handleAll readTree npeMessage getResourcesListAsJson
       readResource messages h w).1.2
  = MCPProtocolHandler.isInitialized h
    || existsb (fun m => MCPProtocolHandler.isInitializedMessage m.2) messages.
Proof.
  unfold MCPProtocolHandler.handleAll.
  assert (Hgen : forall (responses : list (option JsonNode))
                   (h0 : MCPProtocolHandler.MCPProtocolHandler World ResourceManager)
                   (w0 : World),
             MCPProtocolHandler.isInitialized
               (fold_left
                  (fun acc m =>
                     let '(responses, h1, w1) := acc in
                     let '(response, h2, w2) :=
                       MCPProtocolHandler.handleParsed readTree npeMessage
                         getResourcesListAsJson readResource m.1 m.2 h1 w1 in
                     ((responses ++ [response])%list, h2, w2))
                  messages (responses, h0, w0)).1.2
             = MCPProtocolHandler.isInitialized h0
               || existsb (fun m => MCPProtocolHandler.isInitializedMessage m.2)
                    messages).
  { induction messages as [| m messages IH]; intros responses h0 w0.
    - cbn. rewrite orb_false_r. reflexivity.
    - cbn [fold_left existsb].
      pose proof (handleParsed_isInitialized readTree npeMessage
                    getResourcesListAsJson readResource m.1 m.2 h0 w0) as Hstep.
      destruct (MCPProtocolHandler.handleParsed readTree npeMessage
                  getResourcesListAsJson readResource m.1 m.2 h0 w0)
        as [[response h2] w2].
      cbn [fst snd] in Hstep. rewrite IH, Hstep, orb_assoc. reflexivity. }
  apply Hgen.
Qed.

(** The standard handshake of a client, [initialize] and then
    [notifications/initialized], leaves the handler uninitialized: the
    [tools/list] that follows is refused. *)
Example handshake_with_notification_leaves_uninitialized :
  (MCPProtocolHandler.handleAll Samples.readLiteral None
     Samples.noResources Samples.noResource
     [ (1700000000000%Z, inr (Samples.request (Some (IntNode 1)) "initialize"));
       (1700000000001%Z, inr (Samples.request None "notifications/initialized"));
       (1700000000002%Z, inr (Samples.request (Some (IntNode 2)) "tools/list")) ]
     (Samples.handlerOver ToolManager.newToolManager false) []).1.1
  !! 2%nat
  = Some (Some (MCPProtocolHandler.createErrorResponse (Some (IntNode 2)) (-32002)
                  "Server not initialized" (Some "Servidor no inicializado"))).
Proof. reflexivity. Qed.

(** A [tools/call] message goes to [handleToolsCall]. *)
Lemma handleParsed_tools_call {World ResourceManager : Type}
  (readTree : string -> Try JsonNode) (npeMessage : option string)
  (getResourcesListAsJson : ResourceManager -> list JsonNode)
  (readResource :
     string -> ResourceManager -> World -> Try string * ResourceManager * World)
  (now : Z) (messageNode : JsonNode)
  (h : MCPProtocolHandler.MCPProtocolHandler World ResourceManager) (w : World) :
  MCPProtocolHandler.isJsonRpc2 messageNode = true ->
  Json.pathText messageNode "method" = "tools/call" ->
  MCPProtocolHandler.handleParsed readTree npeMessage getResourcesListAsJson
    readResource now (inr messageNode) h w
  = MCPProtocolHandler.handleToolsCall readTree npeMessage
      (Json.get messageNode "id") (Json.get messageNode "params") h w.
Proof.
  intros Hrpc Hm. unfold MCPProtocolHandler.handleParsed.
  rewrite Hrpc, Hm. reflexivity.
Qed.

(** The answer to a [tools/call] that names no registered tool. *)
Lemma tools_call_unknown
  {World ResourceManager : Type}
  (readTree : string -> Try JsonNode) (npeMessage : option string)
  (getResourcesListAsJson : ResourceManager -> list JsonNode)
  (readResource :
     string -> ResourceManager -> World -> Try string * ResourceManager * World)
  (now : Z) (messageNode params : JsonNode)
  (h : MCPProtocolHandler.MCPProtocolHandler World ResourceManager) (w : World)
  (Hready : MCPProtocolHandler.isInitialized h = true)
  (Hrpc : MCPProtocolHandler.isJsonRpc2 messageNode = true)
  (Hmethod : Json.pathText messageNode "method" = "tools/call")
  (Hparams : Json.get messageNode "params" = Some params)
  (Hunknown : ToolManager.lookup (Json.pathText params "name")
                (MCPProtocolHandler.toolManager h) = None) :
  MCPProtocolHandler.handleParsed readTree npeMessage getResourcesListAsJson
    readResource now (inr messageNode) h w
  = (Some (MCPProtocolHandler.createErrorResponse (Json.get messageNode "id")
             (-32603) "Internal error"
             (Some ("Herramienta no encontrada: " +:+ Json.pathText params "name"))),
     MCPProtocolHandler.set_toolManager
       (ToolManager.incr_errorCount
          (ToolManager.incr_executionCount (MCPProtocolHandler.toolManager h))) h,
     w).
Proof.
  rewrite handleParsed_tools_call by assumption.
  unfold MCPProtocolHandler.handleToolsCall. rewrite Hready, Hparams. cbn [negb].
  unfold ToolManager.executeTool, ToolManager.lookup in *.
  cbn [ToolManager.tools ToolManager.incr_executionCount].
  rewrite Hunknown. reflexivity.
Qed.

(** X10.  Once initialized, a [tools/call] that names a tool that is not
    registered is answered with the error -32603, Internal error, whose
    data is the not-found message with the name, under the [id] of the
    request.  No handler runs, and the manager counts one execution and
    one error. *)
Theorem X10_tools_call_of_unknown_tool
  {World ResourceManager : Type}
  (readTree : string -> Try JsonNode) (npeMessage : option string)
  (getResourcesListAsJson : ResourceManager -> list JsonNode)
  (readResource :
     string -> ResourceManager -> World -> Try string * ResourceManager * World)
  (now : Z) (messageNode params : JsonNode)
  (h : MCPProtocolHandler.MCPProtocolHandler World ResourceManager) (w : World)
  (Hready : MCPProtocolHandler.isInitialized h = true)
  (Hrpc : MCPProtocolHandler.isJsonRpc2 messageNode = true)
  (Hmethod : Json.pathText messageNode "method" = "tools/call")
  (Hparams : Json.get messageNode "params" = Some params)
  (Hunknown : ToolManager.lookup (Json.pathText params "name")
                (MCPProtocolHandler.toolManager h) = None) :
  MCPProtocolHandler.handleParsed readTree npeMessage getResourcesListAsJson
    readResource now (inr messageNode) h w
  = (Some (MCPProtocolHandler.createErrorResponse (Json.get messageNode "id")
             (-32603) "Internal error"
             (Some ("Herramienta no encontrada: " +:+ Json.pathText params "name"))),
     MCPProtocolHandler.set_toolManager
       (ToolManager.incr_errorCount
          (ToolManager.incr_executionCount (MCPProtocolHandler.toolManager h))) h,
     w).
Proof.
  exact (tools_call_unknown readTree npeMessage getResourcesListAsJson readResource
           now messageNode params h w Hready Hrpc Hmethod Hparams Hunknown).
Qed.

(** X10 at work: the tool [nope] on a manager that holds [db_insert]. *)
Lemma X10_tools_call_of_unknown_tool_witness :
  (MCPProtocolHandler.handleParsed Samples.readLiteral None
     Samples.noResources Samples.noResource 1700000000000
     (inr (Samples.callRequest "nope"))
     (Samples.handlerOver
        (ToolManager.registerTool (Some (Samples.storing "db_insert" true))
           ToolManager.newToolManager).2 true) []).1.1
  = Some (MCPProtocolHandler.createErrorResponse (Some (IntNode 5))
            (-32603) "Internal error" (Some "Herramienta no encontrada: nope")).
Proof.
  assert (H : ToolManager.lookup
                (Json.pathText (ObjectNode [ ("name", TextNode "nope") ]) "name")
                (MCPProtocolHandler.toolManager
                   (Samples.handlerOver
                      (ToolManager.registerTool (Some (Samples.storing "db_insert" true))
                         ToolManager.newToolManager).2 true)) = None)
    by (vm_compute; reflexivity).
  exact (f_equal (fun o => o.1.1)
           (X10_tools_call_of_unknown_tool Samples.readLiteral None
              Samples.noResources Samples.noResource 1700000000000
              (Samples.callRequest "nope") (ObjectNode [ ("name", TextNode "nope") ])
              (Samples.handlerOver
                 (ToolManager.registerTool (Some (Samples.storing "db_insert" true))
                    ToolManager.newToolManager).2 true)
              [] eq_refl eq_refl eq_refl eq_refl H)).
Defined.

(** X11.  Once initialized, a [tools/call] of a registered, enabled tool
    whose handler returns a text: when the text reads as JSON, the
    response is the result response with that tree; when it does not, the
    response is the error -32603 with the message of the reader.  In both
    cases the effects of the handler on the collaborators stay, and the
    manager counts one execution and no error. *)
Theorem X11_tools_call_result_must_read_as_json
  {World ResourceManager : Type}
  (readTree : string -> Try JsonNode) (npeMessage : option string)
  (getResourcesListAsJson : ResourceManager -> list JsonNode)
  (readResource :
     string -> ResourceManager -> World -> Try string * ResourceManager * World)
  (now : Z) (messageNode params : JsonNode)
  (h : MCPProtocolHandler.MCPProtocolHandler World ResourceManager) (w w' : World)
  (tool : ToolManager.MCPTool World) (text : string)
  (Hready : MCPProtocolHandler.isInitialized h = true)
  (Hrpc : MCPProtocolHandler.isJsonRpc2 messageNode = true)
  (Hmethod : Json.pathText messageNode "method" = "tools/call")
  (Hparams : Json.get messageNode "params" = Some params)
  (Hfound : ToolManager.lookup (Json.pathText params "name")
              (MCPProtocolHandler.toolManager h) = Some tool)
  (Henabled : ToolManager.isEnabled tool = true)
  (Hreturns : ToolManager.execute tool (Json.get params "arguments") w
              = (inr text, w')) :
  MCPProtocolHandler.handleParsed readTree npeMessage getResourcesListAsJson
    readResource now (inr messageNode) h w
  = (Some (match readTree text with
           | inr tree =>
               MCPProtocolHandler.resultResponse (Json.get messageNode "id") tree
           | inl e =>
               MCPProtocolHandler.createErrorResponse (Json.get messageNode "id")
                 (-32603) "Internal error" (getMessage e)
           end),
     MCPProtocolHandler.set_toolManager
       (ToolManager.incr_executionCount (MCPProtocolHandler.toolManager h)) h,
     w').
Proof.
  rewrite handleParsed_tools_call by assumption.
  unfold MCPProtocolHandler.handleToolsCall. rewrite Hready, Hparams. cbn [negb].
  rewrite (executeTool_found _ _ _ _ _ Hfound Henabled). cbn zeta.
  rewrite Hreturns.
  destruct (readTree text) as [e | tree]; reflexivity.
Qed.

(** X11 at work: the text [hola] is not JSON, the insertion stays. *)
Lemma X11_tools_call_result_must_read_as_json_witness :
  MCPProtocolHandler.handleParsed Samples.readLiteral None
    Samples.noResources Samples.noResource 1700000000000
    (inr (Samples.callRequest "greet"))
    (Samples.handlerOver
       (ToolManager.registerTool (Some Samples.talkative) ToolManager.newToolManager).2
       true) []
  = (Some (MCPProtocolHandler.createErrorResponse (Some (IntNode 5))
             (-32603) "Internal error" (Some "Unrecognized token: hola")),
     MCPProtocolHandler.set_toolManager
       (ToolManager.incr_executionCount
          (ToolManager.registerTool (Some Samples.talkative) ToolManager.newToolManager).2)
       (Samples.handlerOver
          (ToolManager.registerTool (Some Samples.talkative) ToolManager.newToolManager).2
          true),
     ["insertOne by greet"]).
Proof.
  assert (H : ToolManager.lookup
                (Json.pathText (ObjectNode [ ("name", TextNode "greet") ]) "name")
                (MCPProtocolHandler.toolManager
                   (Samples.handlerOver
                      (ToolManager.registerTool (Some Samples.talkative)
                         ToolManager.newToolManager).2 true))
              = Some Samples.talkative)
    by (vm_compute; reflexivity).
  exact (X11_tools_call_result_must_read_as_json Samples.readLiteral None
           Samples.noResources Samples.noResource 1700000000000
           (Samples.callRequest "greet") (ObjectNode [ ("name", TextNode "greet") ])
           (Samples.handlerOver
              (ToolManager.registerTool (Some Samples.talkative)
                 ToolManager.newToolManager).2 true)
           [] _ Samples.talkative "hola" eq_refl eq_refl eq_refl eq_refl H
           eq_refl eq_refl).
Defined.

(** No run of registry calls on a new manager stores a tool under a blank
    name. *)
Lemma run_no_blank_names {World : Type}
  (ops : list (ToolManager.Op World)) (st : ToolManager.ToolManager World * World) :
  map_Forall (fun k _ => JString.trim_isEmpty k = false) (ToolManager.tools st.1) ->
  map_Forall (fun k _ => JString.trim_isEmpty k = false)
    (ToolManager.tools (ToolManager.run ops st).1).
Proof.
  unfold ToolManager.run. revert st.
  induction ops as [| op ops IH]; intros st Hst; [exact Hst |].
  cbn [fold_left]. apply IH.
  destruct op as [o | n | toolName args]; cbn [ToolManager.step fst snd].
  - destruct (registerTool_tools o st.1) as [-> | (t & n & _ & _ & Hb & _ & ->)];
      [exact Hst |].
    apply map_Forall_insert_2; assumption.
  - rewrite unregisterTool_tools. apply map_Forall_delete. exact Hst.
  - pose proof (executeTool_tools toolName args st.1 st.2) as Ht.
    destruct (ToolManager.executeTool toolName args st.1 st.2) as [[r tm'] w'].
    cbn [fst snd] in *. rewrite Ht. exact Hst.
Qed.

(** X12.  Once initialized, a [tools/call] without [params] is answered
    with the error -32603 carrying the message of the null dereference,
    and nothing else happens: no lookup, no count.  With [params] that
    have no [name], the name looked up is the empty string; a manager
    filled by [registerTool] holds no tool of that name, so the answer is
    the not-found error with an empty name. *)
Theorem X12_tools_call_without_params_or_name
  {World ResourceManager : Type}
  (readTree : string -> Try JsonNode) (npeMessage : option string)
  (getResourcesListAsJson : ResourceManager -> list JsonNode)
  (readResource :
     string -> ResourceManager -> World -> Try string * ResourceManager * World)
  (now : Z) (messageNode : JsonNode)
  (h : MCPProtocolHandler.MCPProtocolHandler World ResourceManager) (w w0 : World)
  (ops : list (ToolManager.Op World))
  (Hready : MCPProtocolHandler.isInitialized h = true)
  (Hrpc : MCPProtocolHandler.isJsonRpc2 messageNode = true)
  (Hmethod : Json.pathText messageNode "method" = "tools/call")
  (Hfilled : MCPProtocolHandler.toolManager h
             = (ToolManager.run ops (ToolManager.newToolManager, w0)).1) :
  match Json.get messageNode "params" with
  | None =>
      MCPProtocolHandler.handleParsed readTree npeMessage getResourcesListAsJson
        readResource now (inr messageNode) h w
      = (Some (MCPProtocolHandler.createErrorResponse (Json.get messageNode "id")
                 (-32603) "Internal error" npeMessage), h, w)
  | Some params =>
      Json.get params "name" = None ->
      (MCPProtocolHandler.handleParsed readTree npeMessage getResourcesListAsJson
         readResource now (inr messageNode) h w).1.1
      = Some (MCPProtocolHandler.createErrorResponse (Json.get messageNode "id")
                (-32603) "Internal error" (Some "Herramienta no encontrada: "))
      /\ (MCPProtocolHandler.handleParsed readTree npeMessage getResourcesListAsJson
            readResource now (inr messageNode) h w).2 = w
  end.
Proof.
  destruct (Json.get messageNode "params") as [params |] eqn:Hparams.
  - intros Hname.
    assert (Htext : Json.pathText params "name" = "")
      by (unfold Json.pathText; rewrite Hname; reflexivity).
    assert (Hunknown : ToolManager.lookup (Json.pathText params "name")
                         (MCPProtocolHandler.toolManager h) = None).
    { rewrite Htext, Hfilled. unfold ToolManager.lookup.
      destruct (ToolManager.tools
                  (ToolManager.run ops (ToolManager.newToolManager, w0)).1 !! "")
        as [t |] eqn:Ht; [| reflexivity].
      pose proof (run_no_blank_names ops (ToolManager.newToolManager, w0)
                    (map_Forall_empty _) "" t Ht) as Hb.
      discriminate Hb. }
    rewrite (tools_call_unknown readTree npeMessage
               getResourcesListAsJson readResource now messageNode params h w
               Hready Hrpc Hmethod Hparams Hunknown).
    rewrite Htext. split; reflexivity.
  - rewrite handleParsed_tools_call by assumption.
    unfold MCPProtocolHandler.handleToolsCall.
    rewrite Hready, Hparams. reflexivity.
Qed.

(** Once initialized, a [tools/call] without [params]. *)
Lemma X12_tools_call_without_params_or_name_witness :
  MCPProtocolHandler.handleParsed Samples.readLiteral (Some "params is null")
    Samples.noResources Samples.noResource 1700000000000
    (inr (Samples.request (Some (IntNode 1)) "tools/call"))
    (Samples.handlerOver ToolManager.newToolManager true) []
  = (Some (MCPProtocolHandler.createErrorResponse (Some (IntNode 1))
             (-32603) "Internal error" (Some "params is null")),
     Samples.handlerOver ToolManager.newToolManager true, []).
Proof.
  exact (X12_tools_call_without_params_or_name Samples.readLiteral
           (Some "params is null") Samples.noResources Samples.noResource
           1700000000000 (Samples.request (Some (IntNode 1)) "tools/call")
           (Samples.handlerOver ToolManager.newToolManager true) [] [] []
           eq_refl eq_refl eq_refl eq_refl).
Defined.

(** ** ResourceManager *)

Lemma resource_values_of_lookup {World : Type}
  (rm : ResourceManager.ResourceManager World) (k : string)
  (r : ResourceManager.MCPResource World) :
  ResourceManager.resources rm !! k = Some r -> r ∈ ResourceManager.values rm.
Proof.
  intros Hk. unfold ResourceManager.values.
  apply list_elem_of_fmap. exists (k, r). split; [reflexivity |].
  apply elem_of_map_to_list. exact Hk.
Qed.

Lemma resource_lookup_of_values {World : Type}
  (rm : ResourceManager.ResourceManager World)
  (r : ResourceManager.MCPResource World) :
  r ∈ ResourceManager.values rm ->
  exists k, ResourceManager.resources rm !! k = Some r.
Proof.
  unfold ResourceManager.values. intros Hr.
  apply list_elem_of_fmap in Hr as [[k r'] [-> Hin]].
  exists k. apply elem_of_map_to_list in Hin. exact Hin.
Qed.

(** X13.  [registerResource] fails with an [IllegalArgumentException],
    the registry unchanged, when the URI of the resource is null, empty or
    blank; it returns normally and changes nothing when the resource
    answers that it is not available; otherwise it stores the resource
    under its URI, where [hasResource] then finds it, leaving the other
    URIs and the counters alone. *)
Theorem X13_registerResource_by_cases
  {World : Type}
  (r : ResourceManager.MCPResource World)
  (rm : ResourceManager.ResourceManager World) :
  match ResourceManager.getUri r with
  | None =>
      exists e, ResourceManager.registerResource (Some r) rm = (inl e, rm)
                /\ getClass e = IllegalArgumentException
  | Some uri =>
      if JString.trim_isEmpty uri then
        exists e, ResourceManager.registerResource (Some r) rm = (inl e, rm)
                  /\ getClass e = IllegalArgumentException
      else if ResourceManager.isAvailable r then
        exists rm',
          ResourceManager.registerResource (Some r) rm = (inr tt, rm')
          /\ ResourceManager.resources rm' !! uri = Some r
          /\ ResourceManager.hasResource uri rm' = true
          /\ (forall other, other <> uri ->
                ResourceManager.resources rm' !! other
                = ResourceManager.resources rm !! other)
          /\ ResourceManager.accessCount rm' = ResourceManager.accessCount rm
          /\ ResourceManager.errorCount rm' = ResourceManager.errorCount rm
      else ResourceManager.registerResource (Some r) rm = (inr tt, rm)
  end.
Proof.
  unfold ResourceManager.registerResource.
  destruct (ResourceManager.getUri r) as [uri |];
    [| eexists; split; reflexivity].
  destruct (JString.trim_isEmpty uri); [eexists; split; reflexivity |].
  destruct (ResourceManager.isAvailable r) eqn:Ha; cbn [negb]; [| reflexivity].
  eexists. split; [reflexivity |].
  unfold ResourceManager.hasResource, ResourceManager.with_resources.
  cbn [ResourceManager.resources ResourceManager.accessCount
       ResourceManager.errorCount].
  rewrite lookup_insert_eq, Ha. repeat split.
  intros other Hne. apply lookup_insert_ne. congruence.
Qed.

(** X14.  The listing of the resources holds a node for each resource of
    the map that answers [isAvailable() = true] and for nothing else, and
    its length is [getResourceCount]. *)
Theorem X14_resource_listing_is_of_available_resources
  {World : Type} (rm : ResourceManager.ResourceManager World) :
  (forall node,
      node ∈ ResourceManager.getResourcesListAsJson rm
      <-> exists uri r,
            ResourceManager.resources rm !! uri = Some r
            /\ ResourceManager.isAvailable r = true
            /\ node = ResourceManager.resourceNode r)
  /\ length (ResourceManager.getResourcesListAsJson rm)
     = ResourceManager.getResourceCount rm.
Proof.
  unfold ResourceManager.getResourcesListAsJson, ResourceManager.getResourceCount.
  split; [| apply length_fmap].
  intros node. rewrite list_elem_of_fmap. split.
  - intros (r & -> & Hin).
    apply list_elem_of_In, filter_In in Hin as [Hin Ha].
    apply list_elem_of_In in Hin.
    destruct (resource_lookup_of_values rm r Hin) as [uri Huri].
    exists uri, r. auto.
  - intros (uri & r & Huri & Ha & ->).
    exists r. split; [reflexivity |].
    apply list_elem_of_In, filter_In. split; [| exact Ha].
    apply list_elem_of_In. eapply resource_values_of_lookup. exact Huri.
Qed.

(** X15.  [readResource] never throws: it always returns a text, counts
    the access, and leaves the map alone.  For a registered resource it
    counts no error; it does not read the content of a resource that is
    not available or that requires authentication, and it reports a
    failing [readContent] as an error text.  For a URI that is not
    registered the collaborators are left alone; unless it starts with
    [file://], the answer is the not-found text and one error is
    counted. *)
Theorem X15_readResource_never_throws
  {World : Type}
  (writeValueAsString : JsonNode -> string) (base64 : string -> string)
  (npeMessage : option string) (uriPath : string -> Try (option string))
  (fileExists : Path.Path -> World -> bool)
  (fileSize : Path.Path -> World -> Try Z)
  (readString : Path.Path -> World -> Try string)
  (probeContentType : Path.Path -> World -> Try (option string))
  (userDir uri : string)
  (rm : ResourceManager.ResourceManager World) (w : World) :
  exists text rm' w',
    ResourceManager.readResource writeValueAsString base64 npeMessage uriPath
      fileExists fileSize readString probeContentType userDir uri rm w
    = (inr text, rm', w')
    /\ ResourceManager.accessCount rm'
       = AtomicLong.incrementAndGet (ResourceManager.accessCount rm)
    /\ ResourceManager.resources rm' = ResourceManager.resources rm
    /\ match ResourceManager.resources rm !! uri with
       | Some r =>
           ResourceManager.errorCount rm' = ResourceManager.errorCount rm
           /\ (ResourceManager.isAvailable r = false ->
               w' = w
               /\ text = ResourceManager.createErrorResponse writeValueAsString
                           ("Recurso no disponible: "
                            +:+ JString.orNull (ResourceManager.getUri r)))
           /\ (ResourceManager.isAvailable r = true ->
               ResourceManager.requiresAuth r = true ->
               w' = w
               /\ text = ResourceManager.createErrorResponse writeValueAsString
                           ("Recurso requiere autenticación: "
                            +:+ JString.orNull (ResourceManager.getUri r)))
           /\ (ResourceManager.isAvailable r = true ->
               ResourceManager.requiresAuth r = false ->
               forall e w1,
                 ResourceManager.readContent r w = (inl e, w1) ->
                 w' = w1
                 /\ text = ResourceManager.createErrorResponse writeValueAsString
                             ("Error accediendo al recurso: "
                              +:+ JString.orNull (getMessage e)))
       | None =>
           w' = w
           /\ if JString.startsWith uri "file://" then
                ResourceManager.errorCount rm' = ResourceManager.errorCount rm
              else
                ResourceManager.errorCount rm'
                = AtomicLong.incrementAndGet (ResourceManager.errorCount rm)
                /\ text = ResourceManager.createErrorResponse writeValueAsString
                            ("Recurso no encontrado: " +:+ uri)
       end.
Proof.
  unfold ResourceManager.readResource.
  cbn [ResourceManager.resources ResourceManager.incr_accessCount].
  destruct (ResourceManager.resources rm !! uri) as [r |].
  - unfold ResourceManager.readRegisteredResource.
    destruct (ResourceManager.isAvailable r) eqn:Ha; cbn [negb].
    + destruct (ResourceManager.requiresAuth r) eqn:Hauth.
      * do 3 eexists. split; [reflexivity |].
        repeat split; intros; try discriminate; congruence.
      * destruct (ResourceManager.readContent r w) as [[e | content] w1] eqn:Hread.
        -- do 3 eexists. split; [reflexivity |].
           repeat split; intros; try discriminate; congruence.
        -- destruct (ResourceManager.isTextual (ResourceManager.getMimeType r));
             do 3 eexists; (split; [reflexivity |]);
             repeat split; intros; try discriminate; congruence.
    + do 3 eexists. split; [reflexivity |].
      repeat split; intros; try discriminate; congruence.
  - destruct (JString.startsWith uri "file://");
      do 3 eexists; (split; [reflexivity |]); repeat split.
Qed.

(** Names that are neither [.] nor [..] go through [normalize] as they
    are. *)
Lemma normalize_names_plain_app (abs : bool) (l done rest : list string) :
  Forall FileSystemTool.plainName l ->
  Path.normalize_names abs done (l ++ rest)
  = Path.normalize_names abs (rev l ++ done) rest.
Proof.
  intros Hl. revert done.
  induction Hl as [| n l [Hdot Hup] _ IH]; intros done; [reflexivity |].
  cbn [app Path.normalize_names].
  apply String.eqb_neq in Hdot, Hup. rewrite Hdot, Hup.
  rewrite IH. cbn [rev]. rewrite <- app_assoc. reflexivity.
Qed.

Lemma normalize_names_plain (abs : bool) (l : list string) :
  Forall FileSystemTool.plainName l -> Path.normalize_names abs [] l = l.
Proof.
  intros Hl.
  rewrite <- (app_nil_r l) at 1.
  rewrite normalize_names_plain_app by exact Hl.
  cbn [Path.normalize_names]. rewrite app_nil_r. apply rev_involutive.
Qed.

Lemma names_prefix_length (p l : list string) :
  Path.names_prefix p l = true -> (length p <= length l)%nat.
Proof.
  revert l. induction p as [| x p IH]; intros l H; [cbn; lia |].
  destruct l as [| y l]; [discriminate |].
  cbn [Path.names_prefix] in H. apply andb_prop in H as [_ H].
  apply IH in H. cbn [length]. lia.
Qed.

(** X16.  With the working directory an absolute path without [.] or
    [..], a [file://] URI never makes [readFileResource] look outside the
    resources directory: the path it goes on with is that directory or a
    file directly in it, named by the last name of the path of the URI,
    whatever the directories the URI gives before it. *)
Theorem X16_file_resources_stay_in_the_base_directory
  (npeMessage : option string) (uriPath : string -> Try (option string))
  (userDir uri : string) (fileName resolvedPath : Path.Path)
  (Habs : JString.startsWith userDir "/" = true)
  (Hplain : Forall FileSystemTool.plainName (Path.names (Path.parse userDir)))
  (Htarget : ResourceManager.fileTarget npeMessage uriPath userDir uri
             = inr (fileName, resolvedPath)) :
  Path.isAbsolute resolvedPath = true
  /\ (Path.names resolvedPath = Path.names (ResourceManager.basePath userDir)
      \/ exists n,
           FileSystemTool.plainName n
           /\ Path.names fileName = [n]
           /\ Path.names resolvedPath
              = (Path.names (ResourceManager.basePath userDir) ++ [n])%list).
Proof.
  assert (Hbase : ResourceManager.basePath userDir
                  = Path.mkPath true (Path.names (Path.parse userDir) ++ ["resources"])).
  { unfold ResourceManager.basePath, Path.resolve.
    cbn [Path.parse Path.isAbsolute Path.names]. rewrite Habs. reflexivity. }
  assert (Hbplain : Forall FileSystemTool.plainName
                      (Path.names (Path.parse userDir) ++ ["resources"])).
  { apply Forall_app. split; [exact Hplain |].
    constructor; [split; discriminate | constructor]. }
  unfold ResourceManager.fileTarget in Htarget.
  destruct (uriPath uri) as [e | [path |]]; try discriminate.
  destruct (Path.get path) as [e | filePath]; [discriminate |].
  destruct (ResourceManager.getFileName filePath) as [fn |] eqn:Hfn; [| discriminate].
  destruct (Path.startsWith _ _) eqn:Hstarts; cbn [negb] in Htarget; [| discriminate].
  injection Htarget as <- <-.
  assert (Hshape : fn = Path.mkPath false []
                   \/ exists n, fn = Path.mkPath false [n]).
  { unfold ResourceManager.getFileName in Hfn.
    destruct (List.last (Some <$> Path.names filePath) None) as [n |].
    - injection Hfn as <-. right. exists n. reflexivity.
    - destruct (Path.isAbsolute filePath); [discriminate |].
      injection Hfn as <-. left. reflexivity. }
  rewrite Hbase in *.
  destruct Hshape as [-> | [n ->]].
  - cbn [Path.resolve Path.isAbsolute Path.names Path.normalize].
    split; [reflexivity |]. left. apply normalize_names_plain. exact Hbplain.
  - unfold Path.resolve, Path.normalize, Path.startsWith in *.
    cbn [Path.isAbsolute Path.names negb andb Bool.eqb] in *.
    rewrite normalize_names_plain_app in * by exact Hbplain.
    rewrite app_nil_r in *. cbn [Path.normalize_names] in *.
    destruct (String.eqb n ".") eqn:Edot.
    { split; [reflexivity |]. left. apply rev_involutive. }
    destruct (String.eqb n "..") eqn:Eup.
    { exfalso. rewrite rev_app_distr in Hstarts. cbn [rev app] in Hstarts.
      assert (Htop : String.eqb "resources" ".." = false) by reflexivity.
      rewrite Htop, rev_involutive in Hstarts.
      apply names_prefix_length in Hstarts.
      rewrite length_app in Hstarts. cbn [length] in Hstarts. lia. }
    split; [reflexivity |]. right. exists n.
    apply String.eqb_neq in Edot, Eup.
    split; [split; assumption |]. split; [reflexivity |].
    cbn [rev]. rewrite rev_involutive. reflexivity.
Qed.

(** X16 at work: [/etc/passwd] is looked for in the resources directory. *)
Lemma X16_file_resources_stay_in_the_base_directory_witness :
  ResourceManager.fileTarget None Samples.pathOfFileUri "/home/mcp"
    "file:///etc/passwd"
  = inr (Path.mkPath false ["passwd"],
         Path.mkPath true ["home"; "mcp"; "resources"; "passwd"])
  /\ Path.isAbsolute (Path.mkPath true ["home"; "mcp"; "resources"; "passwd"]) = true.
Proof.
  assert (H1 : JString.startsWith "/home/mcp" "/" = true) by reflexivity.
  assert (H2 : Forall FileSystemTool.plainName (Path.names (Path.parse "/home/mcp"))).
  { repeat constructor; discriminate. }
  assert (H3 : ResourceManager.fileTarget None Samples.pathOfFileUri "/home/mcp"
                 "file:///etc/passwd"
               = inr (Path.mkPath false ["passwd"],
                      Path.mkPath true ["home"; "mcp"; "resources"; "passwd"]))
    by reflexivity.
  split; [exact H3 |].
  exact (proj1 (X16_file_resources_stay_in_the_base_directory
                  None Samples.pathOfFileUri "/home/mcp" "file:///etc/passwd"
                  _ _ H1 H2 H3)).
Defined.

(** ** FileSystemTool *)

Lemma prefix_app (sub a b : string) :
  String.prefix sub a = true -> String.prefix sub (a +:+ b) = true.
Proof.
  revert a. induction sub as [| c sub IH]; intros a H;
    [destruct (a +:+ b); reflexivity |].
  destruct a as [| d a]; [discriminate |].
  simpl in H. simpl.
  destruct (ascii_dec c d); [apply IH; exact H | discriminate].
Qed.

Lemma contains_app_l (a b sub : string) :
  JString.contains a sub = true -> JString.contains (a +:+ b) sub = true.
Proof.
  induction a as [| c a IH]; intros H.
  - destruct sub as [| x sub]; [| discriminate H].
    destruct b; reflexivity.
  - change (String c a +:+ b) with (String c (a +:+ b)).
    cbn [JString.contains] in *.
    apply orb_prop in H as [H | H].
    + apply (prefix_app _ _ b) in H.
      change (String c a +:+ b) with (String c (a +:+ b)) in H.
      rewrite H. reflexivity.
    + rewrite (IH H). apply orb_true_r.
Qed.

Lemma contains_app_r (a b sub : string) :
  JString.contains b sub = true -> JString.contains (a +:+ b) sub = true.
Proof.
  intros H. induction a as [| c a IH]; [exact H |].
  change (String c a +:+ b) with (String c (a +:+ b)).
  cbn [JString.contains]. rewrite IH. apply orb_true_r.
Qed.

Lemma contains_join (sep sub n : string) (l : list string) :
  In n l -> JString.contains n sub = true ->
  JString.contains (JString.join sep l) sub = true.
Proof.
  intros Hin Hn. induction l as [| x rest IH]; [destruct Hin |].
  cbn [JString.join]. destruct rest as [| y rest'].
  - destruct Hin as [-> | []]. exact Hn.
  - destruct Hin as [-> | Hin].
    + apply contains_app_l. exact Hn.
    + apply contains_app_r, contains_app_r. apply IH. exact Hin.
Qed.

(** Normalizing leaves no [.] among the names. *)
Lemma normalize_names_no_dot (abs : bool) (todo done : list string) :
  Forall (fun n => n <> ".") done ->
  Forall (fun n => n <> ".") (Path.normalize_names abs done todo).
Proof.
  revert done. induction todo as [| n rest IH]; intros done Hdone.
  - cbn [Path.normalize_names]. apply Forall_rev. exact Hdone.
  - cbn [Path.normalize_names].
    destruct (String.eqb n ".") eqn:Edot; [apply IH; exact Hdone |].
    apply String.eqb_neq in Edot.
    destruct (String.eqb n "..") eqn:Eup.
    + destruct done as [| top done'].
      * destruct abs; apply IH; repeat constructor; exact Edot.
      * inversion Hdone; subst.
        destruct (String.eqb top ".."); apply IH;
          [constructor; assumption | assumption].
    + apply IH. constructor; assumption.
Qed.

(** A relative path that [resolveSafePath] lets through has plain names
    only. *)
Lemma requested_plain (parsed : Path.Path) :
  JString.contains (Path.toString (Path.normalize parsed)) ".."
  || Path.isAbsolute (Path.normalize parsed) = false ->
  Forall FileSystemTool.plainName (Path.names (Path.normalize parsed)).
Proof.
  intros H. apply orb_false_elim in H as [Hup Hrel].
  pose proof (normalize_names_no_dot (Path.isAbsolute parsed) (Path.names parsed) []
                (List.Forall_nil _)) as Hdot.
  change (Path.normalize_names (Path.isAbsolute parsed) [] (Path.names parsed))
    with (Path.names (Path.normalize parsed)) in Hdot.
  apply Forall_forall. intros n Hn. split.
  - rewrite Forall_forall in Hdot. apply Hdot. exact Hn.
  - intros ->. unfold Path.toString in Hup. rewrite Hrel in Hup.
    pose proof (contains_join "/" ".." ".." _ (proj1 (list_elem_of_In _ _) Hn) eq_refl)
      as Hc.
    change ("" +:+ ?s) with s in Hup. congruence.
Qed.

(** What [resolveSafePath] gives for a working directory that is absolute
    and has plain names. *)
Lemma resolveSafePath_shape (userDir relativePath : string) :
  JString.startsWith userDir "/" = true ->
  Forall FileSystemTool.plainName (Path.names (Path.parse userDir)) ->
  match FileSystemTool.resolveSafePath userDir relativePath with
  | inr p =>
      Forall FileSystemTool.plainName
        (Path.names (Path.normalize (Path.parse (FileSystemTool.cleaned relativePath))))
      /\ Path.isAbsolute
           (Path.normalize (Path.parse (FileSystemTool.cleaned relativePath))) = false
      /\ p = Path.mkPath true
               (Path.names (FileSystemTool.basePath userDir)
                ++ Path.names
                     (Path.normalize
                        (Path.parse (FileSystemTool.cleaned relativePath))))
  | inl e =>
      getMessage e = Some "La ruta no puede estar vacía"
      \/ getClass e = InvalidPathException
      \/ getMessage e
         = Some ("Ruta no permitida: " +:+ FileSystemTool.cleaned relativePath)
  end.
Proof.
  intros Habs Hplain.
  assert (Hbplain : Forall FileSystemTool.plainName
                      (Path.names (Path.parse userDir) ++ ["workspace"])).
  { apply Forall_app. split; [exact Hplain |].
    constructor; [split; discriminate | constructor]. }
  unfold FileSystemTool.resolveSafePath.
  destruct (JString.trim_isEmpty relativePath); [left; reflexivity |].
  fold (FileSystemTool.cleaned relativePath).
  unfold Path.get.
  destruct (JString.contains (FileSystemTool.cleaned relativePath) Path.NUL);
    [right; left; reflexivity |].
  set (requested := Path.normalize (Path.parse (FileSystemTool.cleaned relativePath))).
  destruct (JString.contains (Path.toString requested) ".."
            || Path.isAbsolute requested) eqn:Ereq;
    [right; right; reflexivity |].
  pose proof (requested_plain _ Ereq) as Hreq.
  apply orb_false_elim in Ereq as [_ Hrel].
  assert (Hresolved : Path.normalize
                        (Path.resolve (FileSystemTool.basePath userDir) requested)
                      = Path.mkPath true
                          (Path.names (FileSystemTool.basePath userDir)
                           ++ Path.names requested)).
  { rewrite (fs_basePath userDir Habs). unfold Path.resolve. rewrite Hrel.
    cbn [Path.isAbsolute Path.names negb andb].
    destruct (Path.names requested) as [| n req] eqn:Hnames.
    - unfold Path.normalize. cbn [Path.isAbsolute Path.names].
      rewrite (normalize_names_plain true _ Hbplain), app_nil_r. reflexivity.
    - unfold Path.normalize. cbn [Path.isAbsolute Path.names].
      rewrite normalize_names_plain; [reflexivity |].
      apply Forall_app. split; [exact Hbplain |].
      rewrite <- Hnames. exact Hreq. }
  rewrite Hresolved.
  assert (Hstarts : Path.startsWith
                      (Path.mkPath true
                         (Path.names (FileSystemTool.basePath userDir)
                          ++ Path.names requested))
                      (FileSystemTool.basePath userDir) = true).
  { rewrite (fs_basePath userDir Habs). unfold Path.startsWith.
    cbn [Path.isAbsolute Path.names Bool.eqb andb]. apply names_prefix_app. }
  rewrite Hstarts. cbn [negb]. split; [exact Hreq | split; [exact Hrel | reflexivity]].
Qed.

(** X17.  With the working directory an absolute path without [.] or
    [..]: a path that [resolveSafePath] accepts is the base directory
    followed by the names of the request, once the request is cleaned and
    normalized; the request is then relative and its names are plain.  The
    last test of the method
    never fails: its refusals are the empty path, the path with a NUL
    character, and the path not allowed. *)
Theorem X17_resolveSafePath_appends_the_request_to_the_base
  (userDir relativePath : string)
  (Habs : JString.startsWith userDir "/" = true)
  (Hplain : Forall FileSystemTool.plainName (Path.names (Path.parse userDir))) :
  match FileSystemTool.resolveSafePath userDir relativePath with
  | inr p =>
      Forall FileSystemTool.plainName
        (Path.names (Path.normalize (Path.parse (FileSystemTool.cleaned relativePath))))
      /\ Path.isAbsolute
           (Path.normalize (Path.parse (FileSystemTool.cleaned relativePath))) = false
      /\ p = Path.mkPath true
               (Path.names (FileSystemTool.basePath userDir)
                ++ Path.names
                     (Path.normalize
                        (Path.parse (FileSystemTool.cleaned relativePath))))
  | inl e =>
      getMessage e = Some "La ruta no puede estar vacía"
      \/ getClass e = InvalidPathException
      \/ getMessage e
         = Some ("Ruta no permitida: " +:+ FileSystemTool.cleaned relativePath)
  end.
Proof. apply resolveSafePath_shape; assumption. Qed.

(** X17 at work: backslashes, a leading [./] and a doubled slash. *)
Lemma X17_resolveSafePath_appends_the_request_to_the_base_witness :
  FileSystemTool.resolveSafePath "/home/mcp" ".\notes//a.txt"
  = inr (Path.mkPath true ["home"; "mcp"; "workspace"; "notes"; "a.txt"]).
Proof.
  assert (H1 : JString.startsWith "/home/mcp" "/" = true) by reflexivity.
  assert (H2 : Forall FileSystemTool.plainName (Path.names (Path.parse "/home/mcp"))).
  { repeat constructor; discriminate. }
  pose proof (X17_resolveSafePath_appends_the_request_to_the_base
                "/home/mcp" ".\notes//a.txt" H1 H2) as H.
  destruct (FileSystemTool.resolveSafePath "/home/mcp" ".\notes//a.txt")
    as [e | p] eqn:E; [discriminate E |].
  destruct H as (_ & _ & ->). reflexivity.
Defined.

Lemma lacks_replace (old new : ascii) (s : string) :
  old <> new -> JString.lacks old (JString.replace old new s).
Proof.
  intros Hne. unfold JString.lacks.
  induction s as [| c s IH]; [intros [] |].
  cbn [JString.replace list_ascii_of_string]. intros [H | H]; [| exact (IH H)].
  destruct (Ascii.eqb c old) eqn:E; [exact (Hne (eq_sym H)) |].
  apply Ascii.eqb_neq in E. exact (E H).
Qed.

Lemma lacks_substring (c : ascii) (n : nat) (s : string) :
  JString.lacks c s -> JString.lacks c (JString.substring n s).
Proof.
  unfold JString.lacks. revert s.
  induction n as [| n IH]; intros s H; [destruct s; exact H |].
  destruct s as [| d s]; [exact H |].
  cbn [JString.substring]. apply IH. intros Hin. apply H. right. exact Hin.
Qed.

Lemma lacks_rev_app (c : ascii) (a b : string) :
  JString.lacks c a -> JString.lacks c b -> JString.lacks c (String.rev_app a b).
Proof.
  unfold JString.lacks. revert b.
  induction a as [| d a IH]; intros b Ha Hb; [exact Hb |].
  cbn [String.rev_app]. apply IH.
  - intros Hin. apply Ha. right. exact Hin.
  - cbn [list_ascii_of_string]. intros [Hd | Hin]; [| exact (Hb Hin)].
    apply Ha. left. exact Hd.
Qed.

Lemma lacks_split_aux (c sep : ascii) (s acc : string) :
  JString.lacks c s -> JString.lacks c acc ->
  Forall (JString.lacks c) (JString.split_aux sep s acc).
Proof.
  revert acc. induction s as [| d s IH]; intros acc Hs Hacc.
  - cbn [JString.split_aux]. constructor; [| constructor].
    apply lacks_rev_app; [exact Hacc | intros []].
  - assert (Hs' : JString.lacks c s).
    { intros Hin. apply Hs. right. exact Hin. }
    cbn [JString.split_aux]. destruct (Ascii.eqb d sep).
    + constructor.
      * apply lacks_rev_app; [exact Hacc | intros []].
      * apply IH; [exact Hs' | intros []].
    + apply IH; [exact Hs' |].
      intros [Hd | Hin]; [| exact (Hacc Hin)]. apply Hs. left. exact Hd.
Qed.

Lemma lacks_app (c : ascii) (a b : string) :
  JString.lacks c a -> JString.lacks c b -> JString.lacks c (a +:+ b).
Proof.
  unfold JString.lacks. induction a as [| d a IH]; intros Ha Hb; [exact Hb |].
  change (String d a +:+ b) with (String d (a +:+ b)).
  cbn [list_ascii_of_string]. intros [Hd | Hin].
  - apply Ha. left. exact Hd.
  - revert Hin. apply IH; [| exact Hb]. intros Hin. apply Ha. right. exact Hin.
Qed.

Lemma lacks_join (c : ascii) (sep : string) (l : list string) :
  JString.lacks c sep -> Forall (JString.lacks c) l ->
  JString.lacks c (JString.join sep l).
Proof.
  intros Hsep Hl. induction Hl as [| x rest Hx Hrest IH]; [intros [] |].
  cbn [JString.join]. destruct rest as [| y rest']; [exact Hx |].
  apply lacks_app; [exact Hx |]. apply lacks_app; [exact Hsep | exact IH].
Qed.

Lemma replace_lacks (old new : ascii) (s : string) :
  JString.lacks old s -> JString.replace old new s = s.
Proof.
  unfold JString.lacks. induction s as [| c s IH]; intros H; [reflexivity |].
  cbn [JString.replace].
  destruct (Ascii.eqb c old) eqn:E.
  - apply Ascii.eqb_eq in E. exfalso. apply H. left. exact E.
  - rewrite IH; [reflexivity |]. intros Hin. apply H. right. exact Hin.
Qed.

(** Normalizing brings in no name of its own. *)
Lemma normalize_names_Forall (P : string -> Prop) (abs : bool)
  (todo done : list string) :
  Forall P done -> Forall P todo -> Forall P (Path.normalize_names abs done todo).
Proof.
  revert done. induction todo as [| n rest IH]; intros done Hdone Htodo.
  - cbn [Path.normalize_names]. apply Forall_rev. exact Hdone.
  - inversion Htodo as [| ? ? Hn Hrest]; subst.
    cbn [Path.normalize_names].
    destruct (String.eqb n "."); [apply IH; assumption |].
    destruct (String.eqb n "..").
    + destruct done as [| top done'].
      * destruct abs; apply IH; repeat constructor; assumption.
      * inversion Hdone; subst.
        destruct (String.eqb top ".."); apply IH; try assumption.
        constructor; assumption.
    + apply IH; [constructor; assumption | assumption].
Qed.

Lemma parse_names_Forall (P : string -> Prop) (s : string) :
  Forall P (JString.split "/" s) -> Forall P (Path.names (Path.parse s)).
Proof.
  intros H. cbn [Path.parse Path.names].
  rewrite List.Forall_forall in *. intros n Hn.
  apply List.filter_In in Hn as [Hn _]. exact (H n Hn).
Qed.

Lemma parse_names_nonEmpty (s : string) :
  Forall (fun n => Path.nonEmpty n = true) (Path.names (Path.parse s)).
Proof.
  cbn [Path.parse Path.names]. rewrite List.Forall_forall. intros n Hn.
  apply List.filter_In in Hn as [_ Hn]. exact Hn.
Qed.

Lemma cleaned_lacks_backslash (relativePath : string) :
  JString.lacks "\" (FileSystemTool.cleaned relativePath).
Proof.
  unfold FileSystemTool.cleaned.
  destruct (JString.startsWith _ "./").
  - apply lacks_substring, lacks_replace. discriminate.
  - apply lacks_replace. discriminate.
Qed.

Lemma names_eqb_refl (l : list string) : Path.names_eqb l l = true.
Proof.
  induction l as [| x l IH]; [reflexivity |].
  cbn [Path.names_eqb]. rewrite String.eqb_refl, IH. reflexivity.
Qed.

Lemma names_eqb_longer (l : list string) (n : string) (r : list string) :
  Path.names_eqb (l ++ n :: r) l = false.
Proof.
  induction l as [| x l IH]; [reflexivity |].
  cbn [app Path.names_eqb]. rewrite IH. apply andb_false_r.
Qed.

Lemma matching_app (l k : list string) :
  Path.matching l (l ++ k) = length l.
Proof.
  induction l as [| x l IH]; [reflexivity |].
  cbn [app Path.matching length]. rewrite String.eqb_refl, IH. reflexivity.
Qed.

Lemma plain_hasDotOrDotDot (l : list string) :
  Forall FileSystemTool.plainName l -> Path.hasDotOrDotDot l = false.
Proof.
  unfold Path.hasDotOrDotDot.
  induction 1 as [| n l [Hdot Hup] _ IH]; [reflexivity |].
  cbn [existsb]. apply String.eqb_neq in Hdot, Hup.
  rewrite Hdot, Hup, IH. reflexivity.
Qed.

(** X18.  With the working directory an absolute path without [.] or
    [..]: for a path that [resolveSafePath] accepted, [getRelativePath]
    returns normally, and what it returns is the request as it was cleaned
    and normalized -- the path under the base directory, with slashes. *)
Theorem X18_getRelativePath_gives_back_the_request
  (userDir relativePath : string) (p : Path.Path)
  (Habs : JString.startsWith userDir "/" = true)
  (Hplain : Forall FileSystemTool.plainName (Path.names (Path.parse userDir)))
  (Hok : FileSystemTool.resolveSafePath userDir relativePath = inr p) :
  FileSystemTool.getRelativePath userDir p
  = inr (Path.toString
           (Path.normalize (Path.parse (FileSystemTool.cleaned relativePath)))).
Proof.
  pose proof (resolveSafePath_shape userDir relativePath Habs Hplain) as Hshape.
  rewrite Hok in Hshape. destruct Hshape as (Hreq & Hrel & ->).
  set (requested := Path.normalize (Path.parse (FileSystemTool.cleaned relativePath)))
    in *.
  assert (Hbplain : Forall FileSystemTool.plainName
                      (Path.names (Path.parse userDir) ++ ["workspace"])).
  { apply Forall_app. split; [exact Hplain |].
    constructor; [split; discriminate | constructor]. }
  assert (Hfull : Forall (fun n => Path.nonEmpty n = true) (Path.names requested)).
  { apply normalize_names_Forall; [constructor | apply parse_names_nonEmpty]. }
  assert (Hback : Forall (JString.lacks "\") (Path.names requested)).
  { apply normalize_names_Forall; [constructor |].
    apply parse_names_Forall, lacks_split_aux;
      [apply cleaned_lacks_backslash | intros []]. }
  assert (Hstring : Path.toString requested = JString.join "/" (Path.names requested)).
  { unfold Path.toString. rewrite Hrel. reflexivity. }
  assert (Hrepl : JString.replace "\" "/" (Path.toString requested)
                  = Path.toString requested).
  { apply replace_lacks. rewrite Hstring. apply lacks_join; [| exact Hback].
    cbn. intros [H | []]. discriminate H. }
  unfold FileSystemTool.getRelativePath, Path.relativize.
  rewrite (fs_basePath userDir Habs).
  set (base := (Path.names (Path.parse userDir) ++ ["workspace"])%list) in *.
  unfold Path.equals, Path.isEmpty, Path.nameElements, Path.isEmpty.
  cbn [Path.isAbsolute Path.names Bool.eqb negb andb].
  destruct (Path.names requested) as [| n r] eqn:Hnames.
  - rewrite app_nil_r, names_eqb_refl. rewrite <- Hrepl, Hstring. reflexivity.
  - rewrite names_eqb_longer.
    rewrite (plain_hasDotOrDotDot base Hbplain).
    rewrite (plain_hasDotOrDotDot (base ++ n :: r)) by
      (apply Forall_app; split; assumption).
    cbn [orb Path.isAbsolute Path.names negb andb].
    rewrite matching_app, Nat.eqb_refl, drop_app_length.
    unfold Path.ofElements. rewrite (filter_all_true _ _ Hfull).
    rewrite <- Hrepl, Hstring. reflexivity.
Qed.

(** X18 at work. *)
Lemma X18_getRelativePath_gives_back_the_request_witness :
  FileSystemTool.getRelativePath "/home/mcp"
    (Path.mkPath true ["home"; "mcp"; "workspace"; "notes"; "a.txt"])
  = inr "notes/a.txt".
Proof.
  assert (H1 : JString.startsWith "/home/mcp" "/" = true) by reflexivity.
  assert (H2 : Forall FileSystemTool.plainName (Path.names (Path.parse "/home/mcp"))).
  { repeat constructor; discriminate. }
  assert (H3 : FileSystemTool.resolveSafePath "/home/mcp" ".\notes//a.txt"
               = inr (Path.mkPath true ["home"; "mcp"; "workspace"; "notes"; "a.txt"]))
    by reflexivity.
  exact (X18_getRelativePath_gives_back_the_request
           "/home/mcp" ".\notes//a.txt" _ H1 H2 H3).
Defined.

(** X19.  The private method that [execute] reaches is the one of the
    [action] argument, and it gets the arguments of the call: a write is
    made with the text of the [content] argument, which is present; a
    listing is recursive only when the [recursive] argument is there and
    reads as true. *)
Theorem X19_the_call_made_belongs_to_the_action
  (userDir : string) (args : JsonNode) (call : FileSystemTool.FsCall)
  (Hcall : FileSystemTool.dispatch userDir (Some args) = inr call) :
  Json.pathText args "action" = FileSystemTool.actionOf call
  /\ match call with
     | FileSystemTool.readFile _ a => a = args
     | FileSystemTool.writeFile _ content a =>
         a = args
         /\ Json.has args "content" = true
         /\ content = Json.pathText args "content"
     | FileSystemTool.listDirectory _ recursive =>
         recursive = true ->
         exists r, Json.get args "recursive" = Some r /\ Json.asBoolean r = true
     | _ => True
     end.
Proof.
  revert Hcall. unfold FileSystemTool.dispatch.
  destruct (FileSystemTool.validateArguments (Some args)) as [e | []] eqn:Ev;
    [discriminate |].
  destruct (FileSystemTool.resolveSafePath userDir (Json.pathText args "path"))
    as [e | targetPath]; [discriminate |].
  destruct (String.eqb (Json.pathText args "action") "read") eqn:Eread.
  { apply String.eqb_eq in Eread. intros [= <-]. split; [exact Eread | reflexivity]. }
  destruct (String.eqb (Json.pathText args "action") "write") eqn:Ewrite.
  { apply String.eqb_eq in Ewrite. intros [= <-]. split; [exact Ewrite |].
    assert (Hcontent : Json.has args "content" = true).
    { revert Ev. unfold FileSystemTool.validateArguments.
      destruct (negb (Json.isObject args)); [discriminate |].
      destruct (negb (Json.has args "action")); [discriminate |].
      destruct (negb (Json.has args "path")); [discriminate |].
      rewrite Ewrite. cbn [String.eqb Ascii.eqb Bool.eqb andb].
      destruct (Json.has args "content"); [reflexivity | discriminate]. }
    rewrite Hcontent. repeat split. }
  destruct (String.eqb (Json.pathText args "action") "list") eqn:Elist.
  { apply String.eqb_eq in Elist. intros [= <-]. split; [exact Elist |].
    intros Hrec. apply andb_prop in Hrec as [_ Hrec].
    destruct (Json.get args "recursive") as [r |]; [| discriminate Hrec].
    exists r. split; [reflexivity | exact Hrec]. }
  destruct (String.eqb (Json.pathText args "action") "info") eqn:Einfo.
  { apply String.eqb_eq in Einfo. intros [= <-]. split; [exact Einfo | exact I]. }
  destruct (String.eqb (Json.pathText args "action") "exists") eqn:Eexists.
  { apply String.eqb_eq in Eexists. intros [= <-]. split; [exact Eexists | exact I]. }
  destruct (String.eqb (Json.pathText args "action") "delete") eqn:Edelete.
  { apply String.eqb_eq in Edelete. intros [= <-]. split; [exact Edelete | exact I]. }
  destruct (String.eqb (Json.pathText args "action") "mkdir") eqn:Emkdir.
  { apply String.eqb_eq in Emkdir. intros [= <-]. split; [exact Emkdir | exact I]. }
  discriminate.
Qed.

(** X19 at work: a write of [hola] to [notes/a.txt]. *)
Lemma X19_the_call_made_belongs_to_the_action_witness :
  Json.pathText
    (Json.object [("action", TextNode "write"); ("path", TextNode "notes/a.txt");
                  ("content", TextNode "hola")]) "action"
  = "write".
Proof.
  assert (H : FileSystemTool.dispatch "/home/mcp"
                (Some (Json.object [("action", TextNode "write");
                                    ("path", TextNode "notes/a.txt");
                                    ("content", TextNode "hola")]))
              = inr (FileSystemTool.writeFile
                       (Path.mkPath true ["home"; "mcp"; "workspace"; "notes"; "a.txt"])
                       "hola"
                       (Json.object [("action", TextNode "write");
                                     ("path", TextNode "notes/a.txt");
                                     ("content", TextNode "hola")])))
    by reflexivity.
  exact (proj1 (X19_the_call_made_belongs_to_the_action _ _ _ H)).
Defined.

(** ** StdioTransport *)

Lemma all_trimmable_app (a b : string) :
  JString.all_trimmable (a +:+ b)
  = JString.all_trimmable a && JString.all_trimmable b.
Proof.
  induction a as [| c a IH]; [reflexivity |].
  change (String c a +:+ b) with (String c (a +:+ b)).
  cbn [JString.all_trimmable]. rewrite IH. apply andb_assoc.
Qed.

Lemma started_app_r (a b : string) :
  StdioTransport.started b = true -> StdioTransport.started (a +:+ b) = true.
Proof. destruct a; [intros H; exact H | reflexivity]. Qed.

Lemma started_of_not_blank (s : string) :
  JString.trim_isEmpty s = false -> StdioTransport.started s = true.
Proof. destruct s; [discriminate | reflexivity]. Qed.

Lemma readLines_started (lines : list string) (builder : string) :
  StdioTransport.started builder = true ->
  StdioTransport.started (fst (StdioTransport.readLines builder lines)) = true.
Proof.
  revert builder. induction lines as [| line rest IH]; intros builder Hb;
    [exact Hb |].
  cbn [StdioTransport.readLines].
  destruct (JString.trim_isEmpty line) eqn:Eblank.
  - rewrite Hb. exact Hb.
  - pose proof (started_app_r (builder +:+ JString.LF) line
                  (started_of_not_blank line Eblank)) as Hnext.
    rewrite Hb.
    destruct (StdioTransport.isCompleteJsonMessage _); [exact Hnext |].
    apply IH. exact Hnext.
Qed.

(** The builder of [readMessage] is empty or holds a character that is
    no blank. *)
Lemma readLines_not_blank (lines : list string) (builder : string) :
  builder = "" \/ JString.trim_isEmpty builder = false ->
  fst (StdioTransport.readLines builder lines) = ""
  \/ JString.trim_isEmpty (fst (StdioTransport.readLines builder lines)) = false.
Proof.
  revert builder. induction lines as [| line rest IH]; intros builder Hb;
    [exact Hb |].
  cbn [StdioTransport.readLines].
  destruct (JString.trim_isEmpty line) eqn:Eblank.
  - destruct (StdioTransport.started builder); [exact Hb | apply IH; exact Hb].
  - assert (Hnext : JString.trim_isEmpty
                      ((if StdioTransport.started builder
                        then builder +:+ JString.LF else builder) +:+ line) = false).
    { unfold JString.trim_isEmpty in *. rewrite all_trimmable_app, Eblank.
      apply andb_false_r. }
    destruct (StdioTransport.isCompleteJsonMessage _);
      [right; exact Hnext | apply IH; right; exact Hnext].
Qed.

(** X20.  [readMessage] returns [null] exactly when every line left in
    the input is blank, and it has then used up the input. *)
Theorem X20_readMessage_is_null_at_the_end_of_input (lines : list string) :
  (fst (StdioTransport.readMessage lines) = None
   <-> Forall (fun line => JString.trim_isEmpty line = true) lines)
  /\ (fst (StdioTransport.readMessage lines) = None ->
      snd (StdioTransport.readMessage lines) = []).
Proof.
  unfold StdioTransport.readMessage.
  induction lines as [| line rest IH].
  - cbn. repeat split; constructor.
  - cbn [StdioTransport.readLines StdioTransport.started].
    destruct (JString.trim_isEmpty line) eqn:Eblank.
    + destruct IH as [[IH1 IH2] IH3]. repeat split.
      * intros H. constructor; [exact Eblank | exact (IH1 H)].
      * intros H. inversion H; subst. apply IH2. assumption.
      * exact IH3.
    + change ("" +:+ line) with line.
      assert (Hs : StdioTransport.started
                     (fst (if StdioTransport.isCompleteJsonMessage line
                           then (line, rest)
                           else StdioTransport.readLines line rest)) = true).
      { destruct (StdioTransport.isCompleteJsonMessage line).
        - exact (started_of_not_blank line Eblank).
        - apply readLines_started. exact (started_of_not_blank line Eblank). }
      destruct (if StdioTransport.isCompleteJsonMessage line
                then (line, rest) else StdioTransport.readLines line rest)
        as [builder left].
      cbn [fst snd] in *. rewrite Hs. repeat split; try discriminate.
      intros H. inversion H; subst. congruence.
Qed.

(** X21.  A message that [readMessage] returns is never blank: the test
    [message.trim().isEmpty()] in [runMessageLoop] never holds, and every
    message read is counted and handed to the message handler. *)
Theorem X21_readMessage_returns_no_blank_message (lines : list string) :
  match StdioTransport.readMessage lines with
  | (Some message, rest) =>
      JString.trim_isEmpty message = false
      /\ forall fuel,
           StdioTransport.received (S fuel) lines
           = message :: StdioTransport.received fuel rest
  | (None, _) => forall fuel, StdioTransport.received fuel lines = []
  end.
Proof.
  destruct (StdioTransport.readMessage lines) as [[message |] rest] eqn:E.
  - assert (Hm : JString.trim_isEmpty message = false).
    { revert E. unfold StdioTransport.readMessage.
      pose proof (readLines_not_blank lines "" (or_introl eq_refl)) as H.
      destruct (StdioTransport.readLines "" lines) as [builder left].
      cbn [fst] in H.
      destruct builder as [| c builder]; [discriminate |].
      cbn [StdioTransport.started]. intros [= <- <-].
      destruct H as [H | H]; [discriminate H | exact H]. }
    split; [exact Hm |]. intros fuel.
    cbn [StdioTransport.received]. rewrite E, Hm. reflexivity.
  - intros [| fuel]; [reflexivity |].
    cbn [StdioTransport.received]. rewrite E. reflexivity.
Qed.

Lemma readMessage_blank_line (line : string) (rest : list string) :
  JString.trim_isEmpty line = true ->
  StdioTransport.readMessage (line :: rest) = StdioTransport.readMessage rest.
Proof.
  intros H. unfold StdioTransport.readMessage.
  cbn [StdioTransport.readLines StdioTransport.started]. rewrite H. reflexivity.
Qed.

Lemma readMessage_complete_line (line : string) (rest : list string) :
  JString.trim_isEmpty line = false ->
  StdioTransport.isCompleteJsonMessage line = true ->
  StdioTransport.readMessage (line :: rest) = (Some line, rest).
Proof.
  intros Hblank Hcomplete. unfold StdioTransport.readMessage.
  cbn [StdioTransport.readLines StdioTransport.started].
  change ("" +:+ line) with line.
  rewrite Hblank, Hcomplete, (started_of_not_blank line Hblank). reflexivity.
Qed.

(** X22.  Line-delimited framing: when every line of the input is blank
    or a complete JSON message by [isCompleteJsonMessage], the message
    loop hands to the handler exactly the lines that are not blank, one
    message for each and in their order, within as many turns as there
    are lines and one more. *)
Theorem X22_one_message_for_each_complete_line
  (lines : list string) (fuel : nat)
  (Hlines : Forall (fun line => JString.trim_isEmpty line = true
                                \/ StdioTransport.isCompleteJsonMessage line = true)
              lines)
  (Hfuel : (length lines < fuel)%nat) :
  StdioTransport.received fuel lines
  = List.filter (fun line => negb (JString.trim_isEmpty line)) lines.
Proof.
  revert fuel Hfuel.
  induction Hlines as [| line rest Hline _ IH]; intros fuel Hfuel.
  - destruct fuel; reflexivity.
  - destruct fuel as [| fuel]; [cbn in Hfuel; lia |].
    cbn [length] in Hfuel. cbn [List.filter].
    destruct (JString.trim_isEmpty line) eqn:Eblank; cbn [negb].
    + rewrite <- (IH (S fuel)) by lia.
      cbn [StdioTransport.received].
      rewrite (readMessage_blank_line line rest Eblank). reflexivity.
    + destruct Hline as [Hline | Hline]; [discriminate Hline |].
      cbn [StdioTransport.received].
      rewrite (readMessage_complete_line line rest Eblank Hline), Eblank.
      rewrite IH by lia. reflexivity.
Qed.

(** X22 at work: two messages with a blank line between them. *)
Lemma X22_one_message_for_each_complete_line_witness :
  StdioTransport.received 4 ["{}"; " "; " {{}} "] = ["{}"; " {{}} "].
Proof.
  assert (H1 : Forall (fun line => JString.trim_isEmpty line = true
                                   \/ StdioTransport.isCompleteJsonMessage line = true)
                 ["{}"; " "; " {{}} "]).
  { apply List.Forall_cons; [right; reflexivity |].
    apply List.Forall_cons; [left; reflexivity |].
    apply List.Forall_cons; [right; reflexivity | apply List.Forall_nil]. }
  assert (H2 : (length ["{}"; " "; " {{}} "] < 4)%nat) by (cbn; lia).
  exact (X22_one_message_for_each_complete_line _ 4 H1 H2).
Defined.

Lemma trimStart_app (l x : string) :
  JString.all_trimmable l = false ->
  JString.trimStart (l +:+ x) = JString.trimStart l +:+ x.
Proof.
  induction l as [| c l IH]; [discriminate |].
  change (String c l +:+ x) with (String c (l +:+ x)).
  cbn [JString.all_trimmable JString.trimStart].
  destruct (JString.isTrimmable c); cbn [andb]; [exact IH | reflexivity].
Qed.

Lemma trimStart_head (l : string) :
  JString.all_trimmable l = false ->
  exists c t, JString.trimStart l = String c t /\ JString.isTrimmable c = false.
Proof.
  induction l as [| c l IH]; [discriminate |].
  cbn [JString.all_trimmable JString.trimStart].
  destruct (JString.isTrimmable c) eqn:E; cbn [andb]; [exact IH |].
  intros _. exists c, l. split; [reflexivity | exact E].
Qed.

Lemma trimEnd_head (c : ascii) (t : string) :
  JString.isTrimmable c = false ->
  exists t', JString.trimEnd (String c t) = String c t'.
Proof.
  intros Hc. cbn [JString.trimEnd]. rewrite Hc.
  destruct (JString.trimEnd t); eexists; reflexivity.
Qed.

Lemma startsWith_head (c d : ascii) (t : string) :
  JString.startsWith (String c t) (String d "")
  = if ascii_dec d c then true else false.
Proof.
  unfold JString.startsWith. simpl. destruct (ascii_dec d c); [| reflexivity].
  destruct t; reflexivity.
Qed.

(** What [trim] leaves of a text that is not blank starts with the first
    character of the text that is no blank, whatever follows. *)
Lemma trim_startsWith_app (l x : string) (d : ascii) :
  JString.all_trimmable l = false ->
  JString.startsWith (JString.trim (l +:+ x)) (String d "")
  = JString.startsWith (JString.trim l) (String d "").
Proof.
  intros Hl. unfold JString.trim. rewrite (trimStart_app l x Hl).
  destruct (trimStart_head l Hl) as (c & t & -> & Hc).
  change (String c t +:+ x) with (String c (t +:+ x)).
  destruct (trimEnd_head c (t +:+ x) Hc) as [t1 ->].
  destruct (trimEnd_head c t Hc) as [t2 ->].
  rewrite !startsWith_head. reflexivity.
Qed.

Lemma append_assoc (a b c : string) : (a +:+ b) +:+ c = a +:+ (b +:+ c).
Proof.
  induction a as [| x a IH]; [reflexivity |].
  change (String x a +:+ b) with (String x (a +:+ b)).
  change (String x (a +:+ b) +:+ c) with (String x ((a +:+ b) +:+ c)).
  rewrite IH. reflexivity.
Qed.

Lemma join_merge (sep b m : string) (more : list string) :
  JString.join sep (((b +:+ sep) +:+ m) :: more) = JString.join sep (b :: m :: more).
Proof.
  cbn [JString.join]. destruct more as [| y more].
  - apply append_assoc.
  - rewrite !append_assoc. reflexivity.
Qed.

Lemma readLines_never_complete (more : list string) (sep : string)
  (rest : list string) (builder : string) :
  StdioTransport.started builder = true ->
  (forall x, StdioTransport.isCompleteJsonMessage (builder +:+ x) = false) ->
  Forall (fun line => JString.trim_isEmpty line = false) more ->
  JString.trim_isEmpty sep = true ->
  StdioTransport.readLines builder (more ++ sep :: rest)
  = (JString.join JString.LF (builder :: more), rest)
  /\ StdioTransport.readLines builder more
     = (JString.join JString.LF (builder :: more), []).
Proof.
  intros Hb Hnever Hmore Hsep. revert builder Hb Hnever.
  induction Hmore as [| m more Hm _ IH]; intros builder Hb Hnever.
  - cbn [app StdioTransport.readLines JString.join]. rewrite Hsep, Hb.
    split; reflexivity.
  - cbn [app StdioTransport.readLines]. rewrite Hm, Hb.
    rewrite append_assoc, Hnever, <- append_assoc.
    rewrite <- join_merge. apply IH.
    + apply started_app_r. exact (started_of_not_blank m Hm).
    + intros x. rewrite !append_assoc. apply Hnever.
Qed.

(** X23.  A first line that is not blank and whose text does not start
    with an opening brace is never a complete message, whatever is added
    to it: [readMessage] then takes it together with all the lines that
    follow, up to the next blank line or to the end of the input, as one
    message -- complete JSON messages on these lines included. *)
Theorem X23_a_line_that_is_no_object_takes_the_lines_after_it
  (line sep : string) (more rest : list string)
  (Hline : JString.trim_isEmpty line = false)
  (Hstart : JString.startsWith (JString.trim line) "{" = false)
  (Hmore : Forall (fun l => JString.trim_isEmpty l = false) more)
  (Hsep : JString.trim_isEmpty sep = true) :
  StdioTransport.readMessage (line :: more ++ sep :: rest)
  = (Some (JString.join JString.LF (line :: more)), rest)
  /\ StdioTransport.readMessage (line :: more)
     = (Some (JString.join JString.LF (line :: more)), []).
Proof.
  assert (Hnever : forall x,
             StdioTransport.isCompleteJsonMessage (line +:+ x) = false).
  { intros x. unfold StdioTransport.isCompleteJsonMessage.
    rewrite (trim_startsWith_app line x "{" Hline), Hstart. reflexivity. }
  pose proof (Hnever "") as Hline_incomplete.
  assert (Hnil : line +:+ "" = line).
  { clear. induction line as [| c l IH]; [reflexivity |].
    change (String c l +:+ "") with (String c (l +:+ "")). rewrite IH. reflexivity. }
  rewrite Hnil in Hline_incomplete.
  pose proof (started_of_not_blank line Hline) as Hs.
  destruct (readLines_never_complete more sep rest line Hs Hnever Hmore Hsep)
    as [H1 H2].
  assert (Hjoin : StdioTransport.started (JString.join JString.LF (line :: more))
                  = true).
  { cbn [JString.join]. destruct more; [exact Hs |].
    destruct line; [discriminate Hs | reflexivity]. }
  unfold StdioTransport.readMessage.
  cbn [StdioTransport.readLines StdioTransport.started].
  change ("" +:+ line) with line.
  rewrite Hline, Hline_incomplete, H1, H2, Hjoin. split; reflexivity.
Qed.

(** X23 at work: a stray word before two requests. *)
Lemma X23_a_line_that_is_no_object_takes_the_lines_after_it_witness :
  StdioTransport.readMessage ["hello"; "{}"; "{}"; ""; "{}"]
  = (Some (JString.join JString.LF ["hello"; "{}"; "{}"]), ["{}"]).
Proof.
  assert (H1 : JString.trim_isEmpty "hello" = false) by reflexivity.
  assert (H2 : JString.startsWith (JString.trim "hello") "{" = false) by reflexivity.
  assert (H3 : Forall (fun l => JString.trim_isEmpty l = false) ["{}"; "{}"]).
  { repeat constructor. }
  assert (H4 : JString.trim_isEmpty "" = true) by reflexivity.
  exact (proj1 (X23_a_line_that_is_no_object_takes_the_lines_after_it
                  "hello" "" ["{}"; "{}"] ["{}"] H1 H2 H3 H4)).
Defined.

Lemma trimStart_blank (s : string) :
  JString.all_trimmable s = true -> JString.trimStart s = "".
Proof.
  induction s as [| c s IH]; [reflexivity |].
  cbn [JString.all_trimmable JString.trimStart].
  destruct (JString.isTrimmable c); [exact IH | discriminate].
Qed.

Lemma trimStart_decomp (s : string) :
  exists ws, s = ws +:+ JString.trimStart s /\ JString.all_trimmable ws = true.
Proof.
  induction s as [| c s (ws & IH & Hws)]; [exists ""; split; reflexivity |].
  cbn [JString.trimStart]. destruct (JString.isTrimmable c) eqn:E.
  - exists (String c ws). split.
    + change (String c ws +:+ JString.trimStart s)
        with (String c (ws +:+ JString.trimStart s)).
      rewrite <- IH. reflexivity.
    + cbn [JString.all_trimmable]. rewrite E, Hws. reflexivity.
  - exists "". split; reflexivity.
Qed.

Lemma trimEnd_decomp (s : string) :
  exists ws, s = JString.trimEnd s +:+ ws /\ JString.all_trimmable ws = true.
Proof.
  induction s as [| c s (ws & IH & Hws)]; [exists ""; split; reflexivity |].
  cbn [JString.trimEnd]. destruct (JString.trimEnd s) as [| d t] eqn:Et.
  - change ("" +:+ ws) with ws in IH. subst s.
    destruct (JString.isTrimmable c) eqn:E.
    + exists (String c ws). split; [reflexivity |].
      cbn [JString.all_trimmable]. rewrite E, Hws. reflexivity.
    + exists ws. split; [reflexivity | exact Hws].
  - exists ws. split; [| exact Hws].
    change (String c (String d t) +:+ ws) with (String c (String d t +:+ ws)).
    rewrite <- IH. reflexivity.
Qed.

Lemma trimEnd_app (u b : string) :
  JString.trimEnd b <> "" ->
  JString.trimEnd (u +:+ b) = u +:+ JString.trimEnd b.
Proof.
  intros Hb. induction u as [| c u IH]; [reflexivity |].
  change (String c u +:+ b) with (String c (u +:+ b)).
  change (String c u +:+ JString.trimEnd b) with (String c (u +:+ JString.trimEnd b)).
  cbn [JString.trimEnd]. rewrite IH.
  destruct (u +:+ JString.trimEnd b) as [| d t] eqn:E; [| reflexivity].
  exfalso. apply Hb. destruct u; [exact E | discriminate E].
Qed.

Lemma scan_app (st : StdioTransport.Scan) (a b : string) :
  StdioTransport.scan st (a +:+ b)
  = StdioTransport.scan (StdioTransport.scan st a) b.
Proof.
  revert st. induction a as [| c a IH]; intros st; [reflexivity |].
  change (String c a +:+ b) with (String c (a +:+ b)).
  cbn [StdioTransport.scan]. apply IH.
Qed.

Lemma trimmable_is_not_special (c : ascii) :
  JString.isTrimmable c = true ->
  Ascii.eqb c "\" = false
  /\ Ascii.eqb c StdioTransport.quote = false
  /\ Ascii.eqb c "{" = false
  /\ Ascii.eqb c "}" = false.
Proof.
  destruct c as [[] [] [] [] [] [] [] []]; vm_compute; intros H;
    try discriminate H; repeat split.
Qed.

(** Blanks outside an escape leave the variables of the loop as they
    are. *)
Lemma scan_blank (st : StdioTransport.Scan) (ws : string) :
  StdioTransport.escaped st = false ->
  JString.all_trimmable ws = true ->
  StdioTransport.scan st ws = st.
Proof.
  intros Hesc. induction ws as [| c ws IH]; intros Hws; [reflexivity |].
  cbn [JString.all_trimmable] in Hws. apply andb_prop in Hws as [Hc Hws].
  destruct (trimmable_is_not_special c Hc) as (H1 & H2 & H3 & H4).
  cbn [StdioTransport.scan]. unfold StdioTransport.scanChar.
  rewrite Hesc, H1, H2, H3, H4. cbn [andb].
  destruct (negb (StdioTransport.inString st)); exact (IH Hws).
Qed.

Lemma endsWith_app (a b suffix : string) :
  JString.endsWith b suffix = true -> JString.endsWith (a +:+ b) suffix = true.
Proof.
  intros H. induction a as [| c a IH]; [exact H |].
  change (String c a +:+ b) with (String c (a +:+ b)).
  cbn [JString.endsWith]. rewrite IH. apply orb_true_r.
Qed.

Lemma isCompleteJsonMessage_true (m : string) :
  StdioTransport.isCompleteJsonMessage m = true ->
  JString.startsWith (JString.trim m) "{" = true
  /\ JString.endsWith (JString.trim m) "}" = true
  /\ StdioTransport.braceCount
       (StdioTransport.scan (StdioTransport.mkScan 0 false false) (JString.trim m))
     = 0%Z.
Proof.
  unfold StdioTransport.isCompleteJsonMessage.
  destruct (JString.startsWith (JString.trim m) "{"); [| discriminate].
  destruct (JString.endsWith (JString.trim m) "}"); [| discriminate].
  cbn [negb orb]. intros H. apply Z.eqb_eq in H. repeat split. exact H.
Qed.

(** X24.  Two complete messages written one after the other are one
    complete message for [isCompleteJsonMessage], provided the first one
    ends outside a string literal and outside an escape, as any JSON
    object does: a line that holds two requests is read as one message. *)
Theorem X24_two_complete_messages_in_a_row_are_one
  (a b : string)
  (Ha : StdioTransport.isCompleteJsonMessage a = true)
  (Hstring : StdioTransport.inString
               (StdioTransport.scan (StdioTransport.mkScan 0 false false)
                  (JString.trim a)) = false)
  (Hescaped : StdioTransport.escaped
                (StdioTransport.scan (StdioTransport.mkScan 0 false false)
                   (JString.trim a)) = false)
  (Hb : StdioTransport.isCompleteJsonMessage b = true) :
  StdioTransport.isCompleteJsonMessage (a +:+ b) = true.
Proof.
  apply isCompleteJsonMessage_true in Ha as (Hastart & _ & Hacount).
  apply isCompleteJsonMessage_true in Hb as (Hbstart & Hbend & Hbcount).
  assert (Hablank : JString.all_trimmable a = false).
  { destruct (JString.all_trimmable a) eqn:E; [| reflexivity].
    unfold JString.trim in Hastart. rewrite (trimStart_blank a E) in Hastart.
    discriminate Hastart. }
  assert (Hbfull : JString.trimEnd (JString.trimStart b) <> "").
  { intros E. unfold JString.trim in Hbstart. rewrite E in Hbstart.
    discriminate Hbstart. }
  destruct (trimStart_decomp b) as (wsb & Hbdecomp & Hwsb).
  destruct (trimEnd_decomp (JString.trimStart a)) as (wsa & Hadecomp & Hwsa).
  assert (Htrim : JString.trim (a +:+ b)
                  = ((JString.trim a +:+ wsa) +:+ wsb) +:+ JString.trim b).
  { unfold JString.trim. rewrite (trimStart_app a b Hablank).
    rewrite Hbdecomp at 1. rewrite <- append_assoc.
    rewrite (trimEnd_app _ _ Hbfull). rewrite <- Hadecomp. reflexivity. }
  assert (Hinit : StdioTransport.scan (StdioTransport.mkScan 0 false false)
                    (JString.trim a)
                  = StdioTransport.mkScan 0 false false).
  { destruct (StdioTransport.scan _ (JString.trim a)) as [n s e].
    cbn in Hacount, Hstring, Hescaped. subst. reflexivity. }
  unfold StdioTransport.isCompleteJsonMessage. rewrite Htrim.
  assert (Hstart : JString.startsWith
                     (((JString.trim a +:+ wsa) +:+ wsb) +:+ JString.trim b) "{"
                   = true).
  { unfold JString.startsWith in *. do 3 apply prefix_app. exact Hastart. }
  rewrite Hstart, (endsWith_app _ _ _ Hbend). cbn [negb orb].
  rewrite !scan_app, Hinit.
  rewrite (scan_blank (StdioTransport.mkScan 0 false false) wsa eq_refl Hwsa).
  rewrite (scan_blank (StdioTransport.mkScan 0 false false) wsb eq_refl Hwsb).
  rewrite Hbcount. reflexivity.
Qed.

(** X24 at work: a ping and a listing on one line. *)
Lemma X24_two_complete_messages_in_a_row_are_one_witness :
  StdioTransport.isCompleteJsonMessage ("{a:1} " +:+ " {b:{}}") = true.
Proof.
  assert (H1 : StdioTransport.isCompleteJsonMessage "{a:1} " = true) by reflexivity.
  assert (H2 : StdioTransport.inString
                 (StdioTransport.scan (StdioTransport.mkScan 0 false false)
                    (JString.trim "{a:1} ")) = false) by reflexivity.
  assert (H3 : StdioTransport.escaped
                 (StdioTransport.scan (StdioTransport.mkScan 0 false false)
                    (JString.trim "{a:1} ")) = false) by reflexivity.
  assert (H4 : StdioTransport.isCompleteJsonMessage " {b:{}}" = true) by reflexivity.
  exact (X24_two_complete_messages_in_a_row_are_one _ _ H1 H2 H3 H4).
Defined.

(** ** The JavaScript servers *)

(** X25.  A call of a tool that is not there: the universal server,
    whose registry does not hold the name, throws an [McpError] with the
    code [InternalError] (-32603) that carries the registry's message,
    and leaves the collaborators as they are; the plain server, for a
    name other than its two tools, throws an [McpError] with
    [MethodNotFound] (-32601). *)
Theorem X25_unknown_tool_in_the_two_javascript_servers {World : Type}
  (stringify : JsonNode -> string) (reg : ToolsRegistry.t World)
  (name now : string) (args : option JsonNode) (w : World)
  (Hreg : JSMap.has reg name = false)
  (Hecho : name <> "echo") (Htime : name <> "get_time") :
  McpServers.universalCallTool stringify name args reg w
  = (inl (McpServers.McpError (-32603)
            ("Error ejecutando " +:+ name +:+ ": Herramienta '" +:+ name
             +:+ "' no encontrada")), w)
  /\ McpServers.simpleCallTool now name args
     = inl (McpServers.McpError (-32601) ("Herramienta desconocida: " +:+ name)).
Proof.
  split.
  - unfold McpServers.universalCallTool, ToolsRegistry.executeTool.
    rewrite Hreg. reflexivity.
  - unfold McpServers.simpleCallTool.
    apply String.eqb_neq in Hecho, Htime. rewrite Hecho, Htime. reflexivity.
Qed.

(** X25 at work. *)
Lemma X25_unknown_tool_in_the_two_javascript_servers_witness :
  McpServers.simpleCallTool "2024-01-01T00:00:00.000Z" "sum" None
  = inl (McpServers.McpError (-32601) "Herramienta desconocida: sum").
Proof.
  assert (H1 : JSMap.has [("echo", @ToolsRegistry.echo unit)] "sum" = false)
    by reflexivity.
  assert (H2 : "sum" <> "echo") by discriminate.
  assert (H3 : "sum" <> "get_time") by discriminate.
  exact (proj2 (X25_unknown_tool_in_the_two_javascript_servers
                  (fun _ => "{}") [("echo", ToolsRegistry.echo)] "sum"
                  "2024-01-01T00:00:00.000Z" None tt H1 H2 H3)).
Defined.

(** X26.  The two servers agree on [echo]: with the registry's [echo]
    tool under its name, every call that the plain server answers is
    answered by the universal server with the same result, the
    collaborators untouched; where the plain server lets the [TypeError]
    of missing arguments through, the universal server throws an
    [McpError] with [InternalError] and the message of that error. *)
Theorem X26_the_two_javascript_servers_agree_on_echo {World : Type}
  (stringify : JsonNode -> string) (reg : ToolsRegistry.t World)
  (now : string) (args : option JsonNode) (w : World)
  (Hecho : JSMap.get reg "echo" = Some ToolsRegistry.echo) :
  match McpServers.simpleCallTool now "echo" args with
  | inr result =>
      McpServers.universalCallTool stringify "echo" args reg w = (inr result, w)
  | inl (McpServers.OtherError e) =>
      McpServers.universalCallTool stringify "echo" args reg w
      = (inl (McpServers.McpError McpServers.InternalError
                ("Error ejecutando echo: " +:+ ToolsRegistry.errorMessage e)), w)
  | inl (McpServers.McpError _ _) => False
  end.
Proof.
  unfold McpServers.universalCallTool, ToolsRegistry.executeTool.
  rewrite (JSMap_has_get _ _ _ Hecho), Hecho. cbn [negb].
  change (McpServers.simpleCallTool now "echo" args)
    with (match ToolsRegistry.getProp args "message" with
          | inl e => inl (McpServers.OtherError e)
          | inr message =>
              inr (McpServers.textContent
                     ("Echo: " +:+ ToolsRegistry.template message))
          end).
  cbn [ToolsRegistry.handler ToolsRegistry.echo].
  destruct (ToolsRegistry.getProp args "message") as [e | message]; reflexivity.
Qed.

(** X26 at work: an echo without arguments. *)
Lemma X26_the_two_javascript_servers_agree_on_echo_witness :
  McpServers.universalCallTool (fun _ => "{}") "echo" None
    [("echo", ToolsRegistry.echo)] tt
  = (inl (McpServers.McpError (-32603)
            "Error ejecutando echo: Cannot read properties of undefined (reading 'message')"),
     tt).
Proof.
  assert (H : JSMap.get [("echo", @ToolsRegistry.echo unit)] "echo"
              = Some ToolsRegistry.echo) by reflexivity.
  exact (X26_the_two_javascript_servers_agree_on_echo
           (fun _ => "{}") [("echo", ToolsRegistry.echo)] "now" None tt H).
Defined.

(** ** LLMManager *)

Lemma JSMap_has_set {V : Type} (m : list (string * V)) (k k' : string) (v : V) :
  JSMap.has (JSMap.set m k' v) k = true -> k = k' \/ JSMap.has m k = true.
Proof.
  destruct (String.eqb k' k) eqn:E.
  - apply String.eqb_eq in E. left. symmetry. exact E.
  - apply String.eqb_neq in E. unfold JSMap.has.
    rewrite (JSMap_get_set_ne m k k' v E). right. assumption.
Qed.

Lemma JSMap_set_if_nil {V : Type} (c : bool) (m : list (string * V))
  (k : string) (v : V) :
  (if c then JSMap.set m k v else m) = [] -> c = false /\ m = [].
Proof.
  destruct c; [| intros ->; split; reflexivity].
  destruct m as [| [k' v'] rest]; cbn [JSMap.set]; [discriminate |].
  destruct (String.eqb k' k); discriminate.
Qed.

Lemma supported_set_if {V : Type} (c : bool) (m : list (string * V))
  (k : string) (v : V) :
  LLMManager.supported k ->
  (forall p, JSMap.has m p = true -> LLMManager.supported p) ->
  forall p, JSMap.has (if c then JSMap.set m k v else m) p = true ->
            LLMManager.supported p.
Proof.
  intros Hk Hm p. destruct c; [| apply Hm].
  intros H. apply JSMap_has_set in H as [-> | H]; [exact Hk | exact (Hm p H)].
Qed.

(** One call of [initialize()] on a manager whose providers are among the
    three and which is initialized exactly when it has a provider. *)
Lemma initialize_step {Num : Type} (maxTokensOf : option string -> Num)
  (env : LLMManager.Env) (m : LLMManager.LLMManager Num) :
  (forall p, JSMap.has (LLMManager.providers m) p = true -> LLMManager.supported p) ->
  (LLMManager.initialized m = true <-> LLMManager.providers m <> []) ->
  let m' := snd (LLMManager.initialize maxTokensOf env m) in
  (forall p, JSMap.has (LLMManager.providers m') p = true -> LLMManager.supported p)
  /\ (LLMManager.initialized m' = true <-> LLMManager.providers m' <> [])
  /\ (LLMManager.initialized m' = true
      <-> LLMManager.initialized m = true \/ LLMManager.anyKey env = true).
Proof.
  intros Hknown Hinit. unfold LLMManager.initialize, LLMManager.anyKey.
  remember (LLMManager.isSet (env "OPENAI_API_KEY")) as c1 eqn:C1.
  remember (LLMManager.isSet (env "GOOGLE_API_KEY")) as c2 eqn:C2.
  remember (LLMManager.isSet (env "HUGGINGFACE_API_KEY")) as c3 eqn:C3.
  clear C1 C2 C3.
  match goal with
  | |- context [if c1 then ?a else ?b] => remember (if c1 then a else b) as ps1 eqn:P1
  end.
  match goal with
  | |- context [if c2 then ?a else ?b] => remember (if c2 then a else b) as ps2 eqn:P2
  end.
  match goal with
  | |- context [if c3 then ?a else ?b] => remember (if c3 then a else b) as ps3 eqn:P3
  end.
  assert (Hknown3 : forall p, JSMap.has ps3 p = true -> LLMManager.supported p).
  { rewrite P3. apply supported_set_if; [right; right; reflexivity |].
    rewrite P2. apply supported_set_if; [right; left; reflexivity |].
    rewrite P1. apply supported_set_if; [left; reflexivity | exact Hknown]. }
  destruct ps3 as [| entry ps3'].
  - symmetry in P3. apply JSMap_set_if_nil in P3 as [-> P3]. rewrite P3 in P2.
    symmetry in P2. apply JSMap_set_if_nil in P2 as [-> P2]. rewrite P2 in P1.
    symmetry in P1. apply JSMap_set_if_nil in P1 as [-> P1].
    cbn [JSMap.size length Nat.eqb snd LLMManager.providers LLMManager.initialized orb].
    split; [exact Hknown3 |]. split.
    + rewrite Hinit, P1. reflexivity.
    + split; [intros H; left; exact H | intros [H | H]; [exact H | discriminate H]].
  - cbn [JSMap.size length Nat.eqb snd LLMManager.providers LLMManager.initialized].
    split; [exact Hknown3 |]. split.
    + split; [discriminate | reflexivity].
    + split; [| reflexivity]. intros _.
      destruct c1; [right; reflexivity |].
      destruct c2; [right; reflexivity |].
      destruct c3; [right; reflexivity |].
      left. apply Hinit. intros K. rewrite K in P1. subst ps1 ps2. discriminate P3.
Qed.

Lemma initializes_inv {Num : Type} (maxTokensOf : option string -> Num)
  (envs : list LLMManager.Env) (m : LLMManager.LLMManager Num) :
  (forall p, JSMap.has (LLMManager.providers m) p = true -> LLMManager.supported p) ->
  (LLMManager.initialized m = true <-> LLMManager.providers m <> []) ->
  let m' := LLMManager.initializes maxTokensOf envs m in
  (forall p, JSMap.has (LLMManager.providers m') p = true -> LLMManager.supported p)
  /\ (LLMManager.initialized m' = true <-> LLMManager.providers m' <> [])
  /\ (LLMManager.initialized m' = true
      <-> LLMManager.initialized m = true
          \/ Exists (fun env => LLMManager.anyKey env = true) envs).
Proof.
  revert m. induction envs as [| env envs IH]; intros m Hknown Hinit.
  - cbn. split; [exact Hknown |]. split; [exact Hinit |].
    split; [intros H; left; exact H | intros [H | H]; [exact H | inversion H]].
  - destruct (initialize_step maxTokensOf env m Hknown Hinit) as (H1 & H2 & H3).
    destruct (IH _ H1 H2) as (K1 & K2 & K3).
    change (LLMManager.initializes maxTokensOf (env :: envs) m)
      with (LLMManager.initializes maxTokensOf envs
              (snd (LLMManager.initialize maxTokensOf env m))).
    cbn zeta. split; [exact K1 |]. split; [exact K2 |].
    rewrite K3, H3. rewrite List.Exists_cons. tauto.
Qed.

(** X27.  After any run of [initialize()] calls on a new manager: the
    manager is initialized exactly when some call found a key in its
    environment, and exactly when it has a provider; its providers are
    among [openai], [gemini] and [huggingface]; and while it is not
    initialized every [generateText] fails with the message of the first
    test, the collaborators untouched. *)
Theorem X27_llm_manager_is_initialized_once_a_key_was_set
  {Num World : Type} (maxTokensOf : option string -> Num)
  (generateWith :
     string -> option JsonNode -> LLMManager.ProviderConfig Num -> JsonNode + Num ->
     JsonNode -> World -> (ToolsRegistry.JSError + JsonNode) * World)
  (envs : list LLMManager.Env) :
  let m := LLMManager.initializes maxTokensOf envs LLMManager.newLLMManager in
  (LLMManager.initialized m = true
   <-> Exists (fun env => LLMManager.anyKey env = true) envs)
  /\ (LLMManager.initialized m = true <-> LLMManager.getAvailableProviders m <> [])
  /\ (forall p, LLMManager.isProviderAvailable p m = true -> LLMManager.supported p)
  /\ (LLMManager.initialized m = false ->
      forall prompt provider options w,
        LLMManager.generateText generateWith prompt provider options m w
        = (inl (ToolsRegistry.JsError "Error" "LLMManager no ha sido inicializado"),
           w)).
Proof.
  destruct (initializes_inv maxTokensOf envs LLMManager.newLLMManager)
    as (H1 & H2 & H3).
  { intros p H. discriminate H. }
  { cbn. split; [discriminate | intros H; exfalso; apply H; reflexivity]. }
  cbn zeta. repeat split.
  - intros H. apply H3 in H as [H | H]; [discriminate H | exact H].
  - intros H. apply H3. right. exact H.
  - intros H K. apply H2 in H. apply H.
    unfold LLMManager.getAvailableProviders, JSMap.keys in K.
    destruct (LLMManager.providers _); [reflexivity | discriminate K].
  - intros H. apply H2. intros K. apply H.
    unfold LLMManager.getAvailableProviders. rewrite K. reflexivity.
  - exact H1.
  - intros Hno prompt provider options w.
    unfold LLMManager.generateText. rewrite Hno. reflexivity.
Qed.

(** X28.  One [initialize()] on a new manager: the providers are those
    of the three whose key is set in the environment, in the order
    [openai], [gemini], [huggingface], and the call throws exactly when
    there is none. *)
Theorem X28_initialize_registers_the_providers_with_a_key
  {Num : Type} (maxTokensOf : option string -> Num) (env : LLMManager.Env) :
  let r := LLMManager.initialize maxTokensOf env LLMManager.newLLMManager in
  LLMManager.getAvailableProviders (snd r)
  = List.filter (fun p => LLMManager.isSet (env (LLMManager.apiKeyOf p)))
      ["openai"; "gemini"; "huggingface"]
  /\ (fst r = None <-> LLMManager.getAvailableProviders (snd r) <> [])
  /\ (fst r = None <-> LLMManager.initialized (snd r) = true).
Proof.
  unfold LLMManager.initialize. cbn [List.filter].
  change (LLMManager.apiKeyOf "openai") with "OPENAI_API_KEY".
  change (LLMManager.apiKeyOf "gemini") with "GOOGLE_API_KEY".
  change (LLMManager.apiKeyOf "huggingface") with "HUGGINGFACE_API_KEY".
  destruct (LLMManager.isSet (env "OPENAI_API_KEY"));
    destruct (LLMManager.isSet (env "GOOGLE_API_KEY"));
    destruct (LLMManager.isSet (env "HUGGINGFACE_API_KEY"));
    cbn; repeat split; try discriminate; try reflexivity;
    intros H; exfalso; apply H; reflexivity.
Qed.

(** X29.  For a provider that a manager has after any run of
    [initialize()] calls, and options that are not [null]: [generateText]
    makes the request to that provider, with the entry of the provider,
    and with the [maxTokens] of the options when that is a true value and
    of the entry otherwise.  The last case of the [switch] is never
    reached. *)
Theorem X29_generateText_reaches_the_provider
  {Num World : Type} (maxTokensOf : option string -> Num)
  (generateWith :
     string -> option JsonNode -> LLMManager.ProviderConfig Num -> JsonNode + Num ->
     JsonNode -> World -> (ToolsRegistry.JSError + JsonNode) * World)
  (envs : list LLMManager.Env) (p : string)
  (config : LLMManager.ProviderConfig Num)
  (prompt : option JsonNode) (options : JsonNode) (requested : option JsonNode)
  (w : World)
  (Hconfig : JSMap.get
               (LLMManager.providers
                  (LLMManager.initializes maxTokensOf envs LLMManager.newLLMManager))
               p = Some config)
  (Hoptions : ToolsRegistry.getProp (Some options) "maxTokens" = inr requested) :
  LLMManager.supported p
  /\ LLMManager.generateText generateWith prompt (Some (TextNode p)) (Some options)
       (LLMManager.initializes maxTokensOf envs LLMManager.newLLMManager) w
     = generateWith p prompt config
         match requested with
         | Some v => if LLMManager.truthy requested then inl v
                     else inr (LLMManager.maxTokens config)
         | None => inr (LLMManager.maxTokens config)
         end
         options w.
Proof.
  destruct (initializes_inv maxTokensOf envs LLMManager.newLLMManager)
    as (H1 & H2 & _).
  { intros q H. discriminate H. }
  { cbn. split; [discriminate | intros H; exfalso; apply H; reflexivity]. }
  cbn zeta in H1, H2.
  set (m := LLMManager.initializes maxTokensOf envs LLMManager.newLLMManager) in *.
  pose proof (JSMap_has_get _ _ _ Hconfig) as Hhas.
  pose proof (H1 p Hhas) as Hsupported.
  assert (Hinit : LLMManager.initialized m = true).
  { apply H2. intros K. rewrite K in Hconfig. discriminate Hconfig. }
  split; [exact Hsupported |].
  unfold LLMManager.generateText, LLMManager.hasProvider.
  rewrite Hinit, Hhas, Hconfig, Hoptions. cbn [negb].
  destruct Hsupported as [-> | [-> | ->]]; reflexivity.
Qed.

(** X29 at work: a manager with the Gemini key only. *)
Lemma X29_generateText_reaches_the_provider_witness :
  LLMManager.generateText
    (fun provider _ _ _ _ (w : unit) => (inr (TextNode provider), w))
    (Some (TextNode "hola")) (Some (TextNode "gemini")) (Some (ObjectNode []))
    (LLMManager.initializes (fun _ => 4096%Z)
       [fun k => if String.eqb k "GOOGLE_API_KEY" then Some "k" else None]
       LLMManager.newLLMManager) tt
  = (inr (TextNode "gemini"), tt).
Proof.
  assert (H1 : JSMap.get
                 (LLMManager.providers
                    (LLMManager.initializes (fun _ => 4096%Z)
                       [fun k => if String.eqb k "GOOGLE_API_KEY" then Some "k"
                                 else None]
                       LLMManager.newLLMManager))
                 "gemini"
               = Some {| LLMManager.model := "gemini-1.5-flash";
                         LLMManager.maxTokens := 4096%Z |}) by reflexivity.
  assert (H2 : ToolsRegistry.getProp (Some (ObjectNode [])) "maxTokens" = inr None)
    by reflexivity.
  exact (proj2 (X29_generateText_reaches_the_provider
                  (fun _ => 4096%Z)
                  (fun provider _ _ _ _ (w : unit) => (inr (TextNode provider), w))
                  _ "gemini" _ (Some (TextNode "hola")) (ObjectNode []) None tt
                  H1 H2)).
Defined.
